(** * A shallow embedding of adlauncher-core: [components/launcher.js]
    (class [Launcher]) and the downloader module (class [Downloader]). *)

From Stdlib Require Import String Ascii List Bool ZArith Lia.
Import ListNotations.
Set Warnings "-register-all".
Open Scope string_scope.
Open Scope list_scope.

(* ------------------------------------------------------------------ *)
(** ** JavaScript values *)

(** Values produced by [JSON.parse]. Objects keep their keys in order; the
    parser keeps one binding per key. *)
Inductive json : Type :=
| JNull
| JBool (b : bool)
| JNum (n : Z)
| JStr (s : string)
| JArr (l : list json)
| JObj (l : list (string * json)).

(** A JavaScript value as seen by the code: [undefined] or a JSON value. *)
Inductive jsv : Type :=
| Undef
| Val (j : json).

(** Thrown JavaScript errors. *)
Inductive err : Type :=
| TypeError (what : string)
| SyntaxError
| ENOENT
| EISDIR
| ENOTDIR
| EEXIST
| Thrown (msg : string).

Inductive res (A : Type) : Type :=
| Ok (a : A)
| Err (e : err).
Arguments Ok {A} a.
Arguments Err {A} e.

Definition res_bind {A B} (r : res A) (f : A -> res B) : res B :=
  match r with Ok a => f a | Err e => Err e end.

Notation "'let?' x := r 'in' f" := (res_bind r (fun x => f))
  (at level 200, x name, r at level 100, f at level 200).

Fixpoint assoc {A} (k : string) (l : list (string * A)) : option A :=
  match l with
  | [] => None
  | (k', v) :: r => if String.eqb k k' then Some v else assoc k r
  end.

(** Property read [o[k]] on a JSON value (no prototype chain). *)
Definition jget (j : json) (k : string) : jsv :=
  match j with
  | JObj l => match assoc k l with Some v => Val v | None => Undef end
  | _ => Undef
  end.

(** [v.k]: reading a property of [undefined] or [null] throws. *)
Definition prop (v : jsv) (k : string) : res jsv :=
  match v with
  | Undef | Val JNull => Err (TypeError k)
  | Val j => Ok (jget j k)
  end.

(** JavaScript truthiness. *)
Definition truthy (v : jsv) : bool :=
  match v with
  | Undef | Val JNull | Val (JBool false) | Val (JNum 0) | Val (JStr "") => false
  | _ => true
  end.

(** A string argument of a Node API: anything else throws. *)
Definition as_string (v : jsv) : res string :=
  match v with Val (JStr s) => Ok s | _ => Err (TypeError "string") end.

(** Receiver of an array method ([forEach], [find], [push], [flat]). *)
Definition as_array (v : jsv) : res (list json) :=
  match v with Val (JArr l) => Ok l | _ => Err (TypeError "array") end.

(* ------------------------------------------------------------------ *)
(** ** Strings *)

(** [s.split(c)] for a one-character separator. *)
Fixpoint split_on (c : ascii) (s : string) : list string :=
  match s with
  | EmptyString => [""]
  | String a r =>
      let rest := split_on c r in
      if Ascii.eqb a c then "" :: rest
      else match rest with
           | h :: t => String a h :: t
           | [] => [String a ""]
           end
  end.

(** [arr.slice(-n)]. *)
Definition slice_neg {A} (n : nat) (l : list A) : list A :=
  skipn (List.length l - n) l.

(** [s.includes(sub)]. *)
Definition str_includes (s sub : string) : bool :=
  match String.index 0 sub s with Some _ => true | None => false end.

Definition str_in (s : string) (l : list string) : bool :=
  existsb (String.eqb s) l.

(** [path.basename(p)] (POSIX, no extension argument). *)
Definition basename (p : string) : string :=
  last (filter (fun x => negb (String.eqb x "")) (split_on "/" p)) "".

Fixpoint last_dot_aux (i : nat) (s : string) (acc : option nat) : option nat :=
  match s with
  | EmptyString => acc
  | String a r => last_dot_aux (S i) r (if Ascii.eqb a "." then Some i else acc)
  end.

(** [path.extname(name)] for a file name without a separator: the suffix
    from the last dot, empty when there is no dot, when the only dot
    leads the name, and for [".."]. *)
Definition extname (name : string) : string :=
  match last_dot_aux 0 name None with
  | None | Some 0 => ""
  | Some k =>
      if String.eqb name ".." then ""
      else substring k (String.length name - k) name
  end.

(* ------------------------------------------------------------------ *)
(** ** The file system *)

(** File contents: a document that [JSON.parse] accepts, or anything else
    (binary archives, jars, broken text). *)
Inductive raw : Type :=
| RJson (j : json)
| RBytes (b : string).

Inductive node : Type :=
| File (c : raw)
| Dir (kids : list (string * node)).

(** Absolute, normalised paths as segment lists. *)
Definition path := list string.

(** The string [path.resolve] prints for a path. *)
Definition show_path (p : path) : string := ("/" ++ String.concat "/" p)%string.

Fixpoint lookup (n : node) (p : path) : option node :=
  match p with
  | [] => Some n
  | s :: r =>
      match n with
      | Dir kids => match assoc s kids with Some k => lookup k r | None => None end
      | File _ => None
      end
  end.

Fixpoint assoc_set {A} (k : string) (v : A) (l : list (string * A))
  : list (string * A) :=
  match l with
  | [] => [(k, v)]
  | (k', v') :: r => if String.eqb k k' then (k, v) :: r else (k', v') :: assoc_set k v r
  end.

Fixpoint assoc_del {A} (k : string) (l : list (string * A)) : list (string * A) :=
  match l with
  | [] => []
  | (k', v') :: r => if String.eqb k k' then r else (k', v') :: assoc_del k r
  end.

(** Replace the node at [p] by [x]; the last segment may be new, every
    earlier one must be an existing directory. *)
Fixpoint upd (n : node) (p : path) (x : node) : option node :=
  match p with
  | [] => Some x
  | s :: r =>
      match n with
      | File _ => None
      | Dir kids =>
          let sub := match assoc s kids with
                     | Some k => upd k r x
                     | None => match r with [] => Some x | _ => None end
                     end in
          match sub with
          | Some k' => Some (Dir (assoc_set s k' kids))
          | None => None
          end
      end
  end.

(** Remove the entry at [p] (a non-empty path). *)
Fixpoint rm (n : node) (p : path) : option node :=
  match p, n with
  | [], _ => None
  | _, File _ => None
  | [s], Dir kids =>
      match assoc s kids with Some _ => Some (Dir (assoc_del s kids)) | None => None end
  | s :: r, Dir kids =>
      match assoc s kids with
      | Some k => match rm k r with
                  | Some k' => Some (Dir (assoc_set s k' kids))
                  | None => None
                  end
      | None => None
      end
  end.

(** [mkdirSync(p, { recursive: true })]. *)
Fixpoint mkdir_p (n : node) (p : path) : option node :=
  match p with
  | [] => match n with Dir _ => Some n | File _ => None end
  | s :: r =>
      match n with
      | File _ => None
      | Dir kids =>
          let k := match assoc s kids with Some k => k | None => Dir [] end in
          match mkdir_p k r with
          | Some k' => Some (Dir (assoc_set s k' kids))
          | None => None
          end
      end
  end.

(** Effects a run performs, in order. *)
Inductive event : Type :=
| EvExists (p : path)
| EvRead (p : path)
| EvReaddir (p : path)
| EvWrite (p : path)
| EvUnlink (p : path)
| EvMkdir (p : path)
| EvDown (url : string) (dir : path) (name : string)
| EvExtract (zip : path) (dest : path).

(** Effects that change the disk or use the network. *)
Definition mutating (e : event) : bool :=
  match e with
  | EvExists _ | EvRead _ | EvReaddir _ => false
  | _ => true
  end.

Definition is_down (e : event) : bool :=
  match e with EvDown _ _ _ => true | _ => false end.

Record state : Type := mkState { st_disk : node; st_log : list event }.

(** The synchronous part of the code as a state and exception monad. *)
Definition M (A : Type) : Type := state -> res A * state.

Definition ret {A} (a : A) : M A := fun s => (Ok a, s).
Definition throw {A} (e : err) : M A := fun s => (Err e, s).
Definition bind {A B} (m : M A) (f : A -> M B) : M B :=
  fun s => match m s with
           | (Ok a, s') => f a s'
           | (Err e, s') => (Err e, s')
           end.
Definition lift {A} (r : res A) : M A := fun s => (r, s).
(** [try { m } catch (e) { h(e) }] *)
Definition catch {A} (m : M A) (h : err -> M A) : M A :=
  fun s => match m s with
           | (Err e, s') => h e s'
           | ok => ok
           end.

Notation "x <- m ;; f" := (bind m (fun x => f))
  (at level 61, m at next level, right associativity).
Notation "m ;;; f" := (bind m (fun _ => f))
  (at level 61, right associativity).

Definition emit (e : event) : M unit :=
  fun s => (Ok tt, mkState (st_disk s) (st_log s ++ [e])).

Definition set_disk (d : node) : M unit :=
  fun s => (Ok tt, mkState d (st_log s)).

Definition get_disk : M node := fun s => (Ok (st_disk s), s).

(** [fs.existsSync(p)] *)
Definition fs_exists (p : path) : M bool :=
  emit (EvExists p) ;;;
  d <- get_disk ;;
  ret (match lookup d p with Some _ => true | None => false end).

(** [JSON.parse(fs.readFileSync(p))] *)
Definition fs_read_json (p : path) : M json :=
  emit (EvRead p) ;;;
  d <- get_disk ;;
  match lookup d p with
  | None => throw ENOENT
  | Some (Dir _) => throw EISDIR
  | Some (File (RBytes _)) => throw SyntaxError
  | Some (File (RJson j)) => ret j
  end.

(** Opening [p] for writing and filling it with [c]. *)
Definition put_file (p : path) (c : raw) : M unit :=
  d <- get_disk ;;
  match lookup d p with
  | Some (Dir _) => throw EISDIR
  | _ => match upd d p (File c) with
         | Some d' => set_disk d'
         | None => throw ENOENT
         end
  end.

(** [fs.writeFileSync(p, c)] *)
Definition fs_write (p : path) (c : raw) : M unit :=
  emit (EvWrite p) ;;; put_file p c.

(** [fs.unlinkSync(p)] *)
Definition fs_unlink (p : path) : M unit :=
  emit (EvUnlink p) ;;;
  d <- get_disk ;;
  match lookup d p with
  | Some (File _) => match rm d p with Some d' => set_disk d' | None => throw ENOENT end
  | Some (Dir _) => throw EISDIR
  | None => throw ENOENT
  end.

(** [fs.mkdirSync(p)] and [fs.mkdirSync(p, { recursive: true })]. *)
Definition fs_mkdir (recursive : bool) (p : path) : M unit :=
  emit (EvMkdir p) ;;;
  d <- get_disk ;;
  if recursive then
    match mkdir_p d p with Some d' => set_disk d' | None => throw ENOTDIR end
  else
    match lookup d p with
    | Some _ => throw EEXIST
    | None => match upd d p (Dir []) with Some d' => set_disk d' | None => throw ENOENT end
    end.

(* ------------------------------------------------------------------ *)
(** ** [Launcher] *)

(** *** The base version: [options.version.match(/\b1\.\d+(\.\d+)?\b/g)[0]] *)

Definition is_digit (c : ascii) : bool :=
  let n := nat_of_ascii c in Nat.leb 48 n && Nat.leb n 57.

(** The [\w] class: [A-Za-z0-9_]. *)
Definition is_word (c : ascii) : bool :=
  let n := nat_of_ascii c in
  is_digit c || (Nat.leb 65 n && Nat.leb n 90) || (Nat.leb 97 n && Nat.leb n 122)
  || Nat.eqb n 95.

(** Longest prefix of digits ([\d+] is greedy). *)
Fixpoint digits (l : list ascii) : list ascii * list ascii :=
  match l with
  | c :: r => if is_digit c then let (d, r') := digits r in (c :: d, r') else ([], l)
  | [] => ([], [])
  end.

(** [\b] after a matched digit: the next character is not a word character. *)
Definition boundary_after (l : list ascii) : bool :=
  match l with [] => true | c :: _ => negb (is_word c) end.

(** The regular expression anchored at one position, [prev] being the
    character before it. Backtracking into [\d+] can never produce a
    boundary, so only the optional group is retried. *)
Definition try_at (prev : option ascii) (l : list ascii) : option (list ascii) :=
  let boundary_before := match prev with None => true | Some c => negb (is_word c) end in
  if negb boundary_before then None else
  match l with
  | "1"%char :: "."%char :: r =>
      let (d1, r1) := digits r in
      match d1 with
      | [] => None
      | _ =>
          let base := "1"%char :: "."%char :: d1 in
          let without := if boundary_after r1 then Some base else None in
          match r1 with
          | "."%char :: r2 =>
              let (d2, r3) := digits r2 in
              match d2 with
              | [] => without
              | _ => if boundary_after r3 then Some (base ++ "."%char :: d2) else without
              end
          | _ => without
          end
      end
  | _ => None
  end.

(** The leftmost match. *)
Fixpoint first_match (prev : option ascii) (l : list ascii) : option (list ascii) :=
  match l with
  | [] => None
  | c :: r => match try_at prev l with
              | Some m => Some m
              | None => first_match (Some c) r
              end
  end.

Definition match_version (v : string) : option string :=
  option_map string_of_list_ascii (first_match None (list_ascii_of_string v)).

(** [const custom = options.version !== version ? options.version : null] *)
Definition custom_of (full base : string) : option string :=
  if String.eqb full base then None else Some full.

(** *** [encontrarArchivosJAR(directorio, files, ver)] *)

Definition legacy_versions : list string := ["1.14"; "1.14.1"; "1.14.2"; "1.14.3"].

(** The filter applied to a plain file called [archivo]. *)
Definition jar_selected (archivo : string) (files : list string) (ver : string) : bool :=
  if str_in ver legacy_versions then
    String.eqb (extname archivo) ".jar" && str_in archivo files
  else
    String.eqb (extname archivo) ".jar" && str_in archivo files
    && negb (str_includes archivo "3.2.1").

(** The recursion over [readdirSync] (entries in directory order) and
    [statSync(..).isDirectory()]. *)
Fixpoint encontrar (dir : path) (n : node) (files : list string) (ver : string) : string :=
  match n with
  | File _ => ""
  | Dir kids =>
      (fix go (kids : list (string * node)) : string :=
         match kids with
         | [] => ""
         | (archivo, k) :: rest =>
             String.append
               (match k with
                | Dir _ => encontrar (dir ++ [archivo]) k files ver
                | File _ =>
                    if jar_selected archivo files ver
                    then String.append (show_path (dir ++ [archivo])) ";" else ""
                end)
               (go rest)
         end) kids
  end.

(** [readdirSync] throws on a missing path or a plain file. *)
Definition encontrarArchivosJAR (directorio : path) (files : list string) (ver : string)
  : M string :=
  emit (EvReaddir directorio) ;;;
  d <- get_disk ;;
  match lookup d directorio with
  | Some (Dir kids) => ret (encontrar directorio (Dir kids) files ver)
  | Some (File _) => throw ENOTDIR
  | None => throw ENOENT
  end.

(** *** [createProfile(root)] *)

Definition createProfile (root : path) : M unit :=
  e <- fs_exists (root ++ ["launcher_profiles.json"]) ;;
  if e then ret tt
  else fs_write (root ++ ["launcher_profiles.json"])
                (RJson (JObj [("profiles", JObj [])])).

(** *** [auth(root, us)] *)

(** [fil.find(x => x.name === us)]: the callback throws on [null]. *)
Fixpoint find_named (us : string) (l : list json) : res jsv :=
  match l with
  | [] => Ok Undef
  | x :: r =>
      let? nm := prop (Val x) "name" in
      match nm with
      | Val (JStr s) => if String.eqb s us then Ok (Val x) else find_named us r
      | _ => find_named us r
      end
  end.

(** [fresh] is the value [uuidv4()] returns on this call. *)
Definition auth (root : path) (us : string) (fresh : string) : M jsv :=
  catch (fil <- fs_read_json (root ++ ["usercache.json"]) ;;
         lift (let? arr := as_array (Val fil) in
               let? x := find_named us arr in
               prop x "uuid"))
        (fun _ => ret (Val (JStr fresh))).

(** *** [launch(options)] *)

Record options : Type := mkOptions {
  memory_min : string;
  memory_max : string;
  gameDirectory : path;
  version : string;
  username : string
}.

(** What [launch] hands to [spawn('java', args, { cwd })], with the
    required-library list it built on the way. *)
Record plan : Type := mkPlan {
  pl_reqLibs : list string;
  pl_mainClass : jsv;
  pl_libs : string;
  pl_args : list jsv;
  pl_cwd : path
}.

(** Directory names of the downloader instance ([this.downloader.versions] ...). *)
Definition d_versions := "versions".
Definition d_assets := "assets".
Definition d_libraries := "libraries".
Definition d_natives := "natives".
Definition d_cache := "cache".

Definition version_json (root : path) (v : string) : path :=
  root ++ [d_versions; v; String.append v ".json"].
Definition version_jar (root : path) (v : string) : path :=
  root ++ [d_versions; v; String.append v ".jar"].

(** [file.libraries.forEach(element => { if (element.downloads.artifact !==
    undefined) reqLibs.push(path.basename(element.downloads.artifact.path)) })] *)
Fixpoint base_reqlibs (ls : list json) : res (list string) :=
  match ls with
  | [] => Ok []
  | e :: r =>
      let? d := prop (Val e) "downloads" in
      let? a := prop d "artifact" in
      let? here := match a with
                   | Undef => Ok []
                   | _ => let? p := prop a "path" in
                          let? s := as_string p in
                          Ok [basename s]
                   end in
      let? rest := base_reqlibs r in
      Ok (here ++ rest)
  end.

(** [element.name.split(':').slice(-2).join("-").concat('.jar')] *)
Definition coord_jar (name : string) : string :=
  String.append (String.concat "-" (slice_neg 2 (split_on ":" name))) ".jar".

(** [customFile.libraries.forEach(element => reqLibs.push(coord_jar(element.name)))] *)
Fixpoint overlay_reqlibs (ls : list json) : res (list string) :=
  match ls with
  | [] => Ok []
  | e :: r =>
      let? n := prop (Val e) "name" in
      let? s := as_string n in
      let? rest := overlay_reqlibs r in
      Ok (coord_jar s :: rest)
  end.

(** [gameArgs]: an array the code built or pushed to, or whatever value
    [arguments.game] holds. *)
Inductive gargs : Type :=
| GArr (l : list jsv)
| GOther (v : jsv).

(** [s.split(' ')] *)
Definition split_args (v : jsv) : res gargs :=
  let? s := as_string v in
  Ok (GArr (map (fun x => Val (JStr x)) (split_on " " s))).

(** [file.minecraftArguments ? file.minecraftArguments.split(' ') : file.arguments.game] *)
Definition game_args_of (file : json) : res gargs :=
  let m := jget file "minecraftArguments" in
  if truthy m then split_args m
  else let? a := prop (Val file) "arguments" in
       let? g := prop a "game" in
       match g with
       | Val (JArr l) => Ok (GArr (map Val l))
       | v => Ok (GOther v)
       end.

(** [gameArgs.push(x)] *)
Definition push_arg (g : gargs) (x : jsv) : res gargs :=
  match g with
  | GArr l => Ok (GArr (l ++ [x]))
  | GOther _ => Err (TypeError "push")
  end.

(** One level of array spreading, as [Array.prototype.flat()] and
    [acc.concat(curr)] do. *)
Definition spread (v : jsv) : list jsv :=
  match v with
  | Val (JArr l) => map Val l
  | _ => [v]
  end.

(** [gameArgs.flat()] *)
Definition flat_args (g : gargs) : res (list jsv) :=
  match g with
  | GArr l => Ok (flat_map spread l)
  | GOther _ => Err (TypeError "flat")
  end.

(** The [fields] object of [launch]. *)
Definition launch_fields (uuid : jsv) (us ver : string) (root : path) : list (string * jsv) :=
  [("${auth_access_token}", uuid);
   ("${auth_session}", uuid);
   ("${auth_player_name}", Val (JStr us));
   ("${auth_uuid}", uuid);
   ("${auth_xuid}", uuid);
   ("${user_properties}", Val (JStr "{}"));
   ("${user_type}", Val (JStr "mojang"));
   ("${version_name}", Val (JStr ver));
   ("${assets_index_name}", Val (JStr ver));
   ("${game_directory}", Val (JStr (show_path root)));
   ("${assets_root}", Val (JStr (show_path (root ++ [d_assets]))));
   ("${game_assets}", Val (JStr (show_path (root ++ [d_assets]))));
   ("${version_type}", Val (JStr "release"));
   ("${clientid}", uuid);
   ("${resolution_width}", Val (JNum 856));
   ("${resolution_height}", Val (JNum 482))].

(** [for (i ...) if (Object.keys(fields).includes(args[i])) args[i] = fields[args[i]]] *)
Definition subst_token (fields : list (string * jsv)) (a : jsv) : jsv :=
  match a with
  | Val (JStr s) => match assoc s fields with Some v => v | None => a end
  | _ => a
  end.

Definition substitute (fields : list (string * jsv)) (args : list jsv) : list jsv :=
  map (subst_token fields) args.

(** The game jar of line 113. *)
Definition game_jar (root : path) (ver : string) (custom : option string) : path :=
  match custom with
  | None => version_jar root ver
  | Some c => if str_includes c "fabric" then version_jar root ver else version_jar root c
  end.

(** The overlay step of [launch] (lines 99-111). *)
Definition merge_overlay (root : path) (c : string) (reqLibs : list string) (ga : gargs)
  : M (list string * jsv * gargs) :=
  cf <- fs_read_json (version_json root c) ;;
  r2 <- lift (let? ls := prop (Val cf) "libraries" in
              let? l := as_array ls in
              overlay_reqlibs l) ;;
  mc <- lift (prop (Val cf) "mainClass") ;;
  ga' <- lift (let? a := prop (Val cf) "arguments" in
               if negb (truthy a)
               then let? m := prop (Val cf) "minecraftArguments" in split_args m
               else let? g := prop a "game" in push_arg ga g) ;;
  e <- fs_exists (root ++ ["options.txt"]) ;;
  (if e then fs_unlink (root ++ ["options.txt"]) else ret tt) ;;;
  ret (reqLibs ++ r2, mc, ga').

(** The fixed head of [args] (line 133), spread as [args.reduce(concat)] does. *)
Definition jvm_args (o : options) (ver : string) (root : path) (cp : string) (mainClass : jsv)
  : list jsv :=
  flat_map spread
    [Val (JStr (String.append "-Djava.library.path=" (show_path (root ++ [d_natives; ver]))));
     Val (JStr (String.append "-Xmx" (memory_max o)));
     Val (JStr (String.append "-Xms" (memory_min o)));
     Val (JStr "-XX:HeapDumpPath=MojangTricksIntelDriversForPerformance_javaw.exe_minecraft.exe.heapdump");
     Val (JStr "-cp");
     Val (JStr cp);
     mainClass].

(** [fresh] is the value [uuidv4()] returns if [auth] needs one; the final
    [spawn] is not modelled, [launch] returns its arguments. *)
Definition launch (o : options) (fresh : string) : M plan :=
  let root := gameDirectory o in
  match match_version (version o) with
  | None => throw (TypeError "0")
  | Some ver =>
      let custom := custom_of (version o) ver in
      file <- fs_read_json (version_json root ver) ;;
      createProfile root ;;;
      uuid <- auth root (username o) fresh ;;
      r1 <- lift (let? ls := prop (Val file) "libraries" in
                  let? l := as_array ls in
                  base_reqlibs l) ;;
      mc0 <- lift (prop (Val file) "mainClass") ;;
      ga0 <- lift (game_args_of file) ;;
      t <- match custom with
           | None => ret (r1, mc0, ga0)
           | Some c => merge_overlay root c r1 ga0
           end ;;
      let '(reqLibs, mainClass, gameArgs) := t in
      libs <- encontrarArchivosJAR (root ++ [d_libraries]) reqLibs ver ;;
      let cp := String.append libs (show_path (game_jar root ver custom)) in
      flat <- lift (flat_args gameArgs) ;;
      let args := jvm_args o ver root cp mainClass ++ flat in
      ret (mkPlan reqLibs mainClass cp
                  (substitute (launch_fields uuid (username o) ver root) args) root)
  end.

(* ------------------------------------------------------------------ *)
(** ** [Downloader] *)

Module Downloader.

Definition url_meta := "https://launchermeta.mojang.com/mc/game/version_manifest.json".
Definition url_resource := "https://resources.download.minecraft.net".

Section Net.

(** The body the network serves for each URL. *)
Variable net : string -> raw.

(** [down(url, dir, name)]: the request is sent, then the body is piped
    into [dir/name]. *)
Definition down (url : string) (dir : path) (name : string) : M unit :=
  emit (EvDown url dir name) ;;; put_file (dir ++ [name]) (net url).

(** The same call up to the [await] that waits for it: [https.get] sends
    the request at once, and what is left, the body being piped into
    [dir/name], happens once the response has arrived. *)
Definition down_start (url : string) (dir : path) (name : string) : M (M unit) :=
  emit (EvDown url dir name) ;;; ret (put_file (dir ++ [name]) (net url)).

(** [path.join(base, s)] for a relative [s] that may hold separators. *)
Definition join_str (base : path) (s : string) : path :=
  base ++ filter (fun x => negb (String.eqb x "")) (split_on "/" s).

(** [if (!fs.existsSync(p)) fs.mkdirSync(p, ...)] *)
Definition ensure_dir (recursive : bool) (p : path) : M unit :=
  e <- fs_exists p ;;
  if e then ret tt else fs_mkdir recursive p.

(** [new Zip(zip).extractAllTo(dest, true)]; the archive's entries are not
    modelled, only the destination directory. *)
Definition extract (zip dest : path) : M unit :=
  emit (EvExtract zip dest) ;;;
  d <- get_disk ;;
  match lookup d zip with
  | Some (File _) => match mkdir_p d dest with Some d' => set_disk d' | None => throw ENOTDIR end
  | _ => throw ENOENT
  end.

(** [arr.forEach(async element => ...)]: [forEach] calls the callbacks
    in order and each one runs only up to its first [await]; [f] is that
    part, and returns what the callback still has to do once the awaited
    promise settles. A callback that throws before its [await] returns a
    rejected promise that nothing handles, and [forEach] goes on with the
    next element. The result lists the continuations, in the order they
    were started, and the unhandled rejections. *)
Fixpoint for_each_async (f : json -> M (M unit)) (l : list json)
  : M (list (M unit) * list err) :=
  match l with
  | [] => ret ([], [])
  | x :: r =>
      o <- catch (k <- f x ;; ret (inl k)) (fun e => ret (inr e)) ;;
      p <- for_each_async f r ;;
      match o with
      | inl k => ret (k :: fst p, snd p)
      | inr e => ret (fst p, e :: snd p)
      end
  end.

(** *** [downloadVersion] *)

(** [ver.versions.find(x => x.type === 'release' && x.id === this.version)] *)
Fixpoint find_release (v : string) (l : list json) : res jsv :=
  match l with
  | [] => Ok Undef
  | x :: r =>
      let? t := prop (Val x) "type" in
      match t with
      | Val (JStr "release") =>
          let? i := prop (Val x) "id" in
          match i with
          | Val (JStr s) => if String.eqb s v then Ok (Val x) else find_release v r
          | _ => find_release v r
          end
      | _ => find_release v r
      end
  end.

(** Lines 97-98: [const verJson = ver.versions.find(...).url;
    if (!verJson) throw "La version no existe.";] *)
Definition manifest_url (ver : json) (v : string) : res jsv :=
  let? vs := prop (Val ver) "versions" in
  let? l := as_array vs in
  let? x := find_release v l in
  let? u := prop x "url" in
  if truthy u then Ok u else Err (Thrown "La version no existe.").

Definition downloadVersion (root : path) (v : string) : M unit :=
  ensure_dir true (root ++ [d_cache; "json"]) ;;;
  down url_meta (root ++ [d_cache; "json"]) "version_manifest.json" ;;;
  c <- fs_exists (root ++ [d_cache]) ;;
  if c then
    ver <- fs_read_json (root ++ [d_cache; "json"; "version_manifest.json"]) ;;
    verJson <- lift (manifest_url ver v) ;;
    ensure_dir true (root ++ [d_versions; v]) ;;;
    u <- lift (as_string verJson) ;;
    down u (root ++ [d_versions; v]) (String.append v ".json")
  else ret tt.

(** *** [downloadClient]: returns the parsed metadata it stores in [this.file]. *)
Definition downloadClient (root : path) (v : string) : M json :=
  file <- fs_read_json (version_json root v) ;;
  client <- lift (let? d := prop (Val file) "downloads" in
                  let? c := prop d "client" in
                  prop c "url") ;;
  ensure_dir false (root ++ [d_versions; v]) ;;;
  u <- lift (as_string client) ;;
  down u (root ++ [d_versions; v]) (String.append v ".jar") ;;;
  ret file.

(** *** [downloadAssets] *)

Fixpoint dec_aux (fuel n : nat) (acc : string) : string :=
  match fuel with
  | 0 => acc
  | S f =>
      let acc' := String (ascii_of_nat (48 + n mod 10)) acc in
      if Nat.ltb n 10 then acc' else dec_aux f (n / 10) acc'
  end.

(** Array indices as property keys. *)
Definition index_key (n : nat) : string := dec_aux (S n) n "".

Fixpoint indexed {A} (n : nat) (l : list A) : list (string * A) :=
  match l with
  | [] => []
  | x :: r => (index_key n, x) :: indexed (S n) r
  end.

Fixpoint chars (s : string) : list json :=
  match s with
  | EmptyString => []
  | String a r => JStr (String a EmptyString) :: chars r
  end.

(** The own enumerable properties [for (const key in o)] visits, with
    their values. *)
Definition for_in (o : jsv) : list (string * json) :=
  match o with
  | Val (JObj l) => l
  | Val (JArr l) => indexed 0 l
  | Val (JStr s) => indexed 0 (chars s)
  | _ => []
  end.

(** [fileHash.substring(0, 2)]: only strings have [substring]. *)
Definition sub_hash (h : jsv) : res string :=
  match h with
  | Val (JStr s) => Ok (substring 0 2 s)
  | _ => Err (TypeError "substring")
  end.

(** The body of the [for ... in] loop for one entry; the download is not
    awaited and its failure is only logged. *)
Definition asset_object (root : path) (key : string) (obj : json) : M unit :=
  fileHash <- lift (prop (Val obj) "hash") ;;
  fileSubHash <- lift (sub_hash fileHash) ;;
  ensure_dir false (root ++ [d_assets; "objects"; fileSubHash]) ;;;
  h <- lift (as_string fileHash) ;;
  catch (down (String.append url_resource
                 (String.append "/" (String.append fileSubHash (String.append "/" h))))
              (root ++ [d_assets; "objects"; fileSubHash]) h)
        (fun _ => ret tt).

Fixpoint asset_loop (root : path) (l : list (string * json)) : M unit :=
  match l with
  | [] => ret tt
  | (k, o) :: r => asset_object root k o ;;; asset_loop root r
  end.

Definition downloadAssets (root : path) (v : string) (file : json) : M unit :=
  ensure_dir true (root ++ [d_assets; "indexes"]) ;;;
  ai <- lift (let? a := prop (Val file) "assetIndex" in
              let? u := prop a "url" in
              as_string u) ;;
  down ai (root ++ [d_assets; "indexes"]) (String.append v ".json") ;;;
  down ai (root ++ [d_cache; "json"]) (String.append v ".json") ;;;
  assetFile <- fs_read_json (root ++ [d_assets; "indexes"; String.append v ".json"]) ;;
  ensure_dir false (root ++ [d_assets; "objects"]) ;;;
  objs <- lift (prop (Val assetFile) "objects") ;;
  asset_loop root (for_in objs).

(** *** [downloadLibraries] *)

(** The callback of lines 190-204 up to its [await]. Lines 191-197 run
    before the [try] and may throw. A failure of the [down] call of line
    199 (here, a [url] that is not a string) rejects the promise the
    [await] waits for, so it only shows when the callback resumes; the
    [catch] then calls [reject] after [resolve] (line 205), which does
    nothing. *)
Definition library_start (root : path) (element : json) : M (M unit) :=
  a <- lift (let? d := prop (Val element) "downloads" in prop d "artifact") ;;
  match a with
  | Undef => ret (ret tt)
  | _ =>
      jarFile <- lift (let? p := prop a "path" in as_string p) ;;
      let libRoot := String.concat "/" (removelast (split_on "/" jarFile)) in
      let libName := basename jarFile in
      ensure_dir true (join_str (root ++ [d_libraries]) libRoot) ;;;
      match (let? x := prop a "url" in as_string x) with
      | Ok u => down_start u (join_str (root ++ [d_libraries]) libRoot) libName
      | Err e => ret (throw e)
      end
  end.

(** The same callback run to its end, the [try] taken away. *)
Definition library_entry (root : path) (element : json) : M unit :=
  k <- library_start root element ;; k.

Definition downloadLibraries (root : path) (file : json) : M (list (M unit) * list err) :=
  ensure_dir false (root ++ [d_libraries]) ;;;
  ls <- lift (let? l := prop (Val file) "libraries" in as_array l) ;;
  for_each_async (library_start root) ls.

(** *** [downloadNatives] *)

(** [typeof el === 'object' && (el['natives-windows'] ? el['natives-windows']
    : el['natives-windows-64'])] *)
Definition select_natives (el : jsv) : res jsv :=
  match el with
  | Val (JObj _) | Val (JArr _) | Val JNull =>
      let? w := prop el "natives-windows" in
      if truthy w then Ok w else prop el "natives-windows-64"
  | _ => Ok (Val (JBool false))
  end.

(** Lines 174-177, once the archive has arrived. *)
Definition native_rest (root : path) (v u p : string) : M unit :=
  if String.eqb v "1.8" && str_includes u "nightly"
  then fs_unlink (root ++ [d_natives; basename p])
  else extract (root ++ [d_natives; basename p]) (root ++ [d_natives; v]) ;;;
       fs_unlink (root ++ [d_natives; basename p]).

(** The callback of lines 167-182 up to its [await]. Lines 168-169 run
    before the [try] and may throw; from line 172 on a failure (a [url] or
    [path] that is not a string) only shows when the callback resumes, and
    goes to a [reject] that comes after [resolve] (line 183). *)
Definition native_start (root : path) (v : string) (element : json) : M (M unit) :=
  el <- lift (let? d := prop (Val element) "downloads" in prop d "classifiers") ;;
  natives <- lift (select_natives el) ;;
  if truthy natives then
    match (let? x := prop natives "url" in as_string x) with
    | Err e => ret (throw e)
    | Ok u =>
        match (let? x := prop natives "path" in as_string x) with
        | Err e => ret (throw e)
        | Ok p =>
            k <- down_start u (root ++ [d_natives]) (basename p) ;;
            ret (k ;;; native_rest root v u p)
        end
    end
  else ret (ret tt).

(** The same callback run to its end, the [try] taken away. *)
Definition native_entry (root : path) (v : string) (element : json) : M unit :=
  k <- native_start root v element ;; k.

Definition downloadNatives (root : path) (v : string) (file : json)
  : M (list (M unit) * list err) :=
  ensure_dir false (root ++ [d_natives]) ;;;
  ls <- lift (let? l := prop (Val file) "libraries" in as_array l) ;;
  for_each_async (native_start root v) ls.

(** *** [download(version, root)]: the steps in sequence, the metadata read
    by [downloadClient] shared by the later ones. A failing step leaves the
    returned promise unsettled; the model stops there. When the promise
    resolves, the library and natives callbacks have all been started; the
    result lists what they still have to do and the rejections nothing
    handles. *)
Definition download (v : string) (root : path) : M (list (M unit) * list err) :=
  downloadVersion root v ;;;
  file <- downloadClient root v ;;
  downloadAssets root v file ;;;
  p1 <- downloadLibraries root file ;;
  p2 <- downloadNatives root v file ;;
  ret (fst p1 ++ fst p2, snd p1 ++ snd p2).

(** What happens after [download] has resolved. An unhandled rejection
    ends the process (Node's default since version 15) once the pending
    promise jobs have run, before any response arrives. Otherwise each
    continuation runs when its download has completed, in the order of
    [jobs] (the order the responses arrive in); its failure only reaches a
    [reject] after [resolve]. *)
Fixpoint run_jobs (jobs : list (M unit)) : M unit :=
  match jobs with
  | [] => ret tt
  | k :: r => catch k (fun _ => ret tt) ;;; run_jobs r
  end.

Definition settle (jobs : list (M unit)) (rejected : list err) : M unit :=
  match rejected with
  | [] => run_jobs jobs
  | _ :: _ => ret tt
  end.

End Net.

End Downloader.

(* ------------------------------------------------------------------ *)
(** ** A sample installation *)

Module Sample.

Definition lwjgl_lib : json :=
  JObj [("name", JStr "org.lwjgl:lwjgl:3.3.1");
        ("downloads", JObj [("artifact", JObj
          [("path", JStr "org/lwjgl/lwjgl/3.3.1/lwjgl-3.3.1.jar");
           ("url", JStr "https://libraries.minecraft.net/org/lwjgl/lwjgl/3.3.1/lwjgl-3.3.1.jar")])])].

Definition jinput_lib : json :=
  JObj [("name", JStr "net.java.jinput:jinput:3.2.1");
        ("downloads", JObj [("artifact", JObj
          [("path", JStr "net/java/jinput/jinput/3.2.1/jinput-3.2.1.jar");
           ("url", JStr "https://libraries.minecraft.net/net/java/jinput/jinput/3.2.1/jinput-3.2.1.jar")])])].

Definition base_json : json :=
  JObj [("mainClass", JStr "A");
        ("libraries", JArr [lwjgl_lib; jinput_lib]);
        ("arguments", JObj [("game", JArr [JStr "--username"; JStr "${auth_player_name}";
                                           JStr "--future"; JStr "${quick_play_path}"])])].

Definition fabric_json : json :=
  JObj [("mainClass", JStr "B");
        ("libraries", JArr [JObj [("name", JStr "net.fabricmc:fabric-loader:0.1")]]);
        ("arguments", JObj [("game", JArr [])])].

Definition root : path := ["home"; "mc"].

Definition libtree : node :=
  Dir [("org", Dir [("lwjgl", Dir [("lwjgl", Dir [("3.3.1", Dir
         [("lwjgl-3.3.1.jar", File (RBytes ""))])])])]);
       ("net", Dir [("java", Dir [("jinput-3.2.1.jar", File (RBytes ""))]);
                    ("fabricmc", Dir [("fabric-loader-0.1.jar", File (RBytes ""))])])].

Definition disk : node :=
  Dir [("home", Dir [("mc", Dir
    [("versions", Dir [("1.19", Dir [("1.19.json", File (RJson base_json));
                                     ("1.19.jar", File (RBytes ""))]);
                       ("1.19-fabric-0.1", Dir [("1.19-fabric-0.1.json", File (RJson fabric_json))])]);
     ("libraries", libtree);
     ("usercache.json", File (RJson (JArr [JObj [("name", JStr "Steve"); ("uuid", JStr "u-steve")]])));
     ("options.txt", File (RBytes "fov:70"))])])].

Definition natives_lib : json :=
  JObj [("name", JStr "org.lwjgl:lwjgl-platform:2.9.4");
        ("downloads", JObj [("classifiers", JObj
          [("natives-linux", JObj [("path", JStr "org/lwjgl/lwjgl-platform-natives-linux.jar");
                                    ("url", JStr "https://libraries.minecraft.net/natives-linux.jar")]);
           ("natives-windows", JObj [("path", JStr "org/lwjgl/lwjgl-platform-natives-windows.jar");
                                      ("url", JStr "https://libraries.minecraft.net/natives-windows.jar")]);
           ("natives-windows-64", JObj [("path", JStr "org/lwjgl/lwjgl-platform-natives-windows-64.jar");
                                         ("url", JStr "https://libraries.minecraft.net/natives-windows-64.jar")])])])].

Definition manifest : json :=
  JObj [("versions", JArr
    [JObj [("id", JStr "23w01a"); ("type", JStr "snapshot"); ("url", JStr "https://meta/23w01a.json")];
     JObj [("id", JStr "1.19"); ("type", JStr "release"); ("url", JStr "https://meta/1.19.json")]])].

Definition meta_1_19 : json :=
  JObj [("downloads", JObj [("client", JObj [("url", JStr "https://data/client.jar")])]);
        ("assetIndex", JObj [("url", JStr "https://meta/index-1.19.json")]);
        ("mainClass", JStr "net.minecraft.client.main.Main");
        ("libraries", JArr [lwjgl_lib; natives_lib])].

(** Two logical assets with the same content. *)
Definition asset_index : json :=
  JObj [("objects", JObj
    [("minecraft/sounds/ambient/cave1.ogg", JObj [("hash", JStr "abcd1234"); ("size", JNum 10)]);
     ("minecraft/sounds/ambient/cave1_copy.ogg", JObj [("hash", JStr "abcd1234"); ("size", JNum 10)]);
     ("icons/icon_16x16.png", JObj [("hash", JStr "ef015678"); ("size", JNum 3)])])].

Definition net (url : string) : raw :=
  if String.eqb url Downloader.url_meta then RJson manifest
  else if String.eqb url "https://meta/1.19.json" then RJson meta_1_19
  else if String.eqb url "https://meta/index-1.19.json" then RJson asset_index
  else RBytes url.

Definition empty_disk : node := Dir [("home", Dir [("mc", Dir [])])].


Definition opts (v : string) : options := mkOptions "1G" "2G" root v "Steve".

(** A metadata file listing a library and then an entry of a loader,
    which carries only a [name]. *)
Definition mixed_json : json :=
  JObj [("libraries", JArr [lwjgl_lib; JObj [("name", JStr "net.fabricmc:fabric-loader:0.1")]])].

End Sample.

(* ------------------------------------------------------------------ *)
(** ** Views used in the statements *)

(** Every plain file under a directory, in the order the recursion visits
    it, with the path it is reached at and its name. *)
Fixpoint all_files (dir : path) (n : node) : list (path * string) :=
  match n with
  | File _ => []
  | Dir kids =>
      (fix go (kids : list (string * node)) : list (path * string) :=
         match kids with
         | [] => []
         | (a, k) :: rest =>
             (match k with
              | Dir _ => all_files (dir ++ [a]) k
              | File _ => [(dir ++ [a], a)]
              end) ++ go rest
         end) kids
  end.

(** The [path;] list the recursion prints. *)
Definition render (l : list (path * string)) : string :=
  fold_right (fun pn acc => String.append (String.append (show_path (fst pn)) ";") acc) "" l.

(** What [auth] returns, read off the content of [usercache.json]. *)
Definition auth_value (c : option node) (us fresh : string) : jsv :=
  match c with
  | Some (File (RJson j)) =>
      match (let? arr := as_array (Val j) in
             let? x := find_named us arr in
             prop x "uuid") with
      | Ok v => v
      | Err _ => Val (JStr fresh)
      end
  | _ => Val (JStr fresh)
  end.

(** An entry [find] passes over: not [null], and not named [us]. *)
Definition passed_over (us : string) (y : json) : Prop :=
  y <> JNull /\ jget y "name" <> Val (JStr us).

(** Every effect a computation adds to the log satisfies [P]. *)
Definition log_within (P : event -> Prop) {A} (m : M A) : Prop :=
  forall s e, In e (st_log (snd (m s))) -> In e (st_log s) \/ P e.

(** The effects [launch] may have on the disk under [root], when it starts
    from the disk [d]: the profile file is only written if [d] lacks it. *)
Definition launch_effect (d : node) (root : path) (overlay : bool) (e : event) : Prop :=
  mutating e = false
  \/ (lookup d (root ++ ["launcher_profiles.json"]) = None
      /\ e = EvWrite (root ++ ["launcher_profiles.json"]))
  \/ (overlay = true /\ e = EvUnlink (root ++ ["options.txt"])).

(** Whether [launch] takes the overlay branch for a version string. *)
Definition has_overlay (v : string) : bool :=
  match match_version v with
  | Some ver => match custom_of v ver with Some _ => true | None => false end
  | None => false
  end.

(** A computation only appends to the log. *)
Definition log_ext {A} (m : M A) : Prop :=
  forall s, exists l, st_log (snd (m s)) = st_log s ++ l.

(** A computation that sends no request. *)
Definition quiet {A} (m : M A) : Prop :=
  forall s, filter is_down (st_log (snd (m s))) = filter is_down (st_log s).

(** A computation that leaves every file of the disk as it was and
    creates none: only directories may appear. *)
Definition keeps_files {A} (m : M A) : Prop :=
  forall s p c,
    lookup (st_disk (snd (m s))) p = Some (File c) <-> lookup (st_disk s) p = Some (File c).

(** Two runs of [m] that succeed, from any two states, return the same
    value and send the same requests, in the same order. *)
Definition same_requests {A} (m : M A) : Prop :=
  forall s1 s2 a1 a2 s1' s2',
    m s1 = (Ok a1, s1') -> m s2 = (Ok a2, s2') ->
    a1 = a2 /\ exists D,
      filter is_down (st_log s1') = filter is_down (st_log s1) ++ D
      /\ filter is_down (st_log s2') = filter is_down (st_log s2) ++ D.

(** The selection the specification describes for the natives of a
    library on [platform] and [arch]: the classifier
    [natives-<platform>-<arch>] first, [natives-<platform>] as the
    fallback. Not part of the program; compared with
    [Downloader.select_natives]. *)
Definition spec_select_natives (platform arch : string) (el : jsv) : jsv :=
  let get k := match el with Val j => jget j k | Undef => Undef end in
  let exact := get (String.append "natives-" (String.append platform (String.append "-" arch))) in
  if truthy exact then exact else get (String.append "natives-" platform).

(* ------------------------------------------------------------------ *)
(** ** Generic facts *)

Lemma bind_ok {A B} (m : M A) (f : A -> M B) s b s' :
  bind m f s = (Ok b, s') -> exists a s1, m s = (Ok a, s1) /\ f a s1 = (Ok b, s').
Proof.
  unfold bind. destruct (m s) as [[a|e] s1]; intros H; [eauto | discriminate].
Qed.

Lemma lift_ok {A} (r : res A) s a s' : lift r s = (Ok a, s') -> r = Ok a /\ s' = s.
Proof. unfold lift. intros H; inversion H; auto. Qed.

Lemma res_bind_ok {A B} (r : res A) (f : A -> res B) b :
  res_bind r f = Ok b -> exists a, r = Ok a /\ f a = Ok b.
Proof. destruct r as [a|e]; simpl; [eauto | discriminate]. Qed.

Lemma prop_val j k v : prop (Val j) k = Ok v -> v = jget j k.
Proof. destruct j; simpl; congruence. Qed.

Lemma string_append_assoc (a b c : string) :
  String.append (String.append a b) c = String.append a (String.append b c).
Proof. induction a as [|x a IH]; simpl; [reflexivity | now rewrite IH]. Qed.

Lemma string_append_empty_r (a : string) : String.append a "" = a.
Proof. induction a as [|x a IH]; simpl; [reflexivity | now rewrite IH]. Qed.

Lemma str_in_In s l : str_in s l = true <-> In s l.
Proof.
  unfold str_in. rewrite existsb_exists. split.
  - intros (x & Hx & E). apply String.eqb_eq in E. subst. exact Hx.
  - intros H. exists s. split; [exact H | apply String.eqb_refl].
Qed.

Create HintDb launcher.

(** Induction over directory trees. *)
Section NodeInd.
Variable P : node -> Prop.
Hypothesis HFile : forall c, P (File c).
Hypothesis HDir : forall kids, Forall (fun an => P (snd an)) kids -> P (Dir kids).

Fixpoint node_ind' (n : node) : P n :=
  match n with
  | File c => HFile c
  | Dir kids =>
      HDir kids
        ((fix go (l : list (string * node)) : Forall (fun an => P (snd an)) l :=
            match l with
            | [] => Forall_nil _
            | (a, k) :: r => Forall_cons (a, k) (node_ind' k) (go r)
            end) kids)
  end.
End NodeInd.

Lemma render_app l1 l2 : render (l1 ++ l2) = String.append (render l1) (render l2).
Proof.
  induction l1 as [|x l1 IH]; simpl; [reflexivity|].
  rewrite IH. now rewrite <- !string_append_assoc.
Qed.

Lemma encontrar_render dir n files ver :
  encontrar dir n files ver
  = render (filter (fun pn => jar_selected (snd pn) files ver) (all_files dir n)).
Proof.
  revert dir. induction n as [c | kids IH] using node_ind'; intros dir; [reflexivity|].
  induction kids as [|[a k] rest IHk]; [reflexivity|].
  inversion IH as [|? ? Hk Hrest]; subst.
  change (encontrar dir (Dir ((a, k) :: rest)) files ver)
    with (String.append (match k with
                         | Dir _ => encontrar (dir ++ [a]) k files ver
                         | File _ => if jar_selected a files ver
                                     then String.append (show_path (dir ++ [a])) ";" else ""
                         end) (encontrar dir (Dir rest) files ver)).
  change (all_files dir (Dir ((a, k) :: rest)))
    with ((match k with
           | Dir _ => all_files (dir ++ [a]) k
           | File _ => [(dir ++ [a], a)]
           end) ++ all_files dir (Dir rest)).
  rewrite filter_app, render_app, (IHk Hrest).
  f_equal. destruct k as [c|kk].
  - simpl. destruct (jar_selected a files ver); simpl;
      [now rewrite string_append_empty_r | reflexivity].
  - apply Hk.
Qed.

Lemma jar_selected_conflicting name files ver :
  extname name = ".jar" -> In name files -> str_includes name "3.2.1" = true ->
  jar_selected name files ver = str_in ver legacy_versions.
Proof.
  intros Hext Hin Hconf. unfold jar_selected.
  rewrite Hext. apply str_in_In in Hin. rewrite Hin, Hconf.
  destruct (str_in ver legacy_versions); reflexivity.
Qed.

(** *** [auth] *)

Lemma auth_eq root us fresh s :
  fst (auth root us fresh s) = Ok (auth_value (lookup (st_disk s) (root ++ ["usercache.json"])) us fresh)
  /\ st_disk (snd (auth root us fresh s)) = st_disk s.
Proof.
  cbv [auth catch bind fs_read_json emit get_disk lift ret throw auth_value]; simpl.
  destruct (lookup (st_disk s) (root ++ ["usercache.json"])) as [[[j|b]|kids]|]; simpl; auto.
  match goal with |- context [match ?r with Ok _ => _ | Err _ => _ end] => destruct r end;
    simpl; auto.
Qed.

Lemma find_named_skip us y l :
  passed_over us y -> find_named us (y :: l) = find_named us l.
Proof.
  intros [Hn Hname]. cbn [find_named].
  assert (E : prop (Val y) "name" = Ok (jget y "name")) by (destruct y; [congruence | reflexivity ..]).
  rewrite E. cbn [res_bind]. destruct (jget y "name") as [|[]]; try reflexivity.
  destruct (String.eqb s us) eqn:Es; [|reflexivity].
  apply String.eqb_eq in Es. subst. congruence.
Qed.

Lemma find_named_prefix us pre l :
  Forall (passed_over us) pre -> find_named us (pre ++ l) = find_named us l.
Proof.
  induction 1 as [|y pre Hy _ IH]; [reflexivity|].
  simpl app. rewrite find_named_skip by exact Hy. exact IH.
Qed.

Lemma find_named_hit us x l :
  jget x "name" = Val (JStr us) -> find_named us (x :: l) = Ok (Val x).
Proof.
  intros H. cbn [find_named].
  assert (E : prop (Val x) "name" = Ok (jget x "name")) by (destruct x; simpl in *; congruence).
  rewrite E, H. cbn [res_bind]. now rewrite String.eqb_refl.
Qed.

Ltac step H :=
  apply bind_ok in H;
  let a := fresh "a" in let st := fresh "st" in let E := fresh "E" in
  destruct H as (a & st & E & H).

Lemma lift_state {A} (r : res A) s a s' : lift r s = (Ok a, s') -> s' = s.
Proof. intros H. now apply lift_ok in H. Qed.

Lemma fs_read_json_ok p s j s' :
  fs_read_json p s = (Ok j, s') ->
  lookup (st_disk s) p = Some (File (RJson j)) /\ st_disk s' = st_disk s.
Proof.
  cbv [fs_read_json bind emit get_disk ret throw]; simpl.
  destruct (lookup (st_disk s) p) as [[[j'|b]|kids]|]; simpl; intros H; inversion H; auto.
Qed.

Lemma encontrar_ok d f v s x s' :
  encontrarArchivosJAR d f v s = (Ok x, s') ->
  st_disk s' = st_disk s
  /\ exists kids, lookup (st_disk s) d = Some (Dir kids) /\ x = encontrar d (Dir kids) f v.
Proof.
  cbv [encontrarArchivosJAR bind emit get_disk ret throw]; simpl.
  destruct (lookup (st_disk s) d) as [[c|kids]|]; simpl; intros H; inversion H; subst; eauto.
Qed.

Lemma auth_ok root us fresh s v s' :
  auth root us fresh s = (Ok v, s') -> st_disk s' = st_disk s.
Proof.
  intros H. destruct (auth_eq root us fresh s) as [_ D]. now rewrite H in D.
Qed.

Lemma lookup_assoc_set_same {A} k (v : A) l : assoc k (assoc_set k v l) = Some v.
Proof.
  induction l as [|[k' v'] l IH]; simpl.
  - now rewrite String.eqb_refl.
  - destruct (String.eqb k k') eqn:E; simpl; [now rewrite String.eqb_refl | now rewrite E].
Qed.

Lemma lookup_assoc_set_other {A} k b (v : A) l :
  k <> b -> assoc b (assoc_set k v l) = assoc b l.
Proof.
  intros Hne. induction l as [|[k' v'] l IH]; simpl.
  - destruct (String.eqb b k) eqn:E; [apply String.eqb_eq in E; congruence | reflexivity].
  - destruct (String.eqb k k') eqn:E; simpl.
    + apply String.eqb_eq in E. subst.
      destruct (String.eqb b k') eqn:E'; [apply String.eqb_eq in E'; congruence | reflexivity].
    + now rewrite IH.
Qed.

(** Writing [pre/a] leaves every path through a sibling [pre/b] alone. *)
Lemma lookup_upd_sibling n pre a b q x n' :
  upd n (pre ++ [a]) x = Some n' -> a <> b ->
  lookup n' (pre ++ b :: q) = lookup n (pre ++ b :: q).
Proof.
  revert n n'. induction pre as [|s pre IH]; intros n n' H Hne; simpl in *.
  - destruct n as [c|kids]; [discriminate|].
    assert (E : n' = Dir (assoc_set a x kids))
      by (revert H; destruct (assoc a kids); intros H; inversion H; reflexivity).
    subst. simpl. now rewrite lookup_assoc_set_other.
  - destruct n as [c|kids]; [discriminate|].
    destruct (assoc s kids) as [k|] eqn:Ek.
    + destruct (upd k (pre ++ [a]) x) as [k'|] eqn:Eu; [|discriminate].
      inversion H; subst. simpl. rewrite lookup_assoc_set_same.
      eapply IH; eauto.
    + destruct (pre ++ [a]) eqn:Ep; [destruct pre; discriminate | discriminate].
Qed.

Lemma createProfile_ok root s u s' :
  createProfile root s = (Ok u, s') ->
  st_disk s' = st_disk s
  \/ upd (st_disk s) (root ++ ["launcher_profiles.json"])
         (File (RJson (JObj [("profiles", JObj [])]))) = Some (st_disk s').
Proof.
  cbv [createProfile fs_exists fs_write put_file bind emit get_disk set_disk ret throw]; simpl.
  destruct (lookup (st_disk s) (root ++ ["launcher_profiles.json"])) as [[c|kids]|];
    simpl; intros H; try (inversion H; auto; fail).
  destruct (lookup (st_disk s) (root ++ ["launcher_profiles.json"])) as [[c|kids]|];
    try (inversion H; fail);
    destruct (upd (st_disk s) (root ++ ["launcher_profiles.json"]) _) eqn:E;
    inversion H; subst; simpl; auto.
Qed.

Lemma split_on_nonempty c s : exists h t, split_on c s = h :: t.
Proof.
  induction s as [|a s IH]; simpl; [eauto|].
  destruct (Ascii.eqb a c); [eauto|]. destruct IH as (h & t & ->). eauto.
Qed.

Lemma split_on_sep c x y :
  split_on c (String.append x (String c y)) = split_on c x ++ split_on c y.
Proof.
  induction x as [|a x IH]; simpl.
  - now rewrite Ascii.eqb_refl.
  - rewrite IH. destruct (Ascii.eqb a c); [reflexivity|].
    destruct (split_on_nonempty c x) as (h & t & ->). reflexivity.
Qed.

Lemma split_on_none c s : ~ In c (list_ascii_of_string s) -> split_on c s = [s].
Proof.
  induction s as [|a s IH]; simpl; intros H; [reflexivity|].
  rewrite IH by tauto.
  destruct (Ascii.eqb a c) eqn:E; [apply Ascii.eqb_eq in E; subst; tauto | reflexivity].
Qed.

Lemma coord_jar_last_two g n v :
  ~ In ":"%char (list_ascii_of_string n) -> ~ In ":"%char (list_ascii_of_string v) ->
  coord_jar (g ++ ":" ++ n ++ ":" ++ v)%string = (n ++ "-" ++ v ++ ".jar")%string.
Proof.
  intros Hn Hv. unfold coord_jar, slice_neg.
  change (g ++ ":" ++ n ++ ":" ++ v)%string
    with (String.append g (String ":" (String.append n (String ":" v)))).
  rewrite split_on_sep, split_on_sep, (split_on_none _ n Hn), (split_on_none _ v Hv).
  rewrite length_app. simpl length.
  replace (length (split_on ":" g) + 2 - 2) with (length (split_on ":" g) + 0) by lia.
  rewrite skipn_app, Nat.add_0_r, skipn_all, Nat.sub_diag. simpl.
  now rewrite string_append_assoc.
Qed.

Lemma base_reqlibs_in l r e d a pth :
  base_reqlibs l = Ok r -> In e l ->
  jget e "downloads" = Val d -> jget d "artifact" = Val a -> jget a "path" = Val (JStr pth) ->
  In (basename pth) r.
Proof.
  revert r. induction l as [|x l IH]; intros r H Hin Hd Ha Hp; [destruct Hin|].
  cbn [base_reqlibs] in H.
  apply res_bind_ok in H as (d' & Ed & H). apply prop_val in Ed.
  apply res_bind_ok in H as (a' & Ea & H).
  apply res_bind_ok in H as (here & Eh & H).
  apply res_bind_ok in H as (rest & Er & H). inversion H; subst; clear H.
  destruct Hin as [<- | Hin].
  - rewrite Hd in Ea. apply prop_val in Ea. rewrite Ha in Ea. subst a'.
    assert (Hp' : prop (Val a) "path" = Ok (Val (JStr pth)))
      by (rewrite <- Hp; destruct a; simpl in *; congruence).
    rewrite Hp' in Eh. simpl in Eh. inversion Eh; subst. simpl. auto.
  - apply in_or_app. right. eapply IH; eauto.
Qed.

Lemma overlay_reqlibs_in l r e nm :
  overlay_reqlibs l = Ok r -> In e l -> jget e "name" = Val (JStr nm) -> In (coord_jar nm) r.
Proof.
  revert r. induction l as [|x l IH]; intros r H Hin Hn; [destruct Hin|].
  cbn [overlay_reqlibs] in H.
  apply res_bind_ok in H as (n' & En & H). apply prop_val in En.
  apply res_bind_ok in H as (s0 & Es & H).
  apply res_bind_ok in H as (rest & Er & H). inversion H; subst; clear H.
  destruct Hin as [<- | Hin].
  - rewrite Hn in Es. simpl in Es. inversion Es. left. reflexivity.
  - right. eapply IH; eauto.
Qed.

Lemma fs_exists_disk p s b s' : fs_exists p s = (Ok b, s') -> st_disk s' = st_disk s.
Proof. cbv [fs_exists bind emit get_disk ret]. intros H. inversion H. reflexivity. Qed.

Lemma merge_overlay_ok root c r1 ga s rl mc ga' s' :
  merge_overlay root c r1 ga s = (Ok (rl, mc, ga'), s') ->
  exists cf l r2,
    lookup (st_disk s) (version_json root c) = Some (File (RJson cf))
    /\ jget cf "libraries" = Val (JArr l) /\ overlay_reqlibs l = Ok r2
    /\ rl = r1 ++ r2 /\ mc = jget cf "mainClass".
Proof.
  unfold merge_overlay. intros H.
  apply bind_ok in H as (cf & s1 & Ecf & H). apply fs_read_json_ok in Ecf as [Hcf _].
  apply bind_ok in H as (r2 & s2 & Er2 & H). apply lift_ok in Er2 as [Er2 ->].
  apply res_bind_ok in Er2 as (ls & Els & Er2). apply prop_val in Els.
  apply res_bind_ok in Er2 as (l & El & Er2).
  apply bind_ok in H as (mc' & s3 & Emc & H). apply lift_ok in Emc as [Emc ->].
  apply prop_val in Emc.
  apply bind_ok in H as (ga'' & s4 & Ega & H).
  apply bind_ok in H as (b & s5 & Eb & H).
  apply bind_ok in H as (u & s6 & Eu & H).
  unfold ret in H. inversion H; subst.
  exists cf, l, r2. repeat split; auto.
  destruct (jget cf "libraries") as [|[]]; simpl in El; congruence.
Qed.

Section Within.
Variable P : event -> Prop.

Lemma within_ret {A} (a : A) : log_within P (ret a).
Proof. intros s e H. now left. Qed.

Lemma within_throw {A} er : log_within P (@throw A er).
Proof. intros s e H. now left. Qed.

Lemma within_lift {A} (r : res A) : log_within P (lift r).
Proof. intros s e H. now left. Qed.

Lemma within_get_disk : log_within P get_disk.
Proof. intros s e H. now left. Qed.

Lemma within_set_disk d : log_within P (set_disk d).
Proof. intros s e H. now left. Qed.

Lemma within_emit e0 : P e0 -> log_within P (emit e0).
Proof.
  intros H0 s e H. simpl in H. apply in_app_or in H as [H|[<-|[]]]; auto.
Qed.

Lemma within_bind {A B} (m : M A) (f : A -> M B) :
  log_within P m -> (forall a, log_within P (f a)) -> log_within P (bind m f).
Proof.
  intros Hm Hf s e H. unfold bind in H.
  destruct (m s) as [[a|er] s1] eqn:E.
  - destruct (Hf a s1 e H) as [H1|H1]; auto.
    specialize (Hm s e). rewrite E in Hm. auto.
  - specialize (Hm s e). rewrite E in Hm. auto.
Qed.

Lemma within_catch {A} (m : M A) (h : err -> M A) :
  log_within P m -> (forall er, log_within P (h er)) -> log_within P (catch m h).
Proof.
  intros Hm Hh s e H. unfold catch in H.
  destruct (m s) as [[a|er] s1] eqn:E.
  - specialize (Hm s e). rewrite E in Hm. auto.
  - destruct (Hh er s1 e H) as [H1|H1]; auto.
    specialize (Hm s e). rewrite E in Hm. auto.
Qed.

Hypothesis Hread : forall e, mutating e = false -> P e.

Lemma within_put_file p c : log_within P (put_file p c).
Proof.
  unfold put_file. apply within_bind; [apply within_get_disk|]. intros d.
  destruct (lookup d p) as [[]|]; try apply within_throw;
    destruct (upd d p (File c)); (apply within_set_disk || apply within_throw).
Qed.

Lemma within_fs_exists p : log_within P (fs_exists p).
Proof.
  unfold fs_exists. apply within_bind; [apply within_emit, Hread; reflexivity|]. intros _.
  apply within_bind; [apply within_get_disk|]. intros d. apply within_ret.
Qed.

Lemma within_fs_read_json p : log_within P (fs_read_json p).
Proof.
  unfold fs_read_json. apply within_bind; [apply within_emit, Hread; reflexivity|]. intros _.
  apply within_bind; [apply within_get_disk|]. intros d.
  destruct (lookup d p) as [[[]|]|]; (apply within_ret || apply within_throw).
Qed.

Lemma within_encontrar d f v : log_within P (encontrarArchivosJAR d f v).
Proof.
  unfold encontrarArchivosJAR. apply within_bind; [apply within_emit, Hread; reflexivity|].
  intros _. apply within_bind; [apply within_get_disk|]. intros n.
  destruct (lookup n d) as [[]|]; (apply within_ret || apply within_throw).
Qed.

Lemma within_fs_write p c : P (EvWrite p) -> log_within P (fs_write p c).
Proof.
  intros Hw. unfold fs_write. apply within_bind; [apply within_emit, Hw|]. intros _.
  apply within_put_file.
Qed.

Lemma within_fs_unlink p : P (EvUnlink p) -> log_within P (fs_unlink p).
Proof.
  intros Hu. unfold fs_unlink. apply within_bind; [apply within_emit, Hu|]. intros _.
  apply within_bind; [apply within_get_disk|]. intros d.
  destruct (lookup d p) as [[]|]; try apply within_throw.
  destruct (rm d p); (apply within_set_disk || apply within_throw).
Qed.

Lemma within_auth root us fresh : log_within P (auth root us fresh).
Proof.
  unfold auth. apply within_catch; [|intros; apply within_ret].
  apply within_bind; [apply within_fs_read_json|]. intros; apply within_lift.
Qed.

Lemma within_createProfile root :
  P (EvWrite (root ++ ["launcher_profiles.json"])) -> log_within P (createProfile root).
Proof.
  intros Hw. unfold createProfile. apply within_bind; [apply within_fs_exists|]. intros [].
  - apply within_ret.
  - now apply within_fs_write.
Qed.

Lemma within_merge_overlay root c r ga :
  P (EvUnlink (root ++ ["options.txt"])) -> log_within P (merge_overlay root c r ga).
Proof.
  intros Hu. unfold merge_overlay.
  apply within_bind; [apply within_fs_read_json|]; intros ?.
  do 3 (apply within_bind; [apply within_lift|]; intros ?).
  apply within_bind; [apply within_fs_exists|]; intros e.
  apply within_bind; [|intros; apply within_ret].
  destruct e; [now apply within_fs_unlink|apply within_ret].
Qed.

End Within.

#[export] Hint Resolve within_ret within_throw within_lift within_fs_exists
  within_fs_read_json within_encontrar within_auth : launcher.

Lemma ext_ret {A} (a : A) : log_ext (ret a).
Proof. intros s. exists []. now rewrite app_nil_r. Qed.

Lemma ext_throw {A} er : log_ext (@throw A er).
Proof. intros s. exists []. now rewrite app_nil_r. Qed.

Lemma ext_lift {A} (r : res A) : log_ext (lift r).
Proof. intros s. exists []. now rewrite app_nil_r. Qed.

Lemma ext_get_disk : log_ext get_disk.
Proof. intros s. exists []. now rewrite app_nil_r. Qed.

Lemma ext_set_disk d : log_ext (set_disk d).
Proof. intros s. exists []. now rewrite app_nil_r. Qed.

Lemma ext_emit e : log_ext (emit e).
Proof. intros s. now exists [e]. Qed.

Lemma ext_bind {A B} (m : M A) (f : A -> M B) :
  log_ext m -> (forall a, log_ext (f a)) -> log_ext (bind m f).
Proof.
  intros Hm Hf s. unfold bind. destruct (Hm s) as [l1 E1].
  destruct (m s) as [[a|er] s1]; simpl in E1.
  - destruct (Hf a s1) as [l2 E2]. exists (l1 ++ l2). now rewrite E2, E1, app_assoc.
  - now exists l1.
Qed.

Lemma ext_catch {A} (m : M A) (h : err -> M A) :
  log_ext m -> (forall er, log_ext (h er)) -> log_ext (catch m h).
Proof.
  intros Hm Hh s. unfold catch. destruct (Hm s) as [l1 E1].
  destruct (m s) as [[a|er] s1]; simpl in E1.
  - now exists l1.
  - destruct (Hh er s1) as [l2 E2]. exists (l1 ++ l2). now rewrite E2, E1, app_assoc.
Qed.

#[export] Hint Resolve ext_ret ext_throw ext_lift ext_get_disk ext_set_disk ext_emit : launcher.

Ltac ext_solve :=
  repeat first
    [ apply ext_bind; [|intros ?]
    | apply ext_catch; [|intros ?]
    | progress (auto with launcher)
    | match goal with |- log_ext (match ?x with _ => _ end) => destruct x end
    | progress cbv zeta ].

Lemma ext_put_file p c : log_ext (put_file p c).
Proof. unfold put_file. ext_solve. Qed.

Lemma ext_fs_exists p : log_ext (fs_exists p).
Proof. unfold fs_exists. ext_solve. Qed.

Lemma ext_fs_mkdir r p : log_ext (fs_mkdir r p).
Proof. unfold fs_mkdir. ext_solve. Qed.

#[export] Hint Resolve ext_put_file ext_fs_exists ext_fs_mkdir : launcher.

Lemma put_file_log p c s : st_log (snd (put_file p c s)) = st_log s.
Proof.
  unfold put_file, bind, get_disk. simpl.
  destruct (lookup (st_disk s) p) as [[]|]; try reflexivity;
    destruct (upd (st_disk s) p (File c)); reflexivity.
Qed.

Section DownFacts.
Variable net : string -> raw.

Lemma ext_down u d n : log_ext (Downloader.down net u d n).
Proof. unfold Downloader.down. ext_solve. Qed.

Lemma ext_ensure_dir r p : log_ext (Downloader.ensure_dir r p).
Proof. unfold Downloader.ensure_dir. ext_solve. Qed.

#[local] Hint Resolve ext_down ext_ensure_dir : launcher.

Lemma ext_asset_object root k o : log_ext (Downloader.asset_object net root k o).
Proof. unfold Downloader.asset_object. ext_solve. Qed.

#[local] Hint Resolve ext_asset_object : launcher.

Lemma ext_asset_loop root l : log_ext (Downloader.asset_loop net root l).
Proof. induction l as [|[k o] r IH]; simpl; ext_solve. Qed.

(** [down] logs its request whatever happens to the transfer. *)
Lemma down_logged u d n s :
  In (EvDown u d n) (st_log (snd (Downloader.down net u d n s))).
Proof.
  unfold Downloader.down, bind, emit. cbn [fst snd].
  destruct (put_file (d ++ [n]) (net u) _) as [r s1] eqn:E.
  simpl. pose proof (put_file_log (d ++ [n]) (net u)
            (mkState (st_disk s) (st_log s ++ [EvDown u d n]))) as L.
  rewrite E in L. simpl in L. rewrite L. apply in_or_app. right. now left.
Qed.

Lemma asset_object_logged root k o h s s' :
  Downloader.asset_object net root k o s = (Ok tt, s') ->
  jget o "hash" = Val (JStr h) ->
  In (EvDown (String.append Downloader.url_resource
                (String.append "/" (String.append (substring 0 2 h) (String.append "/" h))))
             (root ++ [d_assets; "objects"; substring 0 2 h]) h)
     (st_log s').
Proof.
  intros H Hh. unfold Downloader.asset_object in H.
  apply bind_ok in H as (fh & s1 & E1 & H). apply lift_ok in E1 as [E1 ->].
  destruct o; cbn [jget] in Hh; try discriminate; cbn [prop] in E1;
    injection E1 as <-; cbn [jget] in Hh; rewrite Hh in H.
  all: apply bind_ok in H as (sub & s2 & E2 & H); apply lift_ok in E2 as [E2 ->];
       injection E2 as <-;
       apply bind_ok in H as (u & s3 & _ & H);
       apply bind_ok in H as (h' & s4 & E4 & H); apply lift_ok in E4 as [E4 ->];
       injection E4 as <-;
       unfold catch in H;
       match type of H with
       | context [Downloader.down net ?u ?d ?n s3] =>
           pose proof (down_logged u d n s3) as L;
           destruct (Downloader.down net u d n s3) as [[[]|er] s5] eqn:Ed
       end; unfold ret in H; injection H as ->; exact L.
Qed.

Lemma down_log u d n s r s1 :
  Downloader.down net u d n s = (r, s1) -> st_log s1 = st_log s ++ [EvDown u d n].
Proof.
  unfold Downloader.down, bind, emit. intros H.
  pose proof (put_file_log (d ++ [n]) (net u)
            (mkState (st_disk s) (st_log s ++ [EvDown u d n]))) as L.
  rewrite H in L. exact L.
Qed.

Lemma ext_fs_read_json p : log_ext (fs_read_json p).
Proof. unfold fs_read_json. ext_solve. Qed.

Lemma ext_fs_unlink p : log_ext (fs_unlink p).
Proof. unfold fs_unlink. ext_solve. Qed.

Lemma ext_extract z dst : log_ext (Downloader.extract z dst).
Proof. unfold Downloader.extract. ext_solve. Qed.

Lemma ext_for_each_async f l :
  (forall x, log_ext (f x)) -> log_ext (Downloader.for_each_async f l).
Proof. intros Hf. induction l as [|x r IH]; simpl; ext_solve. Qed.

#[local] Hint Resolve ext_fs_read_json ext_fs_unlink ext_extract ext_asset_loop : launcher.

Lemma ext_download v root : log_ext (Downloader.download net v root).
Proof.
  unfold Downloader.download, Downloader.downloadVersion, Downloader.downloadClient,
    Downloader.downloadAssets, Downloader.downloadLibraries, Downloader.downloadNatives.
  ext_solve; apply ext_for_each_async; intros x;
    [unfold Downloader.library_entry | unfold Downloader.native_entry]; ext_solve.
Qed.

Lemma in_log_ext {A} (m : M A) e s : log_ext m -> In e (st_log s) -> In e (st_log (snd (m s))).
Proof. intros Hm H. destruct (Hm s) as [l E]. rewrite E. apply in_or_app. now left. Qed.

Lemma ext_incl {A} (m : M A) s r s' e :
  log_ext m -> m s = (r, s') -> In e (st_log s) -> In e (st_log s').
Proof.
  intros Hm E H. pose proof (in_log_ext m e s Hm H) as L. now rewrite E in L.
Qed.

Lemma bind_in {A B} (m : M A) (f : A -> M B) s b s' e :
  bind m f s = (Ok b, s') -> (forall a, log_ext (f a)) ->
  (forall s1 a, m s = (Ok a, s1) -> In e (st_log s1)) -> In e (st_log s').
Proof.
  intros H Hf Hm. apply bind_ok in H as (a & s1 & E1 & H).
  exact (ext_incl (f a) s1 _ s' e (Hf a) H (Hm s1 a E1)).
Qed.

Lemma down_in u d n s s1 r :
  Downloader.down net u d n s = (r, s1) -> In (EvDown u d n) (st_log s1).
Proof. intros E. apply down_log in E. rewrite E. apply in_or_app. right. now left. Qed.

Lemma ext_downloadVersion root v : log_ext (Downloader.downloadVersion net root v).
Proof. unfold Downloader.downloadVersion. ext_solve. Qed.

Lemma ext_downloadClient root v : log_ext (Downloader.downloadClient net root v).
Proof. unfold Downloader.downloadClient. ext_solve. Qed.

Lemma ext_downloadAssets root v file : log_ext (Downloader.downloadAssets net root v file).
Proof. unfold Downloader.downloadAssets. ext_solve. Qed.

Lemma ext_downloadLibraries root file : log_ext (Downloader.downloadLibraries net root file).
Proof.
  unfold Downloader.downloadLibraries. ext_solve.
  apply ext_for_each_async. intros x. unfold Downloader.library_entry. ext_solve.
Qed.

Lemma ext_downloadNatives root v file : log_ext (Downloader.downloadNatives net root v file).
Proof.
  unfold Downloader.downloadNatives. ext_solve.
  apply ext_for_each_async. intros x. unfold Downloader.native_entry. ext_solve.
Qed.

Lemma downloadVersion_meta root v s s1 :
  Downloader.downloadVersion net root v s = (Ok tt, s1) ->
  In (EvDown Downloader.url_meta (root ++ [d_cache; "json"]) "version_manifest.json") (st_log s1).
Proof.
  unfold Downloader.downloadVersion. intros H.
  apply bind_ok in H as ([] & sa & _ & H).
  eapply (bind_in _ _ _ _ _ _ H); [intros _; ext_solve|].
  intros s2 [] E. exact (down_in _ _ _ _ _ _ E).
Qed.

Lemma downloadClient_jar root v s file s1 :
  Downloader.downloadClient net root v s = (Ok file, s1) ->
  exists u, In (EvDown u (root ++ [d_versions; v]) (String.append v ".jar")) (st_log s1).
Proof.
  unfold Downloader.downloadClient. intros H.
  apply bind_ok in H as (f & sa & _ & H).
  apply bind_ok in H as (c & sb & _ & H).
  apply bind_ok in H as ([] & sc & _ & H).
  apply bind_ok in H as (u & sd & _ & H).
  exists u. eapply (bind_in _ _ _ _ _ _ H); [intros _; ext_solve|].
  intros s2 [] E. exact (down_in _ _ _ _ _ _ E).
Qed.

Lemma downloadAssets_index root v file s s1 :
  Downloader.downloadAssets net root v file s = (Ok tt, s1) ->
  exists u,
    In (EvDown u (root ++ [d_assets; "indexes"]) (String.append v ".json")) (st_log s1)
    /\ In (EvDown u (root ++ [d_cache; "json"]) (String.append v ".json")) (st_log s1).
Proof.
  unfold Downloader.downloadAssets. intros H.
  apply bind_ok in H as ([] & sa & _ & H).
  apply bind_ok in H as (u & sb & _ & H).
  exists u. split.
  - eapply (bind_in _ _ _ _ _ _ H); [intros _; ext_solve|].
    intros s2 [] E. exact (down_in _ _ _ _ _ _ E).
  - apply bind_ok in H as ([] & sc & _ & H).
    eapply (bind_in _ _ _ _ _ _ H); [intros _; ext_solve|].
    intros s2 [] E. exact (down_in _ _ _ _ _ _ E).
Qed.

End DownFacts.

Lemma as_string_ok v u : as_string v = Ok u -> v = Val (JStr u).
Proof. destruct v as [|[]]; simpl; congruence. Qed.

Lemma fs_unlink_log p s r s1 : fs_unlink p s = (r, s1) -> st_log s1 = st_log s ++ [EvUnlink p].
Proof.
  unfold fs_unlink, bind, emit, get_disk. simpl. intros H.
  repeat match type of H with context [match ?x with _ => _ end] => destruct x end;
    unfold set_disk, throw in H; now injection H as _ <-.
Qed.

Lemma extract_log z dst s r s1 :
  Downloader.extract z dst s = (r, s1) -> st_log s1 = st_log s ++ [EvExtract z dst].
Proof.
  unfold Downloader.extract, bind, emit, get_disk. simpl. intros H.
  repeat match type of H with context [match ?x with _ => _ end] => destruct x end;
    unfold set_disk, throw in H; now injection H as _ <-.
Qed.

(** The callbacks run to their end, written in one piece. *)
Lemma library_entry_eq net root el s :
  Downloader.library_entry net root el s =
  (a <- lift (let? d := prop (Val el) "downloads" in prop d "artifact") ;;
   match a with
   | Undef => ret tt
   | _ =>
       jarFile <- lift (let? p := prop a "path" in as_string p) ;;
       let libRoot := String.concat "/" (removelast (split_on "/" jarFile)) in
       let libName := basename jarFile in
       Downloader.ensure_dir true (Downloader.join_str (root ++ [d_libraries]) libRoot) ;;;
       u <- lift (let? x := prop a "url" in as_string x) ;;
       Downloader.down net u (Downloader.join_str (root ++ [d_libraries]) libRoot) libName
   end) s.
Proof.
  unfold Downloader.library_entry, Downloader.library_start, Downloader.down_start,
    Downloader.down, bind, lift, ret.
  destruct (let? d := prop (Val el) "downloads" in prop d "artifact") as [a|e]; [|reflexivity].
  destruct a as [|a]; [reflexivity|].
  destruct (let? p := prop (Val a) "path" in as_string p) as [jf|e]; [|reflexivity].
  destruct (Downloader.ensure_dir true _ s) as [[[]|e] s1]; [|reflexivity].
  destruct (let? x := prop (Val a) "url" in as_string x) as [u|e]; [|reflexivity].
  unfold emit. reflexivity.
Qed.

Lemma native_entry_eq net root v el s :
  Downloader.native_entry net root v el s =
  (c <- lift (let? d := prop (Val el) "downloads" in prop d "classifiers") ;;
   natives <- lift (Downloader.select_natives c) ;;
   if truthy natives then
     u <- lift (let? x := prop natives "url" in as_string x) ;;
     p <- lift (let? x := prop natives "path" in as_string x) ;;
     Downloader.down net u (root ++ [d_natives]) (basename p) ;;;
     if String.eqb v "1.8" && str_includes u "nightly"
     then fs_unlink (root ++ [d_natives; basename p])
     else Downloader.extract (root ++ [d_natives; basename p]) (root ++ [d_natives; v]) ;;;
          fs_unlink (root ++ [d_natives; basename p])
   else ret tt) s.
Proof.
  unfold Downloader.native_entry, Downloader.native_start, Downloader.native_rest,
    Downloader.down_start, Downloader.down, bind, lift, ret.
  destruct (let? d := prop (Val el) "downloads" in prop d "classifiers") as [c|e]; [|reflexivity].
  destruct (Downloader.select_natives c) as [n|e]; [|reflexivity].
  destruct (truthy n); [|reflexivity].
  destruct (let? x := prop n "url" in as_string x) as [u|e]; [|reflexivity].
  destruct (let? x := prop n "path" in as_string x) as [p|e]; [|reflexivity].
  unfold emit. destruct (put_file _ _ _) as [[[]|e] s2]; reflexivity.
Qed.

(* ------------------------------------------------------------------ *)
Lemma in_bind {A B} (m : M A) (f : A -> M B) s e :
  In e (st_log (snd (bind m f s))) ->
  (exists a s1, m s = (Ok a, s1) /\ In e (st_log (snd (f a s1))))
  \/ In e (st_log (snd (m s))).
Proof.
  unfold bind. destruct (m s) as [[a|er] s1]; eauto.
Qed.

Lemma createProfile_events root s r s1 e :
  createProfile root s = (r, s1) -> In e (st_log s1) ->
  In e (st_log s) \/ mutating e = false
  \/ (lookup (st_disk s) (root ++ ["launcher_profiles.json"]) = None
      /\ e = EvWrite (root ++ ["launcher_profiles.json"])).
Proof.
  unfold createProfile, fs_exists. cbv [bind emit get_disk ret]. cbn.
  destruct (lookup (st_disk s) (root ++ ["launcher_profiles.json"])) eqn:E.
  - intros H Hin. injection H as _ <-. cbn in Hin.
    apply in_app_or in Hin as [Hin|[<-|[]]]; auto.
  - unfold fs_write, put_file. cbv [bind emit get_disk ret throw set_disk]. cbn. rewrite E.
    destruct (upd _ _ _); intros H Hin; injection H as _ <-; cbn in Hin;
      apply in_app_or in Hin as [Hin|[<-|[]]]; [apply in_app_or in Hin as [Hin|[<-|[]]]| |
                                             apply in_app_or in Hin as [Hin|[<-|[]]]|]; auto.
Qed.

(** ** Claims *)

(** C6: the recursive jar search prints, in visiting order, the files it
    selects; a required [.jar] whose name contains ["3.2.1"] is selected
    exactly when the version is one of ["1.14"], ["1.14.1"], ["1.14.2"],
    ["1.14.3"], and excluded for every other version. *)
Theorem encontrar_conflicting_jar (dir : path) (n : node) (files : list string) (ver : string) :
  encontrar dir n files ver
    = render (filter (fun pn => jar_selected (snd pn) files ver) (all_files dir n))
  /\ forall name, extname name = ".jar" -> In name files -> str_includes name "3.2.1" = true ->
       (In ver legacy_versions -> jar_selected name files ver = true)
       /\ (~ In ver legacy_versions -> jar_selected name files ver = false).
Proof.
  split; [apply encontrar_render|].
  intros name Hext Hin Hconf.
  rewrite (jar_selected_conflicting name files ver Hext Hin Hconf).
  split; intros H.
  - now apply str_in_In.
  - destruct (str_in ver legacy_versions) eqn:E; [|reflexivity].
    apply str_in_In in E. contradiction.
Qed.

(** C10 (as amended): [auth] never throws and leaves the disk alone. When
    [usercache.json] parses to an array, [find] walks it in order: the
    first entry named [us] that it reaches gives the result, its [uuid]
    field; a [null] entry reached first makes the callback throw, and the
    fresh UUID is returned, as it is when no entry matches, when the file is
    missing, unparsable, or not an array. *)
Theorem auth_total (root : path) (us fresh : string) (s : state) :
  let cache := lookup (st_disk s) (root ++ ["usercache.json"]) in
  exists v, fst (auth root us fresh s) = Ok v
  /\ st_disk (snd (auth root us fresh s)) = st_disk s
  /\ (forall pre x post, cache = Some (File (RJson (JArr (pre ++ x :: post)))) ->
        Forall (passed_over us) pre -> jget x "name" = Val (JStr us) -> v = jget x "uuid")
  /\ (forall pre post, cache = Some (File (RJson (JArr (pre ++ JNull :: post)))) ->
        Forall (passed_over us) pre -> v = Val (JStr fresh))
  /\ (forall arr, cache = Some (File (RJson (JArr arr))) ->
        Forall (passed_over us) arr -> v = Val (JStr fresh))
  /\ ((forall arr, cache <> Some (File (RJson (JArr arr)))) -> v = Val (JStr fresh)).
Proof.
  intros cache. destruct (auth_eq root us fresh s) as [E D].
  exists (auth_value cache us fresh). fold cache in E.
  split; [exact E|]. split; [exact D|].
  unfold auth_value. repeat split.
  - intros pre x post Hc Hpre Hx. rewrite Hc. cbn [as_array res_bind].
    rewrite find_named_prefix by exact Hpre. rewrite find_named_hit by exact Hx.
    cbn [res_bind].
    assert (x <> JNull) by (intro; subst; discriminate).
    destruct x; [contradiction | reflexivity ..].
  - intros pre post Hc Hpre. rewrite Hc. cbn [as_array res_bind].
    rewrite find_named_prefix by exact Hpre. reflexivity.
  - intros arr Hc Harr. rewrite Hc. cbn [as_array res_bind].
    rewrite <- (app_nil_r arr), find_named_prefix by exact Harr. reflexivity.
  - intros Hno. destruct cache as [[[j|b]|kids]|]; try reflexivity.
    destruct j; try reflexivity. exfalso. eapply Hno. reflexivity.
Qed.

(** C10, the claim as written fails: [usercache.json] holds an entry named
    ["Steve"] with uuid ["u-steve"], after a [null] entry; [auth] returns the
    fresh UUID. *)
Lemma auth_null_entry_counterexample :
  let d := Dir [("mc", Dir [("usercache.json", File (RJson (JArr
             [JNull; JObj [("name", JStr "Steve"); ("uuid", JStr "u-steve")]])))])] in
  fst (auth ["mc"] "Steve" "fresh-uuid" (mkState d [])) = Ok (Val (JStr "fresh-uuid"))
  /\ fst (auth ["mc"] "Steve" "fresh-uuid" (mkState d [])) <> Ok (Val (JStr "u-steve")).
Proof. split; vm_compute; [reflexivity | discriminate]. Qed.

(** C1 (as amended): the classpath of a successful launch is the output of
    the jar search over [libraries], followed by one game jar: the base
    client jar [versions/<base>/<base>.jar] when there is no overlay or the
    overlay id contains ["fabric"], and the overlay's own jar
    [versions/<overlay>/<overlay>.jar] for any other overlay. *)
Theorem launch_game_jar (o : options) (fresh : string) (s : state) (p : plan) (s' : state) :
  launch o fresh s = (Ok p, s') ->
  exists ver kids,
    match_version (version o) = Some ver
    /\ lookup (st_disk s') (gameDirectory o ++ [d_libraries]) = Some (Dir kids)
    /\ pl_libs p
       = String.append
           (encontrar (gameDirectory o ++ [d_libraries]) (Dir kids) (pl_reqLibs p) ver)
           (show_path
              (match custom_of (version o) ver with
               | None => version_jar (gameDirectory o) ver
               | Some c => if str_includes c "fabric"
                           then version_jar (gameDirectory o) ver
                           else version_jar (gameDirectory o) c
               end)).
Proof.
  intros H. unfold launch in H.
  destruct (match_version (version o)) as [ver|] eqn:Ev; [|discriminate].
  do 7 step H.
  destruct a5 as [[reqLibs mainClass] gameArgs].
  step H. step H.
  apply lift_state in E7. subst st7.
  apply encontrar_ok in E6 as [Hd (kids & Hk & ->)].
  unfold ret in H. inversion H; subst; clear H.
  exists ver, kids. rewrite Hd. repeat split; auto.
Qed.

(** C1, the claim as written fails: with the overlay ["1.19-fabric-0.1"]
    the classpath ends with the base jar [versions/1.19/1.19.jar], not with
    the overlay's [versions/1.19-fabric-0.1/1.19-fabric-0.1.jar]. *)
Lemma launch_fabric_jar_counterexample :
  match launch (Sample.opts "1.19-fabric-0.1") "fresh" (mkState Sample.disk []) with
  | (Ok p, _) =>
      pl_libs p = String.append
                    (encontrar (Sample.root ++ [d_libraries]) Sample.libtree (pl_reqLibs p) "1.19")
                    (show_path (version_jar Sample.root "1.19"))
      /\ pl_libs p <> String.append
                    (encontrar (Sample.root ++ [d_libraries]) Sample.libtree (pl_reqLibs p) "1.19")
                    (show_path (version_jar Sample.root "1.19-fabric-0.1"))
  | _ => False
  end.
Proof. vm_compute. split; [reflexivity | discriminate]. Qed.

Lemma launch_game_jar_witness :
  exists p s',
    launch (Sample.opts "1.19-fabric-0.1") "fresh" (mkState Sample.disk []) = (Ok p, s')
    /\ exists ver kids,
      match_version "1.19-fabric-0.1" = Some ver
      /\ lookup (st_disk s') (Sample.root ++ [d_libraries]) = Some (Dir kids)
      /\ pl_libs p
         = String.append
             (encontrar (Sample.root ++ [d_libraries]) (Dir kids) (pl_reqLibs p) ver)
             (show_path
                (match custom_of "1.19-fabric-0.1" ver with
                 | None => version_jar Sample.root ver
                 | Some c => if str_includes c "fabric"
                             then version_jar Sample.root ver
                             else version_jar Sample.root c
                 end)).
Proof.
  destruct (launch (Sample.opts "1.19-fabric-0.1") "fresh" (mkState Sample.disk []))
    as [[p|e] s'] eqn:E.
  - exists p, s'. split; [reflexivity|].
    exact (launch_game_jar (Sample.opts "1.19-fabric-0.1") "fresh" (mkState Sample.disk []) p s' E).
  - vm_compute in E. discriminate.
Defined.

(** C4: with base [ver] and overlay [c] both on disk, a successful launch
    takes its main class from the overlay, and its required-library list
    holds the basename of every base library's artifact path and, for every
    overlay library with coordinate [g:n:v], the name [n-v.jar]. *)
Theorem launch_overlay_merge (o : options) (fresh : string) (s : state) (p : plan) (s' : state)
    (ver c : string) (fb fo : json) :
  launch o fresh s = (Ok p, s') ->
  match_version (version o) = Some ver ->
  custom_of (version o) ver = Some c ->
  lookup (st_disk s) (version_json (gameDirectory o) ver) = Some (File (RJson fb)) ->
  lookup (st_disk s) (version_json (gameDirectory o) c) = Some (File (RJson fo)) ->
  pl_mainClass p = jget fo "mainClass"
  /\ (forall bl e d a pth,
        jget fb "libraries" = Val (JArr bl) -> In e bl ->
        jget e "downloads" = Val d -> jget d "artifact" = Val a -> jget a "path" = Val (JStr pth) ->
        In (basename pth) (pl_reqLibs p))
  /\ (forall ol e g n v,
        jget fo "libraries" = Val (JArr ol) -> In e ol ->
        jget e "name" = Val (JStr (g ++ ":" ++ n ++ ":" ++ v)%string) ->
        ~ In ":"%char (list_ascii_of_string n) -> ~ In ":"%char (list_ascii_of_string v) ->
        In (n ++ "-" ++ v ++ ".jar")%string (pl_reqLibs p)).
Proof.
  intros H Hv Hc Hb Ho. unfold launch in H. rewrite Hv in H. cbv zeta in H. rewrite Hc in H.
  set (root := gameDirectory o) in *.
  apply bind_ok in H as (file & s1 & Ef & H).
  apply fs_read_json_ok in Ef as [Ef D1]. rewrite Hb in Ef. inversion Ef; subst file; clear Ef.
  apply bind_ok in H as (u & s2 & Ecp & H). apply createProfile_ok in Ecp.
  apply bind_ok in H as (uuid & s3 & Eau & H). apply auth_ok in Eau.
  apply bind_ok in H as (r1 & s4 & Er1 & H). apply lift_ok in Er1 as [Er1 ->].
  apply res_bind_ok in Er1 as (ls & Els & Er1). apply prop_val in Els.
  apply res_bind_ok in Er1 as (bl & Ebl & Er1).
  apply bind_ok in H as (mc0 & s5 & Emc & H). apply lift_ok in Emc as [_ ->].
  apply bind_ok in H as (ga0 & s6 & Ega & H). apply lift_ok in Ega as [_ ->].
  apply bind_ok in H as ([[reqLibs mainClass] gameArgs] & s7 & Et & H).
  apply merge_overlay_ok in Et as (cf & l & r2 & Hcf & El & Er2 & -> & ->).
  assert (Hsame : lookup (st_disk s3) (version_json root c) = lookup (st_disk s) (version_json root c)).
  { rewrite Eau. destruct Ecp as [Ecp | Ecp].
    - now rewrite Ecp, D1.
    - rewrite D1 in Ecp. unfold version_json.
      apply (lookup_upd_sibling _ root "launcher_profiles.json" d_versions _ _ _ Ecp).
      discriminate. }
  rewrite Hsame, Ho in Hcf. inversion Hcf; subst cf; clear Hcf.
  apply bind_ok in H as (libs & s8 & Elibs & H).
  apply bind_ok in H as (flat & s9 & Eflat & H).
  unfold ret in H. inversion H; subst; clear H. cbn [pl_reqLibs pl_mainClass].
  assert (Ebl' : jget fb "libraries" = Val (JArr bl))
    by (destruct (jget fb "libraries") as [|[]]; simpl in Ebl; congruence).
  repeat split.
  - intros bl' e d a pth Hl Hin Hd Ha Hp. rewrite Ebl' in Hl. inversion Hl; subst bl'.
    apply in_or_app. left. eapply base_reqlibs_in; eauto.
  - intros ol e g n v Hl Hin Hn Hnn Hnv. rewrite El in Hl. inversion Hl; subst ol.
    apply in_or_app. right. rewrite <- coord_jar_last_two with (g := g) by assumption.
    eapply overlay_reqlibs_in; eauto.
Qed.

Lemma launch_overlay_merge_witness :
  exists p s',
    launch (Sample.opts "1.19-fabric-0.1") "fresh" (mkState Sample.disk []) = (Ok p, s')
    /\ pl_mainClass p = Val (JStr "B")
    /\ In "lwjgl-3.3.1.jar" (pl_reqLibs p)
    /\ In "fabric-loader-0.1.jar" (pl_reqLibs p).
Proof.
  destruct (launch (Sample.opts "1.19-fabric-0.1") "fresh" (mkState Sample.disk []))
    as [[p|e] s'] eqn:E; [| vm_compute in E; discriminate].
  destruct (launch_overlay_merge (Sample.opts "1.19-fabric-0.1") "fresh" (mkState Sample.disk [])
              p s' "1.19" "1.19-fabric-0.1" Sample.base_json Sample.fabric_json E
              ltac:(reflexivity) ltac:(reflexivity) ltac:(reflexivity) ltac:(reflexivity))
    as (Hmc & Hbase & Hover).
  exists p, s'. split; [reflexivity|]. split; [exact Hmc|]. split.
  - eapply (Hbase [Sample.lwjgl_lib; Sample.jinput_lib] Sample.lwjgl_lib _ _ "org/lwjgl/lwjgl/3.3.1/lwjgl-3.3.1.jar"); [reflexivity | left; reflexivity | reflexivity ..].
  - apply (Hover [JObj [("name", JStr "net.fabricmc:fabric-loader:0.1")]] (JObj [("name", JStr "net.fabricmc:fabric-loader:0.1")]) "net.fabricmc"
             "fabric-loader" "0.1");
      [reflexivity | left; reflexivity | reflexivity | simpl; intuition discriminate ..].
Defined.

(** C9. The only disk effects of [launch] are the creation of
    [launcher_profiles.json], written only when the disk it starts from
    lacks that file, and, when an overlay version is requested, the
    removal of [options.txt]: every event it logs is either read-only or
    one of these two. In particular it never
    downloads, never creates a directory and never extracts an archive. *)
Theorem launch_disk_effects (o : options) (fresh : string) (s : state) (e : event) :
  In e (st_log (snd (launch o fresh s))) ->
  In e (st_log s)
  \/ launch_effect (st_disk s) (gameDirectory o) (has_overlay (version o)) e.
Proof.
  intros H. unfold launch in H. unfold has_overlay.
  destruct (match_version (version o)) as [ver|]; [|left; exact H].
  set (P := launch_effect (st_disk s) _ _).
  assert (Hr : forall e, mutating e = false -> P e) by (intros; now left).
  apply in_bind in H as [(file & s1 & E1 & H)|H];
    [|exact (within_fs_read_json P Hr _ s e H)].
  assert (H1 : forall e, In e (st_log s1) -> In e (st_log s) \/ P e).
  { intros e' He'. pose proof (within_fs_read_json P Hr (version_json (gameDirectory o) ver) s e') as W.
    rewrite E1 in W. exact (W He'). }
  assert (Hc : forall r s2 e, createProfile (gameDirectory o) s1 = (r, s2) ->
                 In e (st_log s2) -> In e (st_log s) \/ P e).
  { intros r s2 e' E2 He'. apply fs_read_json_ok in E1 as [_ Hd].
    destruct (createProfile_events _ _ _ _ _ E2 He') as [Hin|[Hm|[Hn ->]]].
    - exact (H1 e' Hin).
    - right. now left.
    - right. unfold P, launch_effect. right; left. rewrite <- Hd. now split. }
  cbv beta in H. apply in_bind in H as [([] & s2 & E2 & H)|H].
  2: { destruct (createProfile (gameDirectory o) s1) as [r s2] eqn:E2. exact (Hc r s2 e eq_refl H). }
  revert H. match goal with |- In e (st_log (snd (?R s2))) -> _ => assert (HR : log_within P R) end.
  { apply within_bind; [now apply within_auth|]; intros uuid.
    do 3 (apply within_bind; [apply within_lift|]; intros ?).
    apply within_bind.
    - destruct (custom_of (version o) ver) as [c|] eqn:Ec; [|apply within_ret].
      apply within_merge_overlay; [exact Hr|]. unfold P, launch_effect. right; right. now split.
    - intros [[reqLibs mainClass] gameArgs].
      apply within_bind; [now apply within_encontrar|]; intros libs.
      apply within_bind; [apply within_lift|]; intros flat. apply within_ret. }
  intros H. destruct (HR s2 e H) as [He|He]; [exact (Hc (Ok tt) s2 e E2 He)|right; exact He].
Qed.

(** Witness: a first launch of 1.19 on the sample disk, which has no
    [launcher_profiles.json], writes it, and that write is allowed. *)
Lemma launch_disk_effects_witness :
  In (EvWrite (Sample.root ++ ["launcher_profiles.json"]))
     (st_log (snd (launch (Sample.opts "1.19") "fresh" (mkState Sample.disk [])))) /\
  launch_effect Sample.disk Sample.root false (EvWrite (Sample.root ++ ["launcher_profiles.json"])).
Proof.
  assert (H : In (EvWrite (Sample.root ++ ["launcher_profiles.json"]))
     (st_log (snd (launch (Sample.opts "1.19") "fresh" (mkState Sample.disk [])))))
    by (vm_compute; repeat (first [left; reflexivity | right])).
  split; [exact H|].
  destruct (launch_disk_effects (Sample.opts "1.19") "fresh" (mkState Sample.disk []) _ H)
    as [[]|He].
  exact He.
Defined.

(** C9, as the specification words it: the launch of a plain version on a
    disk without [launcher_profiles.json] still writes that file. *)
Lemma launch_writes_profile_counterexample :
  has_overlay (version (Sample.opts "1.19")) = false /\
  In (EvWrite (Sample.root ++ ["launcher_profiles.json"]))
     (st_log (snd (launch (Sample.opts "1.19") "fresh" (mkState Sample.disk [])))) /\
  mutating (EvWrite (Sample.root ++ ["launcher_profiles.json"])) = true.
Proof.
  split; [reflexivity|]. split; [|reflexivity].
  vm_compute. repeat (first [left; reflexivity | right]).
Qed.



(** C3. Version resolution on a manifest whose [versions] is an array:
    when a release entry with the requested id exists, its [url] is
    returned (if truthy); when none exists, [find] yields [undefined] and
    reading [.url] on it throws a [TypeError] before the
    ["La version no existe."] check is reached. *)
Theorem manifest_url_spec (ver : json) (v : string) (l : list json) :
  jget ver "versions" = Val (JArr l) ->
  (Downloader.find_release v l = Ok Undef -> Downloader.manifest_url ver v = Err (TypeError "url"))
  /\ (forall x, Downloader.find_release v l = Ok (Val x) -> truthy (jget x "url") = true ->
        Downloader.manifest_url ver v = Ok (jget x "url")).
Proof.
  intros Hv. unfold Downloader.manifest_url.
  destruct ver; try discriminate; cbn [prop res_bind]; rewrite Hv; cbn [as_array res_bind].
  split.
  - intros Hf. now rewrite Hf.
  - intros x Hf Hu. rewrite Hf. cbn [res_bind].
    destruct x; cbn [prop res_bind]; [cbn in Hu; discriminate|..]; now rewrite Hu.
Qed.

(** C3 on the sample manifest: ["1.19"] resolves to its metadata URL,
    the absent ["1.99"] fails with the [TypeError] of [.url], not with
    ["La version no existe."], and so does the whole [downloadVersion]. *)
Lemma manifest_url_spec_witness :
  Downloader.manifest_url Sample.manifest "1.19" = Ok (Val (JStr "https://meta/1.19.json"))
  /\ Downloader.manifest_url Sample.manifest "1.99" = Err (TypeError "url")
  /\ Downloader.manifest_url Sample.manifest "1.99" <> Err (Thrown "La version no existe.")
  /\ fst (Downloader.downloadVersion Sample.net Sample.root "1.99" (mkState Sample.empty_disk []))
     = Err (TypeError "url").
Proof.
  destruct (manifest_url_spec Sample.manifest "1.99" _ eq_refl) as [Habs _].
  destruct (manifest_url_spec Sample.manifest "1.19" _ eq_refl) as [_ Hpres].
  split; [|split; [|split]].
  - exact (Hpres _ eq_refl eq_refl).
  - exact (Habs eq_refl).
  - rewrite (Habs eq_refl). discriminate.
  - vm_compute. reflexivity.
Defined.

(** C5. Whenever the asset loop over the entries of an index completes,
    every entry [(key, obj)] whose [hash] is the string [h] has been
    requested from [resource/<h[0..2]>/h] into the directory
    [assets/objects/<h[0..2]>] under the name [h], that is, stored at
    [assets/objects/<h[0..2]>/<h>]: the target is a function of [h] alone
    and [key] plays no part in it. *)
Theorem asset_loop_storage (net : string -> raw) (root : path) (l : list (string * json))
    (s s' : state) :
  Downloader.asset_loop net root l s = (Ok tt, s') ->
  forall key obj h, In (key, obj) l -> jget obj "hash" = Val (JStr h) ->
  In (EvDown (String.append Downloader.url_resource
                (String.append "/" (String.append (substring 0 2 h) (String.append "/" h))))
             (root ++ [d_assets; "objects"; substring 0 2 h]) h)
     (st_log s').
Proof.
  revert s. induction l as [|[k o] r IH]; intros s H key obj h Hin Hh; [destruct Hin|].
  simpl in H. apply bind_ok in H as ([] & s1 & E1 & H).
  destruct Hin as [Heq|Hin].
  - injection Heq as -> ->.
    pose proof (asset_object_logged net root key obj h s s1 E1 Hh) as L.
    destruct (ext_asset_loop net root r s1) as [l2 E2]. rewrite H in E2. simpl in E2.
    rewrite E2. apply in_or_app. now left.
  - exact (IH s1 H key obj h Hin Hh).
Qed.

(** C5 on the sample index: the two logical assets sharing the hash
    [abcd1234] are both requested into [assets/objects/ab] as [abcd1234]. *)
Lemma asset_loop_storage_witness :
  exists s',
    Downloader.asset_loop Sample.net Sample.root
      (Downloader.for_in (jget Sample.asset_index "objects"))
      (mkState (Dir [("home", Dir [("mc", Dir [("assets", Dir [("objects", Dir [])])])])]) [])
    = (Ok tt, s')
    /\ In (EvDown "https://resources.download.minecraft.net/ab/abcd1234"
                  (Sample.root ++ [d_assets; "objects"; "ab"]) "abcd1234") (st_log s')
    /\ In (EvDown "https://resources.download.minecraft.net/ef/ef015678"
                  (Sample.root ++ [d_assets; "objects"; "ef"]) "ef015678") (st_log s').
Proof.
  destruct (Downloader.asset_loop Sample.net Sample.root
      (Downloader.for_in (jget Sample.asset_index "objects"))
      (mkState (Dir [("home", Dir [("mc", Dir [("assets", Dir [("objects", Dir [])])])])]) []))
    as [[[]|e] s'] eqn:E; [| vm_compute in E; discriminate].
  exists s'. split; [reflexivity|]. split.
  - exact (asset_loop_storage Sample.net Sample.root _ _ s' E
             "minecraft/sounds/ambient/cave1_copy.ogg"
             (JObj [("hash", JStr "abcd1234"); ("size", JNum 10)]) "abcd1234"
             ltac:(simpl; auto) eq_refl).
  - exact (asset_loop_storage Sample.net Sample.root _ _ s' E
             "icons/icon_16x16.png"
             (JObj [("hash", JStr "ef015678"); ("size", JNum 3)]) "ef015678"
             ltac:(simpl; auto) eq_refl).
Defined.

(** C7. For a library whose [downloads.classifiers] is an object, the
    natives step ignores the host platform: it takes [natives-windows]
    when that entry is truthy and [natives-windows-64] otherwise. When
    the chosen entry is falsy nothing happens. Otherwise the archive is
    downloaded into [natives/] under the basename of its path; it is
    then extracted into [natives/<v>] and deleted, except that for
    version ["1.8"] with a URL containing ["nightly"] it is deleted
    without extraction. *)
Theorem native_entry_effects (net : string -> raw) (root : path) (v : string) (element d : json)
    (cs : list (string * json)) (s s' : state) :
  Downloader.native_entry net root v element s = (Ok tt, s') ->
  jget element "downloads" = Val d ->
  jget d "classifiers" = Val (JObj cs) ->
  (truthy (if truthy (jget (JObj cs) "natives-windows") then jget (JObj cs) "natives-windows"
           else jget (JObj cs) "natives-windows-64") = false ->
     st_log s' = st_log s)
  /\ (truthy (if truthy (jget (JObj cs) "natives-windows") then jget (JObj cs) "natives-windows"
              else jget (JObj cs) "natives-windows-64") = true ->
      exists nj u p,
        (if truthy (jget (JObj cs) "natives-windows") then jget (JObj cs) "natives-windows"
         else jget (JObj cs) "natives-windows-64") = Val nj
        /\ jget nj "url" = Val (JStr u) /\ jget nj "path" = Val (JStr p)
        /\ st_log s' = st_log s ++ EvDown u (root ++ [d_natives]) (basename p) ::
             (if String.eqb v "1.8" && str_includes u "nightly"
              then [EvUnlink (root ++ [d_natives; basename p])]
              else [EvExtract (root ++ [d_natives; basename p]) (root ++ [d_natives; v]);
                    EvUnlink (root ++ [d_natives; basename p])])).
Proof.
  intros H Hd Hc. rewrite native_entry_eq in H.
  apply bind_ok in H as (el & s1 & E1 & H). apply lift_ok in E1 as [E1 ->].
  apply res_bind_ok in E1 as (d' & Ed & E1). apply prop_val in Ed. rewrite Hd in Ed. subst d'.
  apply prop_val in E1. rewrite Hc in E1. subst el.
  apply bind_ok in H as (n & s2 & E2 & H). apply lift_ok in E2 as [E2 ->].
  cbn [Downloader.select_natives prop res_bind] in E2.
  assert (En : n = (if truthy (jget (JObj cs) "natives-windows") then jget (JObj cs) "natives-windows"
                    else jget (JObj cs) "natives-windows-64"))
    by (destruct (truthy (jget (JObj cs) "natives-windows")); congruence).
  rewrite <- En. clear E2 En.
  destruct (truthy n) eqn:Tn.
  - split; [discriminate|]. intros _.
    destruct n as [|nj]; [discriminate|].
    apply bind_ok in H as (u & s3 & E3 & H). apply lift_ok in E3 as [E3 ->].
    apply res_bind_ok in E3 as (x & Ex & E3). apply prop_val in Ex. subst x.
    apply as_string_ok in E3.
    apply bind_ok in H as (p & s4 & E4 & H). apply lift_ok in E4 as [E4 ->].
    apply res_bind_ok in E4 as (x & Ex & E4). apply prop_val in Ex. subst x.
    apply as_string_ok in E4.
    exists nj, u, p. split; [reflexivity|]. split; [exact E3|]. split; [exact E4|].
    apply bind_ok in H as ([] & s5 & E5 & H). apply down_log in E5.
    destruct (String.eqb v "1.8" && str_includes u "nightly").
    + apply fs_unlink_log in H. rewrite H, E5, <- app_assoc. reflexivity.
    + apply bind_ok in H as ([] & s6 & E6 & H). apply extract_log in E6.
      apply fs_unlink_log in H. rewrite H, E6, E5, <- !app_assoc. reflexivity.
  - split; [|discriminate]. intros _. unfold ret in H. now injection H as <-.
Qed.

(** C7, the claim as written fails: on the sample library, which has
    [natives-linux], [natives-windows] and [natives-windows-64], the code
    picks [natives-windows]. The specification's order picks
    [natives-windows-64] on a 64-bit Windows host and [natives-linux] on
    Linux, and the code downloads the [natives-windows] archive. *)
Lemma native_selection_counterexample :
  match (let? dl := prop (Val Sample.natives_lib) "downloads" in prop dl "classifiers") with
  | Ok el =>
      Downloader.select_natives el <> Ok (spec_select_natives "windows" "64" el)
      /\ Downloader.select_natives el <> Ok (spec_select_natives "linux" "64" el)
      /\ In (EvDown "https://libraries.minecraft.net/natives-windows.jar"
                    (Sample.root ++ [d_natives]) "lwjgl-platform-natives-windows.jar")
            (st_log (snd (Downloader.native_entry Sample.net Sample.root "1.19" Sample.natives_lib
                            (mkState Sample.disk []))))
  | Err _ => False
  end.
Proof.
  vm_compute. split; [discriminate|]. split; [discriminate|].
  repeat (first [left; reflexivity | right]).
Qed.

(** C7 on the sample library: the [natives-windows] archive is downloaded,
    extracted into [natives/1.19] and deleted. *)
Lemma native_entry_effects_witness :
  exists s',
    Downloader.native_entry Sample.net Sample.root "1.19" Sample.natives_lib
      (mkState (Dir [("home", Dir [("mc", Dir [("natives", Dir [])])])]) []) = (Ok tt, s')
    /\ st_log s' =
       [EvDown "https://libraries.minecraft.net/natives-windows.jar"
               (Sample.root ++ [d_natives]) "lwjgl-platform-natives-windows.jar";
        EvExtract (Sample.root ++ [d_natives; "lwjgl-platform-natives-windows.jar"])
                  (Sample.root ++ [d_natives; "1.19"]);
        EvUnlink (Sample.root ++ [d_natives; "lwjgl-platform-natives-windows.jar"])].
Proof.
  destruct (Downloader.native_entry Sample.net Sample.root "1.19" Sample.natives_lib
      (mkState (Dir [("home", Dir [("mc", Dir [("natives", Dir [])])])]) []))
    as [[[]|e] s'] eqn:E; [| vm_compute in E; discriminate].
  exists s'. split; [reflexivity|].
  destruct (native_entry_effects Sample.net Sample.root "1.19" Sample.natives_lib _ _ _ s'
              E eq_refl eq_refl) as [_ Hyes].
  destruct (Hyes eq_refl) as (nj & u & p & Hn & Hu & Hp & Hlog).
  vm_compute in Hn. injection Hn as <-.
  vm_compute in Hu. injection Hu as <-.
  vm_compute in Hp. injection Hp as <-.
  rewrite Hlog. vm_compute. reflexivity.
Defined.

(* ------------------------------------------------------------------ *)
(** ** Further properties of the code *)

Lemma split_on_concat c (l : list string) :
  l <> [] -> Forall (fun x => ~ In c (list_ascii_of_string x)) l ->
  split_on c (String.concat (String c EmptyString) l) = l.
Proof.
  intros Hne Hf. induction l as [|x r IH]; [congruence|].
  inversion Hf as [|? ? Hx Hr]; subst.
  destruct r as [|y r].
  - simpl. now apply split_on_none.
  - change (String.concat (String c EmptyString) (x :: y :: r))
      with (String.append x (String c (String.concat (String c EmptyString) (y :: r)))).
    rewrite split_on_sep, split_on_none by exact Hx.
    rewrite IH by (discriminate || exact Hr). reflexivity.
Qed.

Lemma concat_snoc sep (l : list string) x :
  l <> [] -> String.concat sep (l ++ [x]) = String.append (String.concat sep l) (String.append sep x).
Proof.
  intros Hne. induction l as [|a r IH]; [congruence|].
  destruct r as [|b r]; [reflexivity|].
  change (String.concat sep ((a :: b :: r) ++ [x]))
    with (String.append a (String.append sep (String.concat sep ((b :: r) ++ [x])))).
  rewrite IH by discriminate.
  change (String.concat sep (a :: b :: r))
    with (String.append a (String.append sep (String.concat sep (b :: r)))).
  now rewrite !string_append_assoc.
Qed.

Lemma basename_snoc (dirs : list string) (n : string) :
  n <> ""%string -> ~ In "/"%char (list_ascii_of_string n) ->
  basename (String.concat "/" (dirs ++ [n])) = n.
Proof.
  intros Hne Hn. unfold basename. destruct dirs as [|d dirs].
  - simpl. rewrite split_on_none by exact Hn. simpl.
    destruct (String.eqb n "") eqn:E; [apply String.eqb_eq in E; congruence | reflexivity].
  - rewrite concat_snoc by discriminate. simpl (String.append "/" n).
    rewrite split_on_sep, (split_on_none "/" n Hn).
    rewrite filter_app. simpl.
    destruct (String.eqb n "") eqn:E; [apply String.eqb_eq in E; congruence|].
    simpl. apply last_last.
Qed.

Fixpoint last_dot_app i s1 s2 acc {struct s1} :
  last_dot_aux i (String.append s1 s2) acc
  = last_dot_aux (i + String.length s1) s2 (last_dot_aux i s1 acc).
Proof.
  destruct s1 as [|a s1]; simpl.
  - now rewrite Nat.add_0_r.
  - rewrite last_dot_app. now rewrite Nat.add_succ_r.
Qed.

Lemma substring_app n m (t : string) :
  substring (String.length n) m (String.append n t) = substring 0 m t.
Proof. induction n as [|a n IH]; simpl; [reflexivity | exact IH]. Qed.

Lemma length_append (a b : string) :
  String.length (String.append a b) = String.length a + String.length b.
Proof. induction a as [|x a IH]; simpl; [reflexivity | now rewrite IH]. Qed.

(** X1. [s.split(c)] undoes [l.join(c)] when no piece contains [c]: the
    directory part of a library path, split on ["/"], popped and joined
    again, comes back as the same segments. *)
Theorem split_join_roundtrip (c : ascii) (l : list string) :
  l <> [] -> Forall (fun x => ~ In c (list_ascii_of_string x)) l ->
  split_on c (String.concat (String c EmptyString) l) = l.
Proof. exact (split_on_concat c l). Qed.

Lemma split_join_roundtrip_witness :
  ["org"; "lwjgl"; "3.3.1"] <> [] /\
  split_on "/" (String.concat "/" ["org"; "lwjgl"; "3.3.1"]) = ["org"; "lwjgl"; "3.3.1"].
Proof.
  split; [discriminate|].
  apply (split_join_roundtrip "/" ["org"; "lwjgl"; "3.3.1"]); [discriminate|].
  repeat constructor; simpl; intuition discriminate.
Defined.

(** X2. The jar name built from a library coordinate is made of its last
    two colon-separated fields, whatever comes before them: for
    [g:n:v:classifier] it is [v-classifier.jar], not [n-v.jar]; a name
    without any colon gives [name.jar]. *)
Theorem coord_jar_fields (pre : list string) (a b n : string) :
  ~ In ":"%char (list_ascii_of_string a) -> ~ In ":"%char (list_ascii_of_string b) ->
  Forall (fun x => ~ In ":"%char (list_ascii_of_string x)) pre ->
  ~ In ":"%char (list_ascii_of_string n) ->
  coord_jar (String.concat ":" (pre ++ [a; b])) = (a ++ "-" ++ b ++ ".jar")%string
  /\ coord_jar n = (n ++ ".jar")%string.
Proof.
  intros Ha Hb Hp Hn. split.
  - unfold coord_jar, slice_neg.
    rewrite (split_on_concat ":" (pre ++ [a; b])).
    + rewrite length_app. simpl.
      replace (length pre + 2 - 2) with (length pre) by lia.
      rewrite skipn_app, skipn_all, Nat.sub_diag. simpl.
      rewrite string_append_assoc. reflexivity.
    + destruct pre; discriminate.
    + apply Forall_app. split; [exact Hp|]. repeat constructor; assumption.
  - unfold coord_jar, slice_neg. rewrite split_on_none by exact Hn. reflexivity.
Qed.

Lemma coord_jar_fields_witness :
  coord_jar "org.lwjgl:lwjgl:3.3.1:natives-linux" = "3.3.1-natives-linux.jar"
  /\ coord_jar "loader" = "loader.jar".
Proof.
  destruct (coord_jar_fields ["org.lwjgl"; "lwjgl"] "3.3.1" "natives-linux" "loader")
    as [H1 H2]; [simpl; intuition discriminate .. | repeat constructor; simpl; intuition discriminate | simpl; intuition discriminate | ].
  split; [exact H1 | exact H2].
Defined.

(** X3. [path.basename] returns the last segment of a path whose last
    segment is a non-empty name, and ignores a trailing separator. *)
Theorem basename_last (dirs : list string) (n p : string) :
  n <> ""%string -> ~ In "/"%char (list_ascii_of_string n) ->
  basename (String.concat "/" (dirs ++ [n])) = n
  /\ basename (String.append p "/") = basename p.
Proof.
  intros Hne Hn. split.
  - exact (basename_snoc dirs n Hne Hn).
  - unfold basename. rewrite split_on_sep. rewrite filter_app. simpl.
    now rewrite app_nil_r.
Qed.

Lemma basename_last_witness :
  basename "org/lwjgl/lwjgl/3.3.1/lwjgl-3.3.1.jar" = "lwjgl-3.3.1.jar"
  /\ basename "org/lwjgl/" = basename "org/lwjgl".
Proof.
  destruct (basename_last ["org"; "lwjgl"; "lwjgl"; "3.3.1"] "lwjgl-3.3.1.jar" "org/lwjgl")
    as [H1 H2]; [discriminate | simpl; intuition discriminate |].
  split; [exact H1 | exact H2].
Defined.

(** X4. The jar search keeps a file only if its extension is exactly
    [.jar] as [path.extname] computes it: any non-empty name followed by
    [.jar] has that extension, while a file named just [.jar] (a dot
    file) has none and is never selected, even if it is required. *)
Theorem jar_extension (n : string) (files : list string) (ver : string) :
  n <> ""%string ->
  extname (String.append n ".jar") = ".jar"
  /\ jar_selected ".jar" files ver = false.
Proof.
  intros Hne. split.
  - unfold extname. rewrite last_dot_app.
    assert (Hdot : forall i acc, last_dot_aux i ".jar" acc = Some i) by reflexivity.
    rewrite Hdot.
    destruct n as [|a n']; [congruence|].
    change (0 + String.length (String a n')) with (S (String.length n')).
    destruct (String.eqb (String.append (String a n') ".jar") "..") eqn:E.
    + apply String.eqb_eq in E.
      apply (f_equal String.length) in E. rewrite length_append in E. simpl in E. lia.
    + change (substring (S (String.length n'))
                (String.length (String.append (String a n') ".jar") - S (String.length n'))
                (String.append (String a n') ".jar") = ".jar").
      rewrite length_append.
      replace (String.length (String a n') + String.length ".jar" - S (String.length n'))
        with 4 by (simpl; lia).
      change (S (String.length n')) with (String.length (String a n')).
      rewrite substring_app. reflexivity.
  - unfold jar_selected. destruct (str_in ver legacy_versions); reflexivity.
Qed.

Lemma jar_extension_witness :
  extname "lwjgl-3.3.1.jar" = ".jar" /\ jar_selected ".jar" [".jar"] "1.20" = false.
Proof.
  destruct (jar_extension "lwjgl-3.3.1" [".jar"] "1.20") as [H1 H2]; [discriminate|].
  split; [exact H1 | exact H2].
Defined.

Lemma lookup_upd_same n p x n' : upd n p x = Some n' -> lookup n' p = Some x.
Proof.
  revert n n'. induction p as [|s r IH]; intros n n' H; simpl in H.
  - now injection H as <-.
  - destruct n as [c|kids]; [discriminate|].
    destruct (assoc s kids) as [k|] eqn:Ek.
    + destruct (upd k r x) as [k'|] eqn:Eu; [|discriminate].
      injection H as <-. simpl. rewrite lookup_assoc_set_same. exact (IH _ _ Eu).
    + destruct r; [|discriminate]. injection H as <-. simpl.
      now rewrite lookup_assoc_set_same.
Qed.

Lemma list_ascii_app (a b : string) :
  list_ascii_of_string (String.append a b) = list_ascii_of_string a ++ list_ascii_of_string b.
Proof. induction a as [|x a IH]; simpl; [reflexivity | now rewrite IH]. Qed.

Lemma digits_app ld lr :
  forallb is_digit ld = true ->
  (lr = [] \/ exists c r, lr = c :: r /\ is_digit c = false) ->
  digits (ld ++ lr) = (ld, lr).
Proof.
  intros Hd Hr. induction ld as [|c ld IH]; simpl.
  - destruct Hr as [->|(c & r & -> & Hc)]; [reflexivity|]. simpl. now rewrite Hc.
  - simpl in Hd. apply andb_true_iff in Hd as [Hc Hd]. rewrite Hc, IH by exact Hd. reflexivity.
Qed.

(** X5. [createProfile] never overwrites: when [launcher_profiles.json]
    already exists the disk is left as it was; when it is missing, a
    completed call leaves the file holding [{"profiles": {}}]. *)
Theorem createProfile_result (root : path) (s : state) (u : unit) (s' : state) :
  createProfile root s = (Ok u, s') ->
  (forall x, lookup (st_disk s) (root ++ ["launcher_profiles.json"]) = Some x ->
     st_disk s' = st_disk s)
  /\ (lookup (st_disk s) (root ++ ["launcher_profiles.json"]) = None ->
      lookup (st_disk s') (root ++ ["launcher_profiles.json"])
      = Some (File (RJson (JObj [("profiles", JObj [])])))).
Proof.
  cbv [createProfile fs_exists fs_write put_file bind emit get_disk set_disk ret throw]; simpl.
  destruct (lookup (st_disk s) (root ++ ["launcher_profiles.json"])) as [x|] eqn:E.
  - intros H. injection H as _ <-. split; [reflexivity | discriminate].
  - intros H. cbn [st_disk st_log] in H. rewrite E in H.
    destruct (upd (st_disk s) (root ++ ["launcher_profiles.json"])
                (File (RJson (JObj [("profiles", JObj [])])))) as [d'|] eqn:Eu; [|discriminate].
    injection H as _ <-. split; [intros; discriminate|]. intros _. simpl.
    exact (lookup_upd_same _ _ _ _ Eu).
Qed.

Lemma createProfile_result_witness :
  exists s',
    createProfile Sample.root (mkState Sample.disk []) = (Ok tt, s')
    /\ lookup (st_disk s') (Sample.root ++ ["launcher_profiles.json"])
       = Some (File (RJson (JObj [("profiles", JObj [])]))).
Proof.
  destruct (createProfile Sample.root (mkState Sample.disk [])) as [[[]|e] s'] eqn:E;
    [| vm_compute in E; discriminate].
  exists s'. split; [reflexivity|].
  destruct (createProfile_result Sample.root _ tt s' E) as [_ H].
  apply H. reflexivity.
Defined.

Lemma try_at_plain ld lr :
  ld <> [] -> forallb is_digit ld = true ->
  (lr = [] \/ exists c r, lr = c :: r /\ is_digit c = false /\ is_word c = false /\ c <> "."%char) ->
  try_at None ("1"%char :: "."%char :: ld ++ lr) = Some ("1"%char :: "."%char :: ld).
Proof.
  intros Hne Hd Hr. unfold try_at. cbn [negb].
  rewrite digits_app; [| exact Hd | destruct Hr as [->|(c & r & -> & Hc & _)]; [now left | right; eauto]].
  destruct ld as [|x ld]; [congruence|].
  destruct Hr as [->|(c & r & -> & _ & Hw & Hdot)]; [reflexivity|].
  cbn [boundary_after]. rewrite Hw. cbn [negb].
  destruct c as [[] [] [] [] [] [] [] []]; try reflexivity. congruence.
Qed.

Lemma try_at_three ld ld2 lr :
  ld <> [] -> ld2 <> [] -> forallb is_digit ld = true -> forallb is_digit ld2 = true ->
  (lr = [] \/ exists c r, lr = c :: r /\ is_digit c = false /\ is_word c = false) ->
  try_at None ("1"%char :: "."%char :: ld ++ "."%char :: ld2 ++ lr)
  = Some ("1"%char :: "."%char :: ld ++ "."%char :: ld2).
Proof.
  intros Hne Hne2 Hd Hd2 Hr. unfold try_at. cbn [negb].
  rewrite digits_app; [| exact Hd | right; eexists _, _; split; reflexivity].
  destruct ld as [|x ld]; [congruence|].
  cbn iota.
  rewrite digits_app; [| exact Hd2 | destruct Hr as [->|(c & r & -> & Hc & _)]; [now left | right; eauto]].
  destruct ld2 as [|y ld2]; [congruence|].
  destruct Hr as [->|(c & r & -> & _ & Hw)]; [reflexivity|].
  cbn [boundary_after]. rewrite Hw. reflexivity.
Qed.

(** X6. The version pattern [\b1\.\d+(\.\d+)?\b] applied to ["1.N"] or
    ["1.N.M"] (digits), alone or followed by a ["-..."] suffix, gives the
    version itself without the suffix: a plain version has no overlay,
    and ["1.20.1-forge-47"] runs on base ["1.20.1"]. *)
Theorem match_version_plain (d d2 rest : string) :
  d <> ""%string -> d2 <> ""%string ->
  forallb is_digit (list_ascii_of_string d) = true ->
  forallb is_digit (list_ascii_of_string d2) = true ->
  (rest = ""%string \/ exists r, rest = String "-" r) ->
  match_version ("1." ++ d ++ rest)%string = Some ("1." ++ d)%string
  /\ match_version ("1." ++ d ++ "." ++ d2 ++ rest)%string = Some ("1." ++ d ++ "." ++ d2)%string.
Proof.
  intros Hd Hd2 Dd Dd2 Hr.
  assert (Lr : list_ascii_of_string rest = []
               \/ exists c r, list_ascii_of_string rest = c :: r /\ is_digit c = false /\
                              is_word c = false /\ c <> "."%char).
  { destruct Hr as [->|[r ->]]; [now left|]. right. eexists _, _. repeat split; discriminate. }
  assert (Nd : list_ascii_of_string d <> []) by (destruct d; [congruence | discriminate]).
  assert (Nd2 : list_ascii_of_string d2 <> []) by (destruct d2; [congruence | discriminate]).
  unfold match_version. split.
  - change (list_ascii_of_string ("1." ++ d ++ rest)%string)
      with ("1"%char :: "."%char :: list_ascii_of_string (d ++ rest)%string).
    rewrite list_ascii_app. cbn [first_match].
    rewrite try_at_plain by assumption. cbn [option_map].
    change ("1"%char :: "."%char :: list_ascii_of_string d)
      with (list_ascii_of_string ("1." ++ d)%string).
    f_equal; apply string_of_list_ascii_of_string.
  - change (list_ascii_of_string ("1." ++ d ++ "." ++ d2 ++ rest)%string)
      with ("1"%char :: "."%char :: list_ascii_of_string (d ++ "." ++ d2 ++ rest)%string).
    rewrite !list_ascii_app. cbn [first_match].
    change (list_ascii_of_string ".") with ["."%char]. cbn [app].
    rewrite try_at_three; [| assumption .. |].
    + cbn [option_map].
      rewrite <- (string_of_list_ascii_of_string ("1." ++ d ++ "." ++ d2)%string).
      do 2 f_equal. cbn [list_ascii_of_string String.append]. now rewrite list_ascii_app.
    + destruct Lr as [E|(c & r & E & Hc & Hw & _)]; [now left | right; eauto].
Qed.

Lemma match_version_plain_witness :
  match_version "1.19" = Some "1.19"
  /\ match_version "1.20.1-forge-47" = Some "1.20.1".
Proof.
  destruct (match_version_plain "19" "1" "" ltac:(discriminate) ltac:(discriminate)
              eq_refl eq_refl (or_introl eq_refl)) as [H1 _].
  destruct (match_version_plain "20" "1" "-forge-47" ltac:(discriminate) ltac:(discriminate)
              eq_refl eq_refl (or_intror (ex_intro _ "forge-47"%string eq_refl))) as [_ H2].
  split; [exact H1 | exact H2].
Defined.

(** X7. How an overlay's game arguments combine with the base's: when the
    overlay file has a truthy [arguments] whose [game] is an array, the
    flattened arguments are the base's followed by the overlay's (the
    array is pushed as one element and spread by [flat()]); when it has no
    [arguments], the base's are dropped and the overlay's
    [minecraftArguments] split on spaces replace them. *)
Theorem merge_overlay_game_args (root : path) (c : string) (r1 : list string) (ga : gargs)
    (s : state) (rl : list string) (mc : jsv) (ga' : gargs) (s' : state) (cf : json) :
  merge_overlay root c r1 ga s = (Ok (rl, mc, ga'), s') ->
  lookup (st_disk s) (version_json root c) = Some (File (RJson cf)) ->
  (forall a og gl, jget cf "arguments" = Val a -> truthy (Val a) = true ->
     jget a "game" = Val (JArr og) -> ga = GArr gl ->
     flat_args ga' = Ok (flat_map spread gl ++ map Val og))
  /\ (forall m, truthy (jget cf "arguments") = false ->
      jget cf "minecraftArguments" = Val (JStr m) ->
      ga' = GArr (map (fun x => Val (JStr x)) (split_on " " m))).
Proof.
  intros H Hcf. unfold merge_overlay in H.
  apply bind_ok in H as (cf' & s1 & E1 & H). apply fs_read_json_ok in E1 as [E1 _].
  rewrite Hcf in E1. injection E1 as <-.
  apply bind_ok in H as (r2 & s2 & _ & H).
  apply bind_ok in H as (mc' & s3 & _ & H).
  apply bind_ok in H as (g & s4 & Eg & H). apply lift_ok in Eg as [Eg ->].
  apply bind_ok in H as (b & s5 & _ & H).
  apply bind_ok in H as (u & s6 & _ & H).
  unfold ret in H. injection H as _ _ <- _.
  apply res_bind_ok in Eg as (a' & Ea' & Eg). apply prop_val in Ea'. subst a'.
  split.
  - intros a og gl Ha Ht Hg ->. rewrite Ha, Ht in Eg. cbn [negb] in Eg.
    apply res_bind_ok in Eg as (g' & Eg' & Eg). apply prop_val in Eg'. rewrite Hg in Eg'. subst g'.
    cbn [push_arg] in Eg. injection Eg as <-. cbn [flat_args].
    rewrite flat_map_app. cbn [flat_map spread]. now rewrite app_nil_r.
  - intros m Ht Hm. rewrite Ht in Eg. cbn [negb] in Eg.
    assert (Hp : prop (Val cf) "minecraftArguments" = Ok (Val (JStr m)))
      by (destruct cf; cbn in Hm |- *; congruence).
    rewrite Hp in Eg. cbn [res_bind split_args as_string] in Eg. now injection Eg as <-.
Qed.

Lemma merge_overlay_game_args_witness :
  exists r s',
    merge_overlay Sample.root "1.19-fabric-0.1" []
      (GArr [Val (JStr "--username"); Val (JStr "${auth_player_name}")])
      (mkState Sample.disk []) = (Ok r, s')
    /\ flat_args (snd r) = Ok [Val (JStr "--username"); Val (JStr "${auth_player_name}")].
Proof.
  destruct (merge_overlay Sample.root "1.19-fabric-0.1" []
      (GArr [Val (JStr "--username"); Val (JStr "${auth_player_name}")])
      (mkState Sample.disk [])) as [[[[rl mc] ga']|e] s'] eqn:E;
    [| vm_compute in E; discriminate].
  exists (rl, mc, ga'), s'. split; [reflexivity|].
  destruct (merge_overlay_game_args _ _ _ _ _ rl mc ga' s' Sample.fabric_json E eq_refl) as [H _].
  exact (H (JObj [("game", JArr [])]) [] _ eq_refl eq_refl eq_refl eq_refl).
Defined.

Lemma prop_jget j k v : jget j k = Val v -> prop (Val j) k = Ok (Val v).
Proof. destruct j; cbn; congruence. Qed.

Lemma put_file_ok p c s s' :
  put_file p c s = (Ok tt, s') -> lookup (st_disk s') p = Some (File c).
Proof.
  unfold put_file, bind, get_disk. cbn. intros H.
  destruct (lookup (st_disk s) p) as [[]|]; [| discriminate |];
    destruct (upd (st_disk s) p (File c)) as [d'|] eqn:Eu; try discriminate;
    unfold set_disk in H; injection H as <-; exact (lookup_upd_same _ _ _ _ Eu).
Qed.

Lemma down_ok net u d n s s' :
  Downloader.down net u d n s = (Ok tt, s') -> lookup (st_disk s') (d ++ [n]) = Some (File (net u)).
Proof.
  unfold Downloader.down. intros H. apply bind_ok in H as ([] & s1 & _ & H).
  exact (put_file_ok _ _ _ _ H).
Qed.

Lemma join_str_concat base (dirs : list string) :
  Forall (fun x => x <> ""%string /\ ~ In "/"%char (list_ascii_of_string x)) dirs ->
  Downloader.join_str base (String.concat "/" dirs) = base ++ dirs.
Proof.
  intros Hf. unfold Downloader.join_str. f_equal. destruct dirs as [|d r]; [reflexivity|].
  rewrite split_on_concat.
  - induction Hf as [|x l [Hx _] _ IH]; [reflexivity|]. cbn [filter].
    destruct (String.eqb x "") eqn:E; [apply String.eqb_eq in E; congruence|].
    cbn [negb]. now rewrite IH.
  - discriminate.
  - eapply Forall_impl; [|exact Hf]. now intros x [_ H].
Qed.

Lemma removelast_snoc {A} (l : list A) x : removelast (l ++ [x]) = l.
Proof. induction l as [|a [|b r] IH]; [reflexivity | reflexivity | ]. cbn in *. now rewrite IH. Qed.

(** X8. Where a library lands: for an artifact path made of directory
    segments and a file name (no segment empty or holding ["/"]), the
    jar is requested from the artifact's [url] into
    [libraries/<segments>] under that file name, and on success the file
    there holds what the URL served. *)
Theorem library_entry_target (net : string -> raw) (root : path) (el d a : json)
    (dirs : list string) (n u : string) (s s' : state) :
  jget el "downloads" = Val d -> jget d "artifact" = Val a ->
  jget a "path" = Val (JStr (String.concat "/" (dirs ++ [n]))) -> jget a "url" = Val (JStr u) ->
  Forall (fun x => x <> ""%string /\ ~ In "/"%char (list_ascii_of_string x)) dirs ->
  n <> ""%string -> ~ In "/"%char (list_ascii_of_string n) ->
  Downloader.library_entry net root el s = (Ok tt, s') ->
  In (EvDown u (root ++ d_libraries :: dirs) n) (st_log s')
  /\ lookup (st_disk s') (root ++ d_libraries :: dirs ++ [n]) = Some (File (net u)).
Proof.
  intros Hd Ha Hp Hu Hf Hne Hn H. rewrite library_entry_eq in H.
  apply bind_ok in H as (a' & s1 & E1 & H). apply lift_ok in E1 as [E1 ->].
  rewrite (prop_jget _ _ _ Hd) in E1. cbn [res_bind] in E1.
  rewrite (prop_jget _ _ _ Ha) in E1. injection E1 as <-.
  apply bind_ok in H as (jf & s2 & E2 & H). apply lift_ok in E2 as [E2 ->].
  rewrite (prop_jget _ _ _ Hp) in E2. cbn [res_bind as_string] in E2. injection E2 as <-.
  apply bind_ok in H as ([] & s3 & _ & H).
  apply bind_ok in H as (u' & s4 & E4 & H). apply lift_ok in E4 as [E4 ->].
  rewrite (prop_jget _ _ _ Hu) in E4. cbn [res_bind as_string] in E4. injection E4 as <-.
  assert (Hs : split_on "/" (String.concat "/" (dirs ++ [n])) = dirs ++ [n]).
  { apply split_on_concat; [now destruct dirs|].
    apply Forall_app. split; [eapply Forall_impl; [|exact Hf]; now intros x [_ Hx]|].
    now constructor. }
  rewrite Hs, removelast_snoc, (join_str_concat _ _ Hf), (basename_snoc dirs n Hne Hn) in H.
  rewrite <- app_assoc in H. split.
  - exact (down_in net _ _ _ _ _ _ H).
  - pose proof (down_ok net _ _ _ _ _ H) as L. now rewrite <- app_assoc in L.
Qed.

Lemma library_entry_target_witness :
  exists s',
    Downloader.library_entry (fun _ => RBytes "jar") Sample.root Sample.lwjgl_lib
      (mkState Sample.disk []) = (Ok tt, s')
    /\ In (EvDown "https://libraries.minecraft.net/org/lwjgl/lwjgl/3.3.1/lwjgl-3.3.1.jar"
              (Sample.root ++ d_libraries :: ["org"; "lwjgl"; "lwjgl"; "3.3.1"]) "lwjgl-3.3.1.jar")
          (st_log s').
Proof.
  destruct (Downloader.library_entry (fun _ => RBytes "jar") Sample.root Sample.lwjgl_lib
              (mkState Sample.disk [])) as [[[]|e] s'] eqn:E; [| vm_compute in E; discriminate].
  exists s'. split; [reflexivity|].
  refine (proj1 (library_entry_target (fun _ => RBytes "jar") Sample.root Sample.lwjgl_lib
                   (JObj [("artifact", JObj
                     [("path", JStr "org/lwjgl/lwjgl/3.3.1/lwjgl-3.3.1.jar");
                      ("url", JStr "https://libraries.minecraft.net/org/lwjgl/lwjgl/3.3.1/lwjgl-3.3.1.jar")])])
                   (JObj [("path", JStr "org/lwjgl/lwjgl/3.3.1/lwjgl-3.3.1.jar");
                      ("url", JStr "https://libraries.minecraft.net/org/lwjgl/lwjgl/3.3.1/lwjgl-3.3.1.jar")])
                   ["org"; "lwjgl"; "lwjgl"; "3.3.1"]
                   "lwjgl-3.3.1.jar" _ _ s' eq_refl eq_refl eq_refl eq_refl _ _ _ E)).
  - repeat constructor; cbn; intuition discriminate.
  - discriminate.
  - cbn; intuition discriminate.
Defined.

(** X9. What a library entry without the expected fields does: with no
    [downloads.artifact] the library step does nothing, and with no
    [downloads.classifiers] neither does the natives step; a [null]
    [classifiers] makes the natives step throw, and an entry without
    [downloads] makes both throw, in every case before any effect. *)
Theorem entry_skips (net : string -> raw) (root : path) (v : string) (el : json) (kd : list (string * json)) (s : state) :
  (jget el "downloads" = Val (JObj kd) -> jget (JObj kd) "artifact" = Undef ->
     Downloader.library_entry net root el s = (Ok tt, s))
  /\ (jget el "downloads" = Val (JObj kd) -> jget (JObj kd) "classifiers" = Undef ->
     Downloader.native_entry net root v el s = (Ok tt, s))
  /\ (jget el "downloads" = Val (JObj kd) -> jget (JObj kd) "classifiers" = Val JNull ->
     Downloader.native_entry net root v el s = (Err (TypeError "natives-windows"), s))
  /\ (forall kv, el = JObj kv -> jget el "downloads" = Undef ->
     Downloader.library_entry net root el s = (Err (TypeError "artifact"), s)
     /\ Downloader.native_entry net root v el s = (Err (TypeError "classifiers"), s)).
Proof.
  rewrite !library_entry_eq, !native_entry_eq. unfold bind, lift.
  split; [|split; [|split]]; intros Hd.
  - intros Ha. rewrite (prop_jget _ _ _ Hd). cbn [res_bind prop].
    cbn [prop]. rewrite Ha. reflexivity.
  - intros Hc. rewrite (prop_jget _ _ _ Hd). cbn [res_bind prop].
    rewrite Hc. reflexivity.
  - intros Hc. rewrite (prop_jget _ _ _ Hd). cbn [res_bind prop].
    rewrite Hc. reflexivity.
  - intros Heq Hn. subst el. cbn [prop]. rewrite Hn. split; reflexivity.
Qed.

Lemma entry_skips_witness :
  Downloader.library_entry (fun _ => RBytes "") Sample.root
    (JObj [("downloads", JObj [("classifiers", JNull)])]) (mkState Sample.disk [])
  = (Ok tt, mkState Sample.disk [])
  /\ Downloader.native_entry (fun _ => RBytes "") Sample.root "1.19"
       (JObj [("downloads", JObj [("classifiers", JNull)])]) (mkState Sample.disk [])
     = (Err (TypeError "natives-windows"), mkState Sample.disk [])
  /\ Downloader.library_entry (fun _ => RBytes "") Sample.root
       (JObj [("name", JStr "net.fabricmc:fabric-loader:0.1")]) (mkState Sample.disk [])
     = (Err (TypeError "artifact"), mkState Sample.disk []).
Proof.
  pose proof (entry_skips (fun _ => RBytes "") Sample.root "1.19"
                (JObj [("downloads", JObj [("classifiers", JNull)])])
                [("classifiers", JNull)] (mkState Sample.disk [])) as [H1 [_ [H3 _]]].
  pose proof (entry_skips (fun _ => RBytes "") Sample.root "1.19"
                (JObj [("name", JStr "net.fabricmc:fabric-loader:0.1")])
                [] (mkState Sample.disk [])) as [_ [_ [_ H4]]].
  split; [exact (H1 eq_refl eq_refl) | split; [exact (H3 eq_refl eq_refl) | exact (proj1 (H4 _ eq_refl eq_refl))]].
Defined.

Lemma asset_loop_app (net : string -> raw) (root : path) (l1 l2 : list (string * json)) :
  forall s, Downloader.asset_loop net root (l1 ++ l2) s
            = bind (Downloader.asset_loop net root l1) (fun _ => Downloader.asset_loop net root l2) s.
Proof.
  induction l1 as [|[k o] r IH]; intros s; cbn [app Downloader.asset_loop].
  - unfold bind, ret. reflexivity.
  - unfold bind in *. destruct (Downloader.asset_object net root k o s) as [[[]|e] s1];
      [apply IH | reflexivity].
Qed.

(** X12. Unlike the other loops, the asset loop stops at the first entry
    whose [hash] is not a string: that entry throws before any effect, the
    earlier entries' effects stay, and the later entries are never
    visited. *)
Theorem asset_loop_stops (net : string -> raw) (root : path) (l1 l2 : list (string * json))
    (k : string) (o : json) (s s1 : state) :
  Downloader.asset_loop net root l1 s = (Ok tt, s1) ->
  (forall h, jget o "hash" <> Val (JStr h)) ->
  exists e, Downloader.asset_loop net root (l1 ++ (k, o) :: l2) s = (Err e, s1).
Proof.
  intros H1 Hh. rewrite asset_loop_app. unfold bind at 1. rewrite H1.
  cbn [Downloader.asset_loop]. unfold bind at 1. unfold Downloader.asset_object.
  destruct o; cbn [prop];
    try (unfold bind, lift; eexists; reflexivity);
    unfold bind, lift; cbn [Downloader.sub_hash res_bind];
    destruct (jget _ "hash") as [|[]] eqn:E; try (eexists; reflexivity);
    exfalso; exact (Hh _ eq_refl).
Qed.

Lemma asset_loop_stops_witness :
  exists e,
    Downloader.asset_loop (fun _ => RBytes "") Sample.root
      [("a", JObj [("hash", JStr "abcd")]); ("b", JObj [("size", JNum 1)]);
       ("c", JObj [("hash", JStr "ef01")])] (mkState (Dir [("home", Dir [("mc", Dir [("assets", Dir [("objects", Dir [])])])])]) [])
    = (Err e, snd (Downloader.asset_loop (fun _ => RBytes "") Sample.root
                     [("a", JObj [("hash", JStr "abcd")])] (mkState (Dir [("home", Dir [("mc", Dir [("assets", Dir [("objects", Dir [])])])])]) []))).
Proof.
  destruct (Downloader.asset_loop (fun _ => RBytes "") Sample.root
              [("a", JObj [("hash", JStr "abcd")])] (mkState (Dir [("home", Dir [("mc", Dir [("assets", Dir [("objects", Dir [])])])])]) [])) as [[[]|e] s1] eqn:E;
    [| vm_compute in E; discriminate].
  exact (asset_loop_stops (fun _ => RBytes "") Sample.root [("a", JObj [("hash", JStr "abcd")])]
           [("c", JObj [("hash", JStr "ef01")])] "b" (JObj [("size", JNum 1)])
           (mkState (Dir [("home", Dir [("mc", Dir [("assets", Dir [("objects", Dir [])])])])]) []) s1 E ltac:(intros h; cbn; discriminate)).
Defined.

Lemma prop_ok v k w : prop v k = Ok w -> exists j, v = Val j /\ w = jget j k.
Proof. destruct v as [|[]]; cbn; intros H; try discriminate; injection H as <-; eauto. Qed.

Lemma downloadClient_facts (net : string -> raw) (root : path) (v : string)
    (s : state) (file : json) (s' : state) :
  Downloader.downloadClient net root v s = (Ok file, s') ->
  lookup (st_disk s) (version_json root v) = Some (File (RJson file))
  /\ exists d c u, jget file "downloads" = Val d /\ jget d "client" = Val c
     /\ jget c "url" = Val (JStr u)
     /\ In (EvDown u (root ++ [d_versions; v]) (String.append v ".jar")) (st_log s')
     /\ lookup (st_disk s') (root ++ [d_versions; v; String.append v ".jar"]) = Some (File (net u)).
Proof.
  unfold Downloader.downloadClient. intros H.
  apply bind_ok in H as (f & s1 & E1 & H). apply fs_read_json_ok in E1 as [Hf _].
  apply bind_ok in H as (cl & s2 & E2 & H). apply lift_ok in E2 as [E2 ->].
  apply res_bind_ok in E2 as (dv & Ed & E2). apply prop_val in Ed.
  apply res_bind_ok in E2 as (cv & Ec & E2). apply prop_ok in Ec as (d & -> & Ec).
  apply prop_ok in E2 as (c & -> & Eu).
  apply bind_ok in H as ([] & s3 & _ & H).
  apply bind_ok in H as (u & s4 & E4 & H). apply lift_ok in E4 as [E4 ->].
  apply as_string_ok in E4.
  apply bind_ok in H as ([] & s5 & E5 & H). unfold ret in H. injection H as <- <-.
  split; [exact Hf|]. exists d, c, u. repeat split; try congruence.
  - exact (down_in net _ _ _ _ _ _ E5).
  - pose proof (down_ok net _ _ _ _ _ E5) as L. now rewrite <- app_assoc in L.
Qed.

(** X13. [downloadClient] returns the metadata it read from
    [versions/<v>/<v>.json] before any change, and fetches exactly that
    file's [downloads.client.url] into [versions/<v>/<v>.jar], which on
    success holds what the URL served. *)
Theorem downloadClient_result (net : string -> raw) (root : path) (v : string)
    (s : state) (file : json) (s' : state) :
  Downloader.downloadClient net root v s = (Ok file, s') ->
  lookup (st_disk s) (version_json root v) = Some (File (RJson file))
  /\ exists d c u, jget file "downloads" = Val d /\ jget d "client" = Val c
     /\ jget c "url" = Val (JStr u)
     /\ In (EvDown u (root ++ [d_versions; v]) (String.append v ".jar")) (st_log s')
     /\ lookup (st_disk s') (root ++ [d_versions; v; String.append v ".jar"]) = Some (File (net u)).
Proof. exact (downloadClient_facts net root v s file s'). Qed.

Lemma downloadClient_result_witness :
  exists s',
    Downloader.downloadClient (fun _ => RBytes "jar") ["mc"] "1.19"
      (mkState (Dir [("mc", Dir [("versions", Dir [("1.19", Dir [("1.19.json", File (RJson
         (JObj [("downloads", JObj [("client", JObj [("url", JStr "https://x/client.jar")])])])))])])])])
      []) = (Ok (JObj [("downloads", JObj [("client", JObj [("url", JStr "https://x/client.jar")])])]), s')
    /\ In (EvDown "https://x/client.jar" (["mc"] ++ [d_versions; "1.19"]) "1.19.jar") (st_log s').
Proof.
  destruct (Downloader.downloadClient (fun _ => RBytes "jar") ["mc"] "1.19"
      (mkState (Dir [("mc", Dir [("versions", Dir [("1.19", Dir [("1.19.json", File (RJson
         (JObj [("downloads", JObj [("client", JObj [("url", JStr "https://x/client.jar")])])])))])])])])
      [])) as [[f|e] s'] eqn:E; [| vm_compute in E; discriminate].
  assert (Hf : f = JObj [("downloads", JObj [("client", JObj [("url", JStr "https://x/client.jar")])])])
    by (vm_compute in E; congruence).
  subst f. exists s'. split; [reflexivity|].
  destruct (downloadClient_result _ _ _ _ _ _ E) as (_ & d & c & u & Hd & Hc & Hu & Hin & _).
  cbn in Hd. injection Hd as <-. cbn in Hc. injection Hc as <-. cbn in Hu. injection Hu as <-.
  exact Hin.
Defined.

Lemma lookup_app n p q :
  lookup n (p ++ q) = match lookup n p with Some m => lookup m q | None => None end.
Proof.
  revert n. induction p as [|x r IH]; intros n; [reflexivity|].
  cbn [app lookup]. destruct n as [c|kids]; [reflexivity|].
  destruct (assoc x kids); [apply IH | reflexivity].
Qed.

Lemma fs_exists_ok p s b s' :
  fs_exists p s = (Ok b, s') ->
  b = match lookup (st_disk s) p with Some _ => true | None => false end /\ st_disk s' = st_disk s.
Proof. cbv [fs_exists bind emit get_disk ret]. intros H. injection H as <- <-. auto. Qed.

Lemma downloadVersion_facts (net : string -> raw) (root : path) (v : string)
    (ver : json) (s s' : state) :
  Downloader.downloadVersion net root v s = (Ok tt, s') ->
  net Downloader.url_meta = RJson ver ->
  exists u, Downloader.manifest_url ver v = Ok (Val (JStr u))
    /\ lookup (st_disk s') (version_json root v) = Some (File (net u)).
Proof.
  unfold Downloader.downloadVersion. intros H Hn.
  apply bind_ok in H as ([] & s1 & _ & H).
  apply bind_ok in H as ([] & s2 & E2 & H). apply down_ok in E2.
  rewrite Hn, <- app_assoc in E2. cbn [app] in E2.
  apply bind_ok in H as (c & s3 & E3 & H). apply fs_exists_ok in E3 as [Ec Hd3].
  assert (Hc : c = true).
  { rewrite Ec. change (root ++ [d_cache; "json"; "version_manifest.json"])
      with (root ++ [d_cache] ++ ["json"; "version_manifest.json"]) in E2.
    rewrite app_assoc, lookup_app in E2. destruct (lookup (st_disk s2) (root ++ [d_cache]));
      [reflexivity | discriminate]. }
  rewrite Hc in H.
  apply bind_ok in H as (ver' & s4 & E4 & H). apply fs_read_json_ok in E4 as [Hv _].
  rewrite Hd3, E2 in Hv. injection Hv as <-.
  apply bind_ok in H as (vj & s5 & E5 & H). apply lift_ok in E5 as [E5 ->].
  apply bind_ok in H as ([] & s6 & _ & H).
  apply bind_ok in H as (u & s7 & E7 & H). apply lift_ok in E7 as [E7 ->].
  apply as_string_ok in E7. subst vj.
  exists u. split; [exact E5|].
  pose proof (down_ok net _ _ _ _ _ H) as L. rewrite <- app_assoc in L. exact L.
Qed.

(** X14. [downloadVersion] stores the version's metadata from the URL
    that the manifest it has just downloaded gives for that release: when
    the manifest URL serves [ver], the lookup in [ver] succeeds with a
    string URL, and [versions/<v>/<v>.json] then holds what that URL
    served. *)
Theorem downloadVersion_result (net : string -> raw) (root : path) (v : string)
    (ver : json) (s s' : state) :
  Downloader.downloadVersion net root v s = (Ok tt, s') ->
  net Downloader.url_meta = RJson ver ->
  exists u, Downloader.manifest_url ver v = Ok (Val (JStr u))
    /\ lookup (st_disk s') (version_json root v) = Some (File (net u)).
Proof. exact (downloadVersion_facts net root v ver s s'). Qed.

Lemma downloadVersion_result_witness :
  exists u s',
    Downloader.downloadVersion
      (fun url => if String.eqb url Downloader.url_meta
                  then RJson (JObj [("versions", JArr [JObj [("type", JStr "release");
                                      ("id", JStr "1.19"); ("url", JStr "https://x/1.19.json")]])])
                  else RJson (JObj [])) ["mc"] "1.19" (mkState (Dir [("mc", Dir [])]) [])
    = (Ok tt, s')
    /\ Downloader.manifest_url (JObj [("versions", JArr [JObj [("type", JStr "release");
                                  ("id", JStr "1.19"); ("url", JStr "https://x/1.19.json")]])]) "1.19"
       = Ok (Val (JStr u)).
Proof.
  destruct (Downloader.downloadVersion
      (fun url => if String.eqb url Downloader.url_meta
                  then RJson (JObj [("versions", JArr [JObj [("type", JStr "release");
                                      ("id", JStr "1.19"); ("url", JStr "https://x/1.19.json")]])])
                  else RJson (JObj [])) ["mc"] "1.19" (mkState (Dir [("mc", Dir [])]) []))
    as [[[]|e] s'] eqn:E; [| vm_compute in E; discriminate].
  destruct (downloadVersion_result _ _ _ _ _ _ E eq_refl) as (u & Hu & _).
  exists u, s'. split; [reflexivity | exact Hu].
Defined.

(** X15. The steps of [download] feed each other: when the manifest URL
    serves [ver], the metadata [downloadClient] reads is exactly what the
    URL [ver] lists for the release served, and the client jar it fetches
    is that metadata's [downloads.client.url]. *)
Theorem download_chain (net : string -> raw) (v : string) (root : path)
    (ver : json) (s : state) (r : list (M unit) * list err) (s' : state) :
  Downloader.download net v root s = (Ok r, s') ->
  net Downloader.url_meta = RJson ver ->
  exists u file d c cu,
    Downloader.manifest_url ver v = Ok (Val (JStr u)) /\ net u = RJson file
    /\ jget file "downloads" = Val d /\ jget d "client" = Val c /\ jget c "url" = Val (JStr cu)
    /\ In (EvDown cu (root ++ [d_versions; v]) (String.append v ".jar")) (st_log s').
Proof.
  unfold Downloader.download. intros H Hn.
  apply bind_ok in H as ([] & s1 & E1 & H).
  destruct (downloadVersion_facts net root v ver s s1 E1 Hn) as (u & Hu & Hl).
  apply bind_ok in H as (file & s2 & E2 & H).
  destruct (downloadClient_facts net root v s1 file s2 E2) as (Hf & d & c & cu & Hd & Hc & Hcu & Hin & _).
  rewrite Hl in Hf. injection Hf as Hf.
  exists u, file, d, c, cu. repeat split; auto.
  apply bind_ok in H as ([] & s3 & E3 & H).
  apply bind_ok in H as (p1 & s4 & E4 & H).
  apply bind_ok in H as (p2 & s5 & E5 & H). unfold ret in H. injection H as _ <-.
  apply (ext_incl _ s4 _ s5 _ (ext_downloadNatives net root v file) E5).
  apply (ext_incl _ s3 _ s4 _ (ext_downloadLibraries net root file) E4).
  exact (ext_incl _ s2 _ s3 _ (ext_downloadAssets net root v file) E3 Hin).
Qed.

Lemma download_chain_witness :
  exists r s' cu,
    Downloader.download Sample.net "1.19" Sample.root (mkState Sample.empty_disk []) = (Ok r, s')
    /\ In (EvDown cu (Sample.root ++ [d_versions; "1.19"]) "1.19.jar") (st_log s').
Proof.
  destruct (Downloader.download Sample.net "1.19" Sample.root (mkState Sample.empty_disk []))
    as [[r|e] s'] eqn:E; [| vm_compute in E; discriminate].
  destruct (download_chain _ _ _ _ _ _ _ E eq_refl) as (u & file & d & c & cu & _ & _ & _ & _ & _ & Hin).
  exists r, s', cu. split; [reflexivity | exact Hin].
Defined.

Lemma lookup_upd_branch n pre a r b q x n' :
  upd n (pre ++ a :: r) x = Some n' -> a <> b ->
  lookup n' (pre ++ b :: q) = lookup n (pre ++ b :: q).
Proof.
  revert n n'. induction pre as [|s0 pre IH]; intros n n' H Hne; cbn [app] in *.
  - destruct n as [c|kids]; [discriminate|]. cbn [upd] in H.
    destruct (match assoc a kids with Some k => upd k r x
              | None => match r with [] => Some x | _ => None end end) as [k'|]; [|discriminate].
    injection H as <-. cbn [lookup]. now rewrite lookup_assoc_set_other.
  - destruct n as [c|kids]; [discriminate|]. cbn [upd] in H.
    destruct (assoc s0 kids) as [k|] eqn:Ek.
    + destruct (upd k (pre ++ a :: r) x) as [k'|] eqn:Eu; [|discriminate].
      injection H as <-. cbn [lookup]. rewrite lookup_assoc_set_same, Ek.
      exact (IH _ _ Eu Hne).
    + destruct pre; cbn in H; discriminate.
Qed.

Lemma put_file_branch p c s s' pre a r b q :
  put_file p c s = (Ok tt, s') -> p = pre ++ a :: r -> a <> b ->
  lookup (st_disk s') (pre ++ b :: q) = lookup (st_disk s) (pre ++ b :: q).
Proof.
  unfold put_file, bind, get_disk. cbn. intros H -> Hne.
  destruct (lookup (st_disk s) (pre ++ a :: r)) as [[]|]; [| discriminate |];
    destruct (upd (st_disk s) (pre ++ a :: r) (File c)) as [d'|] eqn:Eu; try discriminate;
    unfold set_disk in H; injection H as <-; exact (lookup_upd_branch _ _ _ _ _ _ _ _ Eu Hne).
Qed.

Lemma asset_object_hash net root k o s s1 :
  Downloader.asset_object net root k o s = (Ok tt, s1) -> exists h, jget o "hash" = Val (JStr h).
Proof.
  unfold Downloader.asset_object. intros H.
  apply bind_ok in H as (fh & s2 & E2 & H). apply lift_ok in E2 as [E2 ->].
  apply prop_val in E2. subst fh.
  apply bind_ok in H as (sub & s3 & E3 & _). apply lift_ok in E3 as [E3 _].
  destruct (jget o "hash") as [|[]]; try discriminate. eauto.
Qed.

Lemma asset_loop_all net root l s s' :
  Downloader.asset_loop net root l s = (Ok tt, s') ->
  forall key obj, In (key, obj) l -> exists h, jget obj "hash" = Val (JStr h) /\
  In (EvDown (String.append Downloader.url_resource
                (String.append "/" (String.append (substring 0 2 h) (String.append "/" h))))
             (root ++ [d_assets; "objects"; substring 0 2 h]) h)
     (st_log s').
Proof.
  revert s. induction l as [|[k o] r IH]; intros s H key obj Hin; [destruct Hin|].
  cbn [Downloader.asset_loop] in H. apply bind_ok in H as ([] & s1 & E1 & H).
  destruct Hin as [Heq|Hin].
  - injection Heq as -> ->.
    destruct (asset_object_hash _ _ _ _ _ _ E1) as [h Hh]. exists h. split; [exact Hh|].
    exact (ext_incl _ s1 _ s' _ (ext_asset_loop net root r) H
             (asset_object_logged net root key obj h s s1 E1 Hh)).
  - exact (IH s1 H key obj Hin).
Qed.

(** X16. [downloadAssets] stores the asset index in two places and then
    walks the copy it stored: when the index URL serves [idx], every entry
    of [idx.objects] has a string [hash] and its object has been requested
    into [assets/objects/<first two characters of the hash>]. *)
Theorem downloadAssets_objects (net : string -> raw) (root : path) (v : string)
    (file a idx : json) (ai : string) (s s' : state) :
  Downloader.downloadAssets net root v file s = (Ok tt, s') ->
  jget file "assetIndex" = Val a -> jget a "url" = Val (JStr ai) -> net ai = RJson idx ->
  forall key obj, In (key, obj) (Downloader.for_in (jget idx "objects")) ->
  exists h, jget obj "hash" = Val (JStr h) /\
  In (EvDown (String.append Downloader.url_resource
                (String.append "/" (String.append (substring 0 2 h) (String.append "/" h))))
             (root ++ [d_assets; "objects"; substring 0 2 h]) h)
     (st_log s').
Proof.
  unfold Downloader.downloadAssets. intros H Ha Hu Hn.
  apply bind_ok in H as ([] & s1 & _ & H).
  apply bind_ok in H as (ai' & s2 & E2 & H). apply lift_ok in E2 as [E2 ->].
  rewrite (prop_jget _ _ _ Ha) in E2. cbn [res_bind] in E2.
  rewrite (prop_jget _ _ _ Hu) in E2. cbn [res_bind as_string] in E2. injection E2 as <-.
  apply bind_ok in H as ([] & s3 & E3 & H). apply down_ok in E3.
  apply bind_ok in H as ([] & s4 & E4 & H).
  assert (L : lookup (st_disk s4) (root ++ [d_assets; "indexes"; String.append v ".json"])
              = Some (File (RJson idx))).
  { unfold Downloader.down in E4. apply bind_ok in E4 as ([] & s5 & E5 & E4).
    unfold emit in E5. injection E5 as <-.
    rewrite (put_file_branch _ _ _ _ root d_cache ["json"; String.append v ".json"]
               d_assets ["indexes"; String.append v ".json"] E4).
    - cbn [st_disk]. rewrite <- app_assoc in E3. rewrite Hn in E3. exact E3.
    - now rewrite <- app_assoc.
    - discriminate. }
  apply bind_ok in H as (idx' & s5 & E5 & H). apply fs_read_json_ok in E5 as [E5 _].
  rewrite L in E5. injection E5 as <-.
  apply bind_ok in H as ([] & s6 & _ & H).
  apply bind_ok in H as (objs & s7 & E7 & H). apply lift_ok in E7 as [E7 ->].
  apply prop_val in E7. subst objs.
  exact (asset_loop_all net root _ _ _ H).
Qed.

Lemma downloadAssets_objects_witness :
  exists s',
    Downloader.downloadAssets Sample.net Sample.root "1.19" Sample.meta_1_19
      (mkState (Dir [("home", Dir [("mc", Dir [("assets", Dir []); ("cache", Dir [("json", Dir [])])])])]) [])
    = (Ok tt, s')
    /\ exists h, In (EvDown (String.append Downloader.url_resource
                (String.append "/" (String.append (substring 0 2 h) (String.append "/" h))))
             (Sample.root ++ [d_assets; "objects"; substring 0 2 h]) h) (st_log s').
Proof.
  destruct (Downloader.downloadAssets Sample.net Sample.root "1.19" Sample.meta_1_19
      (mkState (Dir [("home", Dir [("mc", Dir [("assets", Dir []); ("cache", Dir [("json", Dir [])])])])]) []))
    as [[[]|e] s'] eqn:E; [| vm_compute in E; discriminate].
  exists s'. split; [reflexivity|].
  destruct (downloadAssets_objects Sample.net Sample.root "1.19" Sample.meta_1_19
              (JObj [("url", JStr "https://meta/index-1.19.json")]) Sample.asset_index
              "https://meta/index-1.19.json" _ s' E eq_refl eq_refl eq_refl
              "icons/icon_16x16.png" (JObj [("hash", JStr "ef015678"); ("size", JNum 3)]))
    as (h & _ & Hin); [cbn; auto 4 |].
  exists h. exact Hin.
Defined.

Lemma base_reqlibs_missing e l1 l2 :
  jget e "downloads" = Undef -> exists er, base_reqlibs (l1 ++ e :: l2) = Err er.
Proof.
  intros He. induction l1 as [|x r IH]; cbn [app base_reqlibs].
  - destruct e; cbn in He |- *; try (eexists; reflexivity); rewrite He; eexists; reflexivity.
  - destruct IH as [er Er].
    destruct (prop (Val x) "downloads") as [d|er'];
      cbn [res_bind]; [|eexists; reflexivity].
    destruct (prop d "artifact") as [a|er']; cbn [res_bind]; [|eexists; reflexivity].
    destruct (match a with
              | Undef => Ok []
              | _ => let? p := prop a "path" in let? s := as_string p in Ok [basename s]
              end) as [h|er']; cbn [res_bind]; [|eexists; reflexivity].
    rewrite Er. eexists; reflexivity.
Qed.

(** X17. The launch cannot succeed when any library of the base
    version's metadata has no [downloads] (as the entries of a loader's
    metadata, which carry only a [name]): reading
    [element.downloads.artifact] throws for it, and the base list is built
    before anything else is decided. *)
Theorem launch_needs_downloads (o : options) (fresh : string) (s : state) (ver : string)
    (file e : json) (ls : list json) :
  match_version (version o) = Some ver ->
  lookup (st_disk s) (version_json (gameDirectory o) ver) = Some (File (RJson file)) ->
  jget file "libraries" = Val (JArr ls) -> In e ls -> jget e "downloads" = Undef ->
  forall p s', launch o fresh s <> (Ok p, s').
Proof.
  intros Hv Hf Hl Hin He p s' H. unfold launch in H. rewrite Hv in H.
  apply bind_ok in H as (f & s1 & E1 & H). apply fs_read_json_ok in E1 as [E1 _].
  rewrite Hf in E1. injection E1 as <-.
  apply bind_ok in H as (u & s2 & _ & H).
  apply bind_ok in H as (uuid & s3 & _ & H).
  apply bind_ok in H as (r1 & s4 & E4 & _). apply lift_ok in E4 as [E4 _].
  rewrite (prop_jget _ _ _ Hl) in E4. cbn [res_bind as_array] in E4.
  apply in_split in Hin as (l1 & l2 & ->).
  destruct (base_reqlibs_missing e l1 l2 He) as [er Er]. rewrite Er in E4. discriminate.
Qed.

Lemma launch_needs_downloads_witness :
  exists er s',
    launch (Sample.opts "1.19") "fresh"
      (mkState (Dir [("home", Dir [("mc", Dir [("versions", Dir [("1.19", Dir [("1.19.json",
         File (RJson (JObj [("libraries", JArr [Sample.lwjgl_lib;
                              JObj [("name", JStr "net.fabricmc:fabric-loader:0.1")]])])))])])])])]) [])
    = (Err er, s').
Proof.
  destruct (launch (Sample.opts "1.19") "fresh"
      (mkState (Dir [("home", Dir [("mc", Dir [("versions", Dir [("1.19", Dir [("1.19.json",
         File (RJson (JObj [("libraries", JArr [Sample.lwjgl_lib;
                              JObj [("name", JStr "net.fabricmc:fabric-loader:0.1")]])])))])])])])]) []))
    as [[p|er] s'] eqn:E.
  - exfalso. refine (launch_needs_downloads _ _ _ "1.19" _ (JObj [("name", JStr "net.fabricmc:fabric-loader:0.1")])
                       [Sample.lwjgl_lib; JObj [("name", JStr "net.fabricmc:fabric-loader:0.1")]]
                       _ _ _ _ _ p s' E); [reflexivity | reflexivity | reflexivity | cbn; auto | reflexivity].
  - exists er, s'. reflexivity.
Defined.

Lemma mkdir_p_dir n p n' : mkdir_p n p = Some n' -> exists kids, lookup n' p = Some (Dir kids).
Proof.
  revert n n'. induction p as [|x r IH]; intros n n' H; cbn [mkdir_p] in H.
  - destruct n as [c|kids]; [discriminate|]. injection H as <-. eexists; reflexivity.
  - destruct n as [c|kids]; [discriminate|].
    destruct (mkdir_p (match assoc x kids with Some k => k | None => Dir [] end) r) as [k'|] eqn:Em;
      [|discriminate].
    injection H as <-. cbn [lookup]. rewrite lookup_assoc_set_same. exact (IH _ _ Em).
Qed.

Lemma upd_under_file n p c x y : lookup n p = Some (File c) -> upd n (p ++ [x]) y = None.
Proof.
  revert n. induction p as [|a r IH]; intros n H; cbn [lookup] in H.
  - injection H as ->. reflexivity.
  - destruct n as [c'|kids]; [discriminate|]. cbn [app upd].
    destruct (assoc a kids) as [k|]; [|discriminate]. rewrite (IH k H). reflexivity.
Qed.

(** X18. [ensure_dir] only asks whether something exists at the path: if
    anything is there it changes nothing, else it leaves a directory there.
    A plain file in place of the directory is therefore kept, and the
    download that follows into that directory fails. *)
Theorem ensure_dir_effect (net : string -> raw) (r : bool) (p : path) (s s' : state) :
  Downloader.ensure_dir r p s = (Ok tt, s') ->
  (lookup (st_disk s) p <> None -> st_disk s' = st_disk s)
  /\ (exists k, lookup (st_disk s') p = Some k)
  /\ (forall c, lookup (st_disk s) p = Some (File c) ->
      forall u n, exists er, Downloader.down net u p n s' = (Err er, snd (Downloader.down net u p n s'))).
Proof.
  unfold Downloader.ensure_dir. intros H.
  apply bind_ok in H as (e & s1 & E1 & H). apply fs_exists_ok in E1 as [-> Hd1].
  destruct (lookup (st_disk s) p) as [k|] eqn:Ek.
  - unfold ret in H. injection H as <-. split; [auto|]. split; [rewrite Hd1; eauto|].
    intros c Hc u n. injection Hc as ->.
    unfold Downloader.down, bind, emit, put_file, bind, get_disk. cbn [st_disk].
    rewrite Hd1, lookup_app, Ek. cbn [lookup].
    rewrite (upd_under_file _ _ c n _ Ek). unfold throw. eexists. reflexivity.
  - split; [congruence|]. split; [|discriminate].
    unfold fs_mkdir, bind, emit, get_disk in H. cbn [st_disk] in H. rewrite Hd1 in H.
    destruct r.
    + destruct (mkdir_p (st_disk s) p) as [d'|] eqn:Em; [|discriminate].
      unfold set_disk in H. injection H as <-. destruct (mkdir_p_dir _ _ _ Em) as [kids Hk]. exists (Dir kids). exact Hk.
    + rewrite Ek in H. destruct (upd (st_disk s) p (Dir [])) as [d'|] eqn:Eu; [|discriminate].
      unfold set_disk in H. injection H as <-. cbn [st_disk]. exists (Dir []).
      exact (lookup_upd_same _ _ _ _ Eu).
Qed.

Lemma ensure_dir_effect_witness :
  exists s' er,
    Downloader.ensure_dir false ["mc"; "versions"; "1.19"]
      (mkState (Dir [("mc", Dir [("versions", Dir [("1.19", File (RBytes ""))])])]) []) = (Ok tt, s')
    /\ Downloader.down (fun _ => RBytes "jar") "https://x/client.jar" ["mc"; "versions"; "1.19"]
         "1.19.jar" s'
       = (Err er, snd (Downloader.down (fun _ => RBytes "jar") "https://x/client.jar"
                         ["mc"; "versions"; "1.19"] "1.19.jar" s')).
Proof.
  destruct (Downloader.ensure_dir false ["mc"; "versions"; "1.19"]
      (mkState (Dir [("mc", Dir [("versions", Dir [("1.19", File (RBytes ""))])])]) []))
    as [[[]|e] s'] eqn:E; [| vm_compute in E; discriminate].
  destruct (ensure_dir_effect (fun _ => RBytes "jar") _ _ _ _ E) as (_ & _ & H).
  destruct (H (RBytes "") eq_refl "https://x/client.jar" "1.19.jar") as [er Her].
  exists s', er. split; [reflexivity | exact Her].
Defined.

Lemma bind_step {A B} (m : M A) (f : A -> M B) s a s1 :
  m s = (Ok a, s1) -> bind m f s = f a s1.
Proof. unfold bind. intros ->. reflexivity. Qed.

Lemma upd_under_dir n p kids x y :
  lookup n p = Some (Dir kids) -> exists n', upd n (p ++ [x]) y = Some n'.
Proof.
  revert n. induction p as [|a r IH]; intros n H; cbn [lookup] in H.
  - injection H as ->. cbn [app upd]. destruct (assoc x kids) as [k|]; [|eauto].
    destruct k; cbn [upd]; eauto.
  - destruct n as [c|kids']; [discriminate|]. cbn [app upd].
    destruct (assoc a kids') as [k|]; [|discriminate].
    destruct (IH k H) as [k' Hk]. rewrite Hk. eauto.
Qed.

(** X19. For a version the manifest does not list as a release (or
    lists without a URL), [downloadVersion] stops right after reading the
    manifest: once [cache/json] exists, it logs only the existence checks,
    the manifest download and its read, so it never creates
    [versions/<v>] or requests anything else. *)
Theorem downloadVersion_unlisted (net : string -> raw) (root : path) (v : string)
    (ver : json) (e : err) (kids : list (string * node)) (s : state) :
  net Downloader.url_meta = RJson ver -> Downloader.manifest_url ver v = Err e ->
  lookup (st_disk s) (root ++ [d_cache; "json"]) = Some (Dir kids) ->
  (forall k, lookup (st_disk s) (root ++ [d_cache; "json"; "version_manifest.json"]) <> Some (Dir k)) ->
  fst (Downloader.downloadVersion net root v s) = Err e
  /\ st_log (snd (Downloader.downloadVersion net root v s))
     = st_log s ++ [EvExists (root ++ [d_cache; "json"]);
                    EvDown Downloader.url_meta (root ++ [d_cache; "json"]) "version_manifest.json";
                    EvExists (root ++ [d_cache]);
                    EvRead (root ++ [d_cache; "json"; "version_manifest.json"])].
Proof.
  intros Hn Hm Hc Hf.
  destruct (upd_under_dir _ _ _ "version_manifest.json" (File (net Downloader.url_meta)) Hc)
    as [d' Hu].
  pose proof (lookup_upd_same _ _ _ _ Hu) as Hl.
  rewrite <- app_assoc in Hl. cbn [app] in Hl.
  assert (Hpre : exists k, lookup d' (root ++ [d_cache]) = Some k).
  { change (root ++ [d_cache; "json"; "version_manifest.json"])
      with (root ++ [d_cache] ++ ["json"; "version_manifest.json"]) in Hl.
    rewrite app_assoc, lookup_app in Hl. destruct (lookup d' (root ++ [d_cache])); [eauto|discriminate]. }
  destruct Hpre as [k Hk].
  set (s1 := mkState (st_disk s) (st_log s ++ [EvExists (root ++ [d_cache; "json"])])).
  set (s2 := mkState d' (st_log s1 ++ [EvDown Downloader.url_meta (root ++ [d_cache; "json"])
                                                "version_manifest.json"])).
  set (s3 := mkState d' (st_log s2 ++ [EvExists (root ++ [d_cache])])).
  set (s4 := mkState d' (st_log s3 ++ [EvRead (root ++ [d_cache; "json"; "version_manifest.json"])])).
  assert (E1 : Downloader.ensure_dir true (root ++ [d_cache; "json"]) s = (Ok tt, s1)).
  { unfold s1, Downloader.ensure_dir, fs_exists, bind, emit, get_disk, ret. cbn [st_disk].
    rewrite Hc. reflexivity. }
  assert (E2 : Downloader.down net Downloader.url_meta (root ++ [d_cache; "json"])
                 "version_manifest.json" s1 = (Ok tt, s2)).
  { unfold s1, s2, Downloader.down, put_file, bind, emit, get_disk, set_disk. cbn [st_disk st_log].
    rewrite <- app_assoc. cbn [app].
    destruct (lookup (st_disk s) (root ++ [d_cache; "json"; "version_manifest.json"]))
      as [[c|k']|] eqn:El; [| exfalso; exact (Hf k' eq_refl) |];
      rewrite <- app_assoc in Hu; cbn [app] in Hu; rewrite Hu; reflexivity. }
  assert (E3 : fs_exists (root ++ [d_cache]) s2 = (Ok true, s3)).
  { unfold s2, s3, fs_exists, bind, emit, get_disk, ret. cbn [st_disk st_log]. rewrite Hk. reflexivity. }
  assert (E4 : fs_read_json (root ++ [d_cache; "json"; "version_manifest.json"]) s3 = (Ok ver, s4)).
  { unfold s3, s4, fs_read_json, bind, emit, get_disk, ret. cbn [st_disk st_log]. rewrite Hl, Hn. reflexivity. }
  unfold Downloader.downloadVersion.
  rewrite (bind_step _ _ _ _ _ E1), (bind_step _ _ _ _ _ E2), (bind_step _ _ _ _ _ E3).
  cbn iota. rewrite (bind_step _ _ _ _ _ E4).
  unfold bind at 1, lift at 1. rewrite Hm. cbn [fst snd].
  split; [reflexivity|]. unfold s4, s3, s2, s1. cbn [st_log]. now rewrite <- !app_assoc.
Qed.

Lemma downloadVersion_unlisted_witness :
  fst (Downloader.downloadVersion Sample.net Sample.root "23w01a"
         (mkState (Dir [("home", Dir [("mc", Dir [("cache", Dir [("json", Dir [])])])])]) []))
  = Err (TypeError "url").
Proof.
  refine (proj1 (downloadVersion_unlisted Sample.net Sample.root "23w01a" Sample.manifest _ []
                   (mkState (Dir [("home", Dir [("mc", Dir [("cache", Dir [("json", Dir [])])])])]) [])
                   eq_refl eq_refl eq_refl _)).
  intros k. vm_compute. discriminate.
Defined.

Lemma assoc_dollar_none {A} (fields : list (string * A)) c r :
  Forall (fun kv => exists r', fst kv = String "$" r') fields -> c <> "$"%char ->
  assoc (String c r) fields = None.
Proof.
  intros Hf Hc. induction Hf as [|[k v] l [r' Hk] _ IH]; [reflexivity|].
  cbn [fst] in Hk. subst k. cbn [assoc].
  destruct (String.eqb_spec (String c r) (String "$" r')) as [E|_]; [injection E; congruence|].
  exact IH.
Qed.

Lemma launch_fields_dollar uuid us ver root :
  Forall (fun kv => exists r', fst kv = String "$" r') (launch_fields uuid us ver root).
Proof. unfold launch_fields. repeat constructor; eexists; reflexivity. Qed.

Lemma encontrar_head dir n files ver :
  encontrar dir n files ver = ""%string \/ exists r, encontrar dir n files ver = String "/" r.
Proof.
  revert dir. induction n as [c | kids IH] using node_ind'; intros dir; [now left|].
  induction kids as [|[a k] rest IHk]; [now left|].
  inversion IH as [|? ? Hk Hrest]; subst.
  change (encontrar dir (Dir ((a, k) :: rest)) files ver)
    with (String.append (match k with
                         | Dir _ => encontrar (dir ++ [a]) k files ver
                         | File _ => if jar_selected a files ver
                                     then String.append (show_path (dir ++ [a])) ";" else ""
                         end) (encontrar dir (Dir rest) files ver)).
  assert (Hh : forall x, x = ""%string \/ (exists r, x = String "/" r) ->
            String.append x (encontrar dir (Dir rest) files ver) = ""%string
            \/ exists r, String.append x (encontrar dir (Dir rest) files ver) = String "/" r).
  { intros x [-> | [r ->]]; [exact (IHk Hrest) | right; eexists; reflexivity]. }
  apply Hh. destruct k as [c|kk].
  - destruct (jar_selected a files ver); [right; eexists; reflexivity | now left].
  - apply Hk.
Qed.

(** X20. The JVM options and the classpath that [launch] passes first are
    never replaced by the placeholder substitution (none of them starts
    with [$]), so a successful launch always starts the process with
    [-Djava.library.path=<root>/natives/<version>], the two memory flags,
    the heap dump flag, [-cp] and the classpath, in the game directory. *)
Theorem launch_jvm_head (o : options) (fresh : string) (s : state) (p : plan) (s' : state) :
  launch o fresh s = (Ok p, s') ->
  exists ver rest,
    match_version (version o) = Some ver
    /\ pl_cwd p = gameDirectory o
    /\ pl_args p
       = Val (JStr (String.append "-Djava.library.path="
                      (show_path (gameDirectory o ++ [d_natives; ver]))))
         :: Val (JStr (String.append "-Xmx" (memory_max o)))
         :: Val (JStr (String.append "-Xms" (memory_min o)))
         :: Val (JStr "-XX:HeapDumpPath=MojangTricksIntelDriversForPerformance_javaw.exe_minecraft.exe.heapdump")
         :: Val (JStr "-cp") :: Val (JStr (pl_libs p)) :: rest.
Proof.
  intros H. unfold launch in H.
  destruct (match_version (version o)) as [ver|] eqn:Ev; [|discriminate].
  cbv zeta in H.
  apply bind_ok in H as (file & s1 & _ & H).
  apply bind_ok in H as (u & s2 & _ & H).
  apply bind_ok in H as (uuid & s3 & _ & H).
  apply bind_ok in H as (r1 & s4 & _ & H).
  apply bind_ok in H as (mc0 & s5 & _ & H).
  apply bind_ok in H as (ga0 & s6 & _ & H).
  apply bind_ok in H as ([[reqLibs mainClass] gameArgs] & s7 & _ & H).
  apply bind_ok in H as (libs & s8 & El & H).
  apply bind_ok in H as (flat & s9 & _ & H).
  unfold ret in H. injection H as Hp _.
  assert (Ea : pl_args p = substitute (launch_fields uuid (username o) ver (gameDirectory o))
                 (jvm_args o ver (gameDirectory o) (pl_libs p) (pl_mainClass p) ++ flat))
    by (subst p; reflexivity).
  assert (Ec : pl_cwd p = gameDirectory o) by (subst p; reflexivity).
  assert (Elibs : pl_libs p = String.append libs
                    (show_path (game_jar (gameDirectory o) ver (custom_of (version o) ver))))
    by (subst p; reflexivity).
  assert (Hcp : exists r, pl_libs p = String "/" r).
  { rewrite Elibs.
    unfold encontrarArchivosJAR, bind, emit, get_disk, ret, throw in El. cbn [st_disk] in El.
    destruct (lookup (st_disk s7) (gameDirectory o ++ [d_libraries])) as [[c|kids]|];
      try discriminate.
    assert (Hl : libs = encontrar (gameDirectory o ++ [d_libraries]) (Dir kids) reqLibs ver)
      by (injection El as E _; rewrite <- E; reflexivity).
    rewrite Hl.
    destruct (encontrar_head (gameDirectory o ++ [d_libraries]) (Dir kids) reqLibs ver)
      as [-> | [r ->]]; eexists; reflexivity. }
  rewrite Ea, Ec. clear Hp Ea Ec Elibs.
  exists ver, (substitute (launch_fields uuid (username o) ver (gameDirectory o))
                 (spread (pl_mainClass p) ++ flat)).
  split; [reflexivity|]. split; [reflexivity|].
  destruct Hcp as [r ->].
  generalize (launch_fields_dollar uuid (username o) ver (gameDirectory o)).
  generalize (launch_fields uuid (username o) ver (gameDirectory o)). intros F HF.
  unfold jvm_args, substitute, show_path. cbn [flat_map spread app map String.append subst_token].
  rewrite app_nil_r, !(assoc_dollar_none F) by (exact HF || discriminate). reflexivity.
Qed.

Lemma launch_jvm_head_witness :
  exists p s' rest,
    launch (Sample.opts "1.19") "fresh" (mkState Sample.disk []) = (Ok p, s')
    /\ pl_args p = Val (JStr "-Djava.library.path=/home/mc/natives/1.19")
         :: Val (JStr "-Xmx2G") :: Val (JStr "-Xms1G")
         :: Val (JStr "-XX:HeapDumpPath=MojangTricksIntelDriversForPerformance_javaw.exe_minecraft.exe.heapdump")
         :: Val (JStr "-cp") :: Val (JStr (pl_libs p)) :: rest.
Proof.
  destruct (launch (Sample.opts "1.19") "fresh" (mkState Sample.disk [])) as [[p|e] s'] eqn:E;
    [| vm_compute in E; discriminate].
  destruct (launch_jvm_head _ _ _ _ _ E) as (ver & rest & Hv & _ & Ha).
  cbn in Hv. injection Hv as <-.
  exists p, s', rest. split; [reflexivity | exact Ha].
Defined.

Lemma assoc_del_other {A} a b (l : list (string * A)) :
  a <> b -> assoc b (assoc_del a l) = assoc b l.
Proof.
  intros Hne. induction l as [|[k v] r IH]; [reflexivity|]. cbn [assoc_del].
  destruct (String.eqb_spec a k) as [->|Hak].
  - cbn [assoc]. destruct (String.eqb_spec b k) as [->|]; [congruence | reflexivity].
  - cbn [assoc]. destruct (String.eqb b k); [reflexivity | exact IH].
Qed.

Lemma rm_branch n pre a b q n' :
  rm n (pre ++ [a]) = Some n' -> a <> b ->
  lookup n' (pre ++ b :: q) = lookup n (pre ++ b :: q).
Proof.
  revert n n'. induction pre as [|s0 pre IH]; intros n n' H Hne.
  - destruct n as [c|kids]; [discriminate|]. cbn [app rm] in H.
    destruct (assoc a kids); [|discriminate]. injection H as <-.
    cbn [app lookup]. now rewrite assoc_del_other.
  - destruct n as [c|kids]; [destruct pre; discriminate|].
    assert (Hr : rm (Dir kids) (s0 :: pre ++ [a])
                 = match assoc s0 kids with
                   | Some k => match rm k (pre ++ [a]) with
                               | Some k' => Some (Dir (assoc_set s0 k' kids))
                               | None => None
                               end
                   | None => None
                   end) by (destruct pre; reflexivity).
    cbn [app] in H. rewrite Hr in H.
    destruct (assoc s0 kids) as [k|] eqn:Ek; [|discriminate].
    destruct (rm k (pre ++ [a])) as [k'|] eqn:Er; [|discriminate].
    injection H as <-. cbn [app lookup]. rewrite lookup_assoc_set_same, Ek.
    exact (IH _ _ Er Hne).
Qed.

Lemma fs_unlink_branch pre a b q s s' :
  fs_unlink (pre ++ [a]) s = (Ok tt, s') -> a <> b ->
  lookup (st_disk s') (pre ++ b :: q) = lookup (st_disk s) (pre ++ b :: q).
Proof.
  unfold fs_unlink, bind, emit, get_disk, set_disk, throw. cbn [st_disk]. intros H Hne.
  destruct (lookup (st_disk s) (pre ++ [a])) as [[c|kids]|]; try discriminate.
  destruct (rm (st_disk s) (pre ++ [a])) as [d'|] eqn:Er; [|discriminate].
  injection H as <-. exact (rm_branch _ _ _ _ _ _ Er Hne).
Qed.

Lemma extract_dir z dst s s' :
  Downloader.extract z dst s = (Ok tt, s') -> exists kids, lookup (st_disk s') dst = Some (Dir kids).
Proof.
  unfold Downloader.extract, bind, emit, get_disk, set_disk, throw. cbn [st_disk]. intros H.
  destruct (lookup (st_disk s) z) as [[c|kids]|]; try discriminate.
  destruct (mkdir_p (st_disk s) dst) as [d'|] eqn:Em; [|discriminate].
  injection H as <-. exact (mkdir_p_dir _ _ _ Em).
Qed.

(** X21. When the natives step extracts an archive (the chosen entry is
    not the nightly build of 1.8) and the archive's file name differs from
    the version, a successful run leaves [natives/<version>] as a
    directory: deleting the archive afterwards does not touch it. *)
Theorem native_entry_extracts (net : string -> raw) (root : path) (v : string)
    (element d c nj : json) (u p : string) (s s' : state) :
  Downloader.native_entry net root v element s = (Ok tt, s') ->
  jget element "downloads" = Val d -> jget d "classifiers" = Val c ->
  Downloader.select_natives (Val c) = Ok (Val nj) -> truthy (Val nj) = true ->
  jget nj "url" = Val (JStr u) -> jget nj "path" = Val (JStr p) ->
  (String.eqb v "1.8" && str_includes u "nightly") = false -> basename p <> v ->
  exists kids, lookup (st_disk s') (root ++ [d_natives; v]) = Some (Dir kids).
Proof.
  intros H Hd Hc Hs Ht Hu Hp Hn Hb. rewrite native_entry_eq in H.
  apply bind_ok in H as (el & s1 & E1 & H). apply lift_ok in E1 as [E1 ->].
  rewrite (prop_jget _ _ _ Hd) in E1. cbn [res_bind] in E1.
  rewrite (prop_jget _ _ _ Hc) in E1. injection E1 as <-.
  apply bind_ok in H as (n & s2 & E2 & H). apply lift_ok in E2 as [E2 ->].
  rewrite Hs in E2. injection E2 as <-. rewrite Ht in H.
  apply bind_ok in H as (u' & s3 & E3 & H). apply lift_ok in E3 as [E3 ->].
  rewrite (prop_jget _ _ _ Hu) in E3. injection E3 as <-.
  apply bind_ok in H as (p' & s4 & E4 & H). apply lift_ok in E4 as [E4 ->].
  rewrite (prop_jget _ _ _ Hp) in E4. injection E4 as <-.
  apply bind_ok in H as ([] & s5 & _ & H). rewrite Hn in H.
  apply bind_ok in H as ([] & s6 & E6 & H).
  destruct (extract_dir _ _ _ _ E6) as [kids Hk]. exists kids.
  change (root ++ [d_natives; basename p]) with (root ++ [d_natives] ++ [basename p]) in H.
  rewrite app_assoc in H.
  change (root ++ [d_natives; v]) with (root ++ [d_natives] ++ [v]) in Hk |- *.
  rewrite app_assoc in Hk |- *.
  rewrite (fs_unlink_branch _ _ v [] _ _ H Hb). exact Hk.
Qed.

Lemma native_entry_extracts_witness :
  exists s' kids,
    Downloader.native_entry (fun _ => RBytes "zip") ["mc"] "1.19" Sample.natives_lib
      (mkState (Dir [("mc", Dir [("natives", Dir [])])]) []) = (Ok tt, s')
    /\ lookup (st_disk s') (["mc"] ++ [d_natives; "1.19"]) = Some (Dir kids).
Proof.
  destruct (Downloader.native_entry (fun _ => RBytes "zip") ["mc"] "1.19" Sample.natives_lib
              (mkState (Dir [("mc", Dir [("natives", Dir [])])]) [])) as [[[]|e] s'] eqn:E;
    [| vm_compute in E; discriminate].
  edestruct (native_entry_extracts (fun _ => RBytes "zip") ["mc"] "1.19" Sample.natives_lib
               _ _ _ _ _ _ s' E eq_refl eq_refl eq_refl eq_refl eq_refl eq_refl eq_refl)
    as [kids Hk]; [vm_compute; discriminate |].
  exists s', kids. split; [reflexivity | exact Hk].
Defined.

(* ------------------------------------------------------------------ *)
(** ** Runs of [download] that send the same requests *)

Lemma quiet_ret {A} (a : A) : quiet (ret a).
Proof. intros s. reflexivity. Qed.

Lemma quiet_throw {A} er : quiet (@throw A er).
Proof. intros s. reflexivity. Qed.

Lemma quiet_lift {A} (r : res A) : quiet (lift r).
Proof. intros s. reflexivity. Qed.

Lemma quiet_get_disk : quiet get_disk.
Proof. intros s. reflexivity. Qed.

Lemma quiet_set_disk d : quiet (set_disk d).
Proof. intros s. reflexivity. Qed.

Lemma quiet_emit e : is_down e = false -> quiet (emit e).
Proof. intros H s. cbn. rewrite filter_app. cbn. rewrite H, app_nil_r. reflexivity. Qed.

Lemma quiet_bind {A B} (m : M A) (f : A -> M B) :
  quiet m -> (forall a, quiet (f a)) -> quiet (bind m f).
Proof.
  intros Hm Hf s. unfold bind. specialize (Hm s).
  destruct (m s) as [[a|er] s1]; cbn in *; [rewrite Hf|]; exact Hm.
Qed.

Ltac quiet_solve :=
  repeat match goal with
  | |- quiet (bind _ _) => apply quiet_bind; [|intros ?]
  | |- quiet (ret _) => apply quiet_ret
  | |- quiet (throw _) => apply quiet_throw
  | |- quiet (lift _) => apply quiet_lift
  | |- quiet get_disk => apply quiet_get_disk
  | |- quiet (set_disk _) => apply quiet_set_disk
  | |- quiet (emit _) => apply quiet_emit; reflexivity
  | |- quiet (match ?x with _ => _ end) => destruct x
  end.

Lemma quiet_fs_exists p : quiet (fs_exists p).
Proof. unfold fs_exists. quiet_solve. Qed.

Lemma quiet_fs_read_json p : quiet (fs_read_json p).
Proof. unfold fs_read_json. quiet_solve. Qed.

Lemma quiet_ensure_dir r p : quiet (Downloader.ensure_dir r p).
Proof. unfold Downloader.ensure_dir, fs_exists, fs_mkdir. quiet_solve. Qed.

Lemma quiet_step {A} (m : M A) s r s' :
  quiet m -> m s = (r, s') -> filter is_down (st_log s') = filter is_down (st_log s).
Proof. intros Q E. specialize (Q s). rewrite E in Q. exact Q. Qed.

Lemma sr_ret {A} (a : A) : same_requests (ret a).
Proof.
  intros s1 s2 a1 a2 s1' s2' E1 E2. injection E1 as <- <-. injection E2 as <- <-.
  split; [reflexivity|]. exists []. now rewrite !app_nil_r.
Qed.

Lemma sr_lift {A} (r : res A) : same_requests (lift r).
Proof.
  intros s1 s2 a1 a2 s1' s2' E1 E2. injection E1 as -> <-. injection E2 as -> <-.
  split; [reflexivity|]. exists []. now rewrite !app_nil_r.
Qed.

Lemma sr_quiet (m : M unit) : quiet m -> same_requests m.
Proof.
  intros Q s1 s2 [] [] s1' s2' E1 E2. split; [reflexivity|]. exists [].
  rewrite (quiet_step _ _ _ _ Q E1), (quiet_step _ _ _ _ Q E2), !app_nil_r. auto.
Qed.

Lemma sr_bind {A B} (m : M A) (f : A -> M B) :
  same_requests m -> (forall a, same_requests (f a)) -> same_requests (bind m f).
Proof.
  intros Hm Hf s1 s2 b1 b2 s1' s2' E1 E2.
  apply bind_ok in E1 as (a1 & t1 & F1 & G1). apply bind_ok in E2 as (a2 & t2 & F2 & G2).
  destruct (Hm _ _ _ _ _ _ F1 F2) as [<- (D1 & H1 & H2)].
  destruct (Hf a1 _ _ _ _ _ _ G1 G2) as [<- (D2 & K1 & K2)].
  split; [reflexivity|]. exists (D1 ++ D2). rewrite K1, K2, H1, H2, !app_assoc. auto.
Qed.

Lemma catch_down_log net u d n s s1 :
  catch (Downloader.down net u d n) (fun _ => ret tt) s = (Ok tt, s1) ->
  filter is_down (st_log s1) = filter is_down (st_log s) ++ [EvDown u d n].
Proof.
  unfold catch. destruct (Downloader.down net u d n s) as [r t] eqn:E.
  apply (down_log net) in E.
  destruct r; unfold ret; intros H; inversion H; subst; rewrite E, filter_app; reflexivity.
Qed.

Lemma sr_catch_down net u d n : same_requests (catch (Downloader.down net u d n) (fun _ => ret tt)).
Proof.
  intros s1 s2 [] [] s1' s2' E1 E2. split; [reflexivity|]. exists [EvDown u d n].
  split; apply (catch_down_log net); assumption.
Qed.

Lemma sr_down_start net u d n : same_requests (Downloader.down_start net u d n).
Proof.
  intros s1 s2 a1 a2 s1' s2' E1 E2. cbv [Downloader.down_start bind emit ret] in E1, E2.
  injection E1 as <- <-. injection E2 as <- <-. split; [reflexivity|].
  exists [EvDown u d n]. cbn. rewrite !filter_app. auto.
Qed.

Lemma sr_asset_object net root k o : same_requests (Downloader.asset_object net root k o).
Proof.
  unfold Downloader.asset_object.
  apply sr_bind; [apply sr_lift|]; intros fh.
  apply sr_bind; [apply sr_lift|]; intros sub.
  apply sr_bind; [apply sr_quiet, quiet_ensure_dir|]; intros _.
  apply sr_bind; [apply sr_lift|]; intros h.
  apply sr_catch_down.
Qed.

Lemma sr_asset_loop net root l : same_requests (Downloader.asset_loop net root l).
Proof.
  induction l as [|[k o] r IH]; cbn [Downloader.asset_loop]; [apply sr_ret|].
  apply sr_bind; [apply sr_asset_object | intros _; exact IH].
Qed.

Lemma sr_library_start net root x : same_requests (Downloader.library_start net root x).
Proof.
  unfold Downloader.library_start.
  apply sr_bind; [apply sr_lift|]; intros a.
  destruct a as [|j]; [apply sr_ret|].
  apply sr_bind; [apply sr_lift|]; intros jf. cbv zeta.
  apply sr_bind; [apply sr_quiet, quiet_ensure_dir|]; intros _.
  destruct (let? y := prop (Val j) "url" in as_string y) as [u|e]; [apply sr_down_start | apply sr_ret].
Qed.

Lemma sr_native_start net root v x : same_requests (Downloader.native_start net root v x).
Proof.
  unfold Downloader.native_start.
  apply sr_bind; [apply sr_lift|]; intros el.
  apply sr_bind; [apply sr_lift|]; intros n.
  destruct (truthy n); [|apply sr_ret].
  destruct (let? y := prop n "url" in as_string y) as [u|e]; [|apply sr_ret].
  destruct (let? y := prop n "path" in as_string y) as [p|e]; [|apply sr_ret].
  apply sr_bind; [apply sr_down_start|]; intros k. apply sr_ret.
Qed.

(** Two runs of [forEach] in which no callback throws before its [await]. *)
Lemma for_each_async_same f l :
  (forall x, same_requests (f x)) ->
  forall s1 s2 k1 k2 s1' s2',
  Downloader.for_each_async f l s1 = (Ok (k1, []), s1') ->
  Downloader.for_each_async f l s2 = (Ok (k2, []), s2') ->
  k1 = k2 /\ exists D,
    filter is_down (st_log s1') = filter is_down (st_log s1) ++ D
    /\ filter is_down (st_log s2') = filter is_down (st_log s2) ++ D.
Proof.
  intros Hf. induction l as [|x r IH]; intros s1 s2 k1 k2 s1' s2' E1 E2;
    cbn [Downloader.for_each_async] in E1, E2.
  - injection E1 as <- <-. injection E2 as <- <-. split; [reflexivity|].
    exists []. now rewrite !app_nil_r.
  - apply bind_ok in E1 as (o1 & t1 & F1 & G1). apply bind_ok in E2 as (o2 & t2 & F2 & G2).
    apply bind_ok in G1 as ([ks1 es1] & u1 & P1 & R1).
    apply bind_ok in G2 as ([ks2 es2] & u2 & P2 & R2).
    unfold catch, bind in F1, F2.
    destruct (f x s1) as [[c1|e1] v1] eqn:X1; destruct (f x s2) as [[c2|e2] v2] eqn:X2;
      unfold ret in F1, F2; injection F1 as <- <-; injection F2 as <- <-;
      cbn [fst snd] in R1, R2; unfold ret in R1, R2;
      injection R1 as Hk1 He1 Hs1; injection R2 as Hk2 He2 Hs2; subst; try discriminate.
    destruct (Hf x _ _ _ _ _ _ X1 X2) as [<- (D1 & H1 & H2)].
    destruct (IH _ _ _ _ _ _ P1 P2) as [<- (D2 & K1 & K2)].
    split; [reflexivity|]. exists (D1 ++ D2). rewrite K1, K2, H1, H2, !app_assoc. auto.
Qed.

Lemma for_each_step_same p (r : res (list json)) f :
  (forall x, same_requests (f x)) ->
  forall s1 s2 k1 k2 s1' s2',
  (Downloader.ensure_dir false p ;;; ls <- lift r ;; Downloader.for_each_async f ls) s1
    = (Ok (k1, []), s1') ->
  (Downloader.ensure_dir false p ;;; ls <- lift r ;; Downloader.for_each_async f ls) s2
    = (Ok (k2, []), s2') ->
  k1 = k2 /\ exists D,
    filter is_down (st_log s1') = filter is_down (st_log s1) ++ D
    /\ filter is_down (st_log s2') = filter is_down (st_log s2) ++ D.
Proof.
  intros Hf s1 s2 k1 k2 s1' s2' E1 E2.
  apply bind_ok in E1 as ([] & t1 & F1 & E1). apply bind_ok in E2 as ([] & t2 & F2 & E2).
  apply bind_ok in E1 as (ls1 & u1 & L1 & E1). apply bind_ok in E2 as (ls2 & u2 & L2 & E2).
  apply lift_ok in L1 as [L1 ->]. apply lift_ok in L2 as [L2 ->].
  rewrite L1 in L2. injection L2 as <-.
  rewrite <- (quiet_step _ _ _ _ (quiet_ensure_dir _ _) F1),
          <- (quiet_step _ _ _ _ (quiet_ensure_dir _ _) F2).
  exact (for_each_async_same f ls1 Hf _ _ _ _ _ _ E1 E2).
Qed.

Lemma downloadVersion_requests net root v s s' :
  Downloader.downloadVersion net root v s = (Ok tt, s') ->
  exists ver u, net Downloader.url_meta = RJson ver
    /\ Downloader.manifest_url ver v = Ok (Val (JStr u))
    /\ lookup (st_disk s') (version_json root v) = Some (File (net u))
    /\ filter is_down (st_log s') = filter is_down (st_log s) ++
         [EvDown Downloader.url_meta (root ++ [d_cache; "json"]) "version_manifest.json";
          EvDown u (root ++ [d_versions; v]) (String.append v ".json")].
Proof.
  unfold Downloader.downloadVersion. intros H.
  apply bind_ok in H as ([] & s1 & E1 & H).
  pose proof (quiet_step _ _ _ _ (quiet_ensure_dir _ _) E1) as Q1.
  apply bind_ok in H as ([] & s2 & E2 & H).
  pose proof (down_log net _ _ _ _ _ _ E2) as G2. apply down_ok in E2.
  rewrite <- app_assoc in E2. cbn [app] in E2.
  apply bind_ok in H as (c & s3 & E3 & H).
  pose proof (quiet_step _ _ _ _ (quiet_fs_exists _) E3) as Q3.
  apply fs_exists_ok in E3 as [Ec Hd3].
  assert (Hc : c = true).
  { rewrite Ec. change (root ++ [d_cache; "json"; "version_manifest.json"])
      with (root ++ [d_cache] ++ ["json"; "version_manifest.json"]) in E2.
    rewrite app_assoc, lookup_app in E2. destruct (lookup (st_disk s2) (root ++ [d_cache]));
      [reflexivity | discriminate]. }
  rewrite Hc in H.
  apply bind_ok in H as (ver & s4 & E4 & H).
  pose proof (quiet_step _ _ _ _ (quiet_fs_read_json _) E4) as Q4.
  apply fs_read_json_ok in E4 as [Hv _].
  rewrite Hd3, E2 in Hv. injection Hv as Hn.
  apply bind_ok in H as (vj & s5 & E5 & H). apply lift_ok in E5 as [E5 ->].
  apply bind_ok in H as ([] & s6 & E6 & H).
  pose proof (quiet_step _ _ _ _ (quiet_ensure_dir _ _) E6) as Q6.
  apply bind_ok in H as (u & s7 & E7 & H). apply lift_ok in E7 as [E7 ->].
  apply as_string_ok in E7. subst vj.
  pose proof (down_log net _ _ _ _ _ _ H) as G. apply down_ok in H. rewrite <- app_assoc in H.
  exists ver, u. split; [exact Hn|]. split; [exact E5|]. split; [exact H|].
  rewrite G, filter_app, Q6, Q4, Q3, G2, filter_app, Q1, <- app_assoc. reflexivity.
Qed.

Lemma downloadClient_requests net root v s file s' :
  Downloader.downloadClient net root v s = (Ok file, s') ->
  lookup (st_disk s) (version_json root v) = Some (File (RJson file))
  /\ exists cu,
       (let? x := (let? d := prop (Val file) "downloads" in
                   let? c := prop d "client" in
                   prop c "url") in as_string x) = Ok cu
       /\ filter is_down (st_log s') = filter is_down (st_log s) ++
            [EvDown cu (root ++ [d_versions; v]) (String.append v ".jar")].
Proof.
  unfold Downloader.downloadClient. intros H.
  apply bind_ok in H as (f & s1 & E1 & H).
  pose proof (quiet_step _ _ _ _ (quiet_fs_read_json _) E1) as Q1.
  apply fs_read_json_ok in E1 as [Hf _].
  apply bind_ok in H as (cl & s2 & E2 & H). apply lift_ok in E2 as [E2 ->].
  apply bind_ok in H as ([] & s3 & E3 & H).
  pose proof (quiet_step _ _ _ _ (quiet_ensure_dir _ _) E3) as Q3.
  apply bind_ok in H as (u & s4 & E4 & H). apply lift_ok in E4 as [E4 ->].
  apply bind_ok in H as ([] & s5 & E5 & H). unfold ret in H. injection H as <- <-.
  pose proof (down_log net _ _ _ _ _ _ E5) as G5.
  split; [exact Hf|]. exists u. split.
  - rewrite E2. exact E4.
  - rewrite G5, filter_app, Q3, Q1. reflexivity.
Qed.

Lemma downloadAssets_requests net root v file s s' :
  Downloader.downloadAssets net root v file s = (Ok tt, s') ->
  exists ai idx s0,
    (let? a := prop (Val file) "assetIndex" in let? u := prop a "url" in as_string u) = Ok ai
    /\ net ai = RJson idx
    /\ Downloader.asset_loop net root (Downloader.for_in (jget idx "objects")) s0 = (Ok tt, s')
    /\ filter is_down (st_log s0) = filter is_down (st_log s) ++
         [EvDown ai (root ++ [d_assets; "indexes"]) (String.append v ".json");
          EvDown ai (root ++ [d_cache; "json"]) (String.append v ".json")].
Proof.
  unfold Downloader.downloadAssets. intros H.
  apply bind_ok in H as ([] & s1 & E1 & H).
  pose proof (quiet_step _ _ _ _ (quiet_ensure_dir _ _) E1) as Q1.
  apply bind_ok in H as (ai & s2 & E2 & H). apply lift_ok in E2 as [E2 ->].
  apply bind_ok in H as ([] & s3 & E3 & H).
  pose proof (down_log net _ _ _ _ _ _ E3) as G3. apply down_ok in E3.
  apply bind_ok in H as ([] & s4 & E4 & H).
  pose proof (down_log net _ _ _ _ _ _ E4) as G4.
  assert (L : lookup (st_disk s4) (root ++ [d_assets; "indexes"; String.append v ".json"])
              = Some (File (net ai))).
  { unfold Downloader.down in E4. apply bind_ok in E4 as ([] & s5 & E5 & E4).
    unfold emit in E5. injection E5 as <-.
    rewrite (put_file_branch _ _ _ _ root d_cache ["json"; String.append v ".json"]
               d_assets ["indexes"; String.append v ".json"] E4).
    - cbn [st_disk]. rewrite <- app_assoc in E3. exact E3.
    - now rewrite <- app_assoc.
    - discriminate. }
  apply bind_ok in H as (idx & s5 & E5 & H).
  pose proof (quiet_step _ _ _ _ (quiet_fs_read_json _) E5) as Q5.
  apply fs_read_json_ok in E5 as [E5 _].
  rewrite L in E5. injection E5 as Hn.
  apply bind_ok in H as ([] & s6 & E6 & H).
  pose proof (quiet_step _ _ _ _ (quiet_ensure_dir _ _) E6) as Q6.
  apply bind_ok in H as (objs & s7 & E7 & H). apply lift_ok in E7 as [E7 ->].
  apply prop_val in E7. subst objs.
  exists ai, idx, s6. split; [exact E2|]. split; [exact Hn|]. split; [exact H|].
  rewrite Q6, Q5, G4, filter_app, G3, filter_app, Q1, <- app_assoc. reflexivity.
Qed.

(** C2. No per-file existence check guards a transfer: two runs of
    [download] that complete without an unhandled rejection, over any two
    disks (one of them, say, holding every file of a previous complete
    run), send the same requests in the same order and leave the same work
    pending. The requests open with the version manifest into
    [cache/json], the version metadata, the client jar, and the asset
    index twice, into [assets/indexes] and into [cache/json]; the asset
    objects, the libraries and the natives follow. *)
Theorem download_always_transfers (net : string -> raw) (v : string) (root : path)
    (d1 d2 : node) (k1 k2 : list (M unit)) (s1 s2 : state) :
  Downloader.download net v root (mkState d1 []) = (Ok (k1, []), s1) ->
  Downloader.download net v root (mkState d2 []) = (Ok (k2, []), s2) ->
  filter is_down (st_log s1) = filter is_down (st_log s2) /\ k1 = k2
  /\ exists u cu ai rest,
       filter is_down (st_log s1) =
         EvDown Downloader.url_meta (root ++ [d_cache; "json"]) "version_manifest.json"
         :: EvDown u (root ++ [d_versions; v]) (String.append v ".json")
         :: EvDown cu (root ++ [d_versions; v]) (String.append v ".jar")
         :: EvDown ai (root ++ [d_assets; "indexes"]) (String.append v ".json")
         :: EvDown ai (root ++ [d_cache; "json"]) (String.append v ".json")
         :: rest.
Proof.
  unfold Downloader.download. intros H1 H2.
  apply bind_ok in H1 as ([] & a1 & V1 & H1). apply bind_ok in H2 as ([] & a2 & V2 & H2).
  destruct (downloadVersion_requests _ _ _ _ _ V1) as (ver & u & Hn & Hu & Lv1 & F1).
  destruct (downloadVersion_requests _ _ _ _ _ V2) as (ver' & u' & Hn' & Hu' & Lv2 & F2).
  assert (ver' = ver) by congruence. subst ver'.
  assert (u' = u) by congruence. subst u'.
  apply bind_ok in H1 as (file1 & b1 & C1 & H1). apply bind_ok in H2 as (file2 & b2 & C2 & H2).
  destruct (downloadClient_requests _ _ _ _ _ _ C1) as (Lf1 & cu & Hcu & G1).
  destruct (downloadClient_requests _ _ _ _ _ _ C2) as (Lf2 & cu' & Hcu' & G2).
  assert (file2 = file1) by congruence. subst file2.
  assert (cu' = cu) by congruence. subst cu'.
  apply bind_ok in H1 as ([] & c1 & A1 & H1). apply bind_ok in H2 as ([] & c2 & A2 & H2).
  destruct (downloadAssets_requests _ _ _ _ _ _ A1) as (ai & idx & t1 & Hai & Hidx & Lp1 & T1).
  destruct (downloadAssets_requests _ _ _ _ _ _ A2) as (ai' & idx' & t2 & Hai' & Hidx' & Lp2 & T2).
  assert (ai' = ai) by congruence. subst ai'.
  assert (idx' = idx) by congruence. subst idx'.
  destruct (sr_asset_loop net root _ _ _ _ _ _ _ Lp1 Lp2) as [_ (Da & P1 & P2)].
  apply bind_ok in H1 as ([ks1 es1] & e1 & B1 & H1).
  apply bind_ok in H2 as ([ks2 es2] & e2 & B2 & H2).
  apply bind_ok in H1 as ([ns1 fs1] & f1 & N1 & H1).
  apply bind_ok in H2 as ([ns2 fs2] & f2 & N2 & H2).
  unfold ret in H1, H2. cbn [fst snd] in H1, H2.
  injection H1 as <- Hes1 <-. injection H2 as <- Hes2 <-.
  apply app_eq_nil in Hes1 as [-> ->]. apply app_eq_nil in Hes2 as [-> ->].
  destruct (for_each_step_same _ _ _ (sr_library_start net root) _ _ _ _ _ _ B1 B2)
    as [<- (Dl & K1 & K2)].
  destruct (for_each_step_same _ _ _ (sr_native_start net root v) _ _ _ _ _ _ N1 N2)
    as [<- (Dn & M1 & M2)].
  rewrite M1, M2, K1, K2, P1, P2, T1, T2, G1, G2, F1, F2.
  split; [reflexivity|]. split; [reflexivity|].
  exists u, cu, ai, ((Da ++ Dl) ++ Dn). reflexivity.
Qed.

(** C2 on the sample: [download] completes on the empty installation and,
    once the work it left pending has run, again over the disk that
    results, sending the same requests both times. *)
Lemma download_always_transfers_witness :
  exists k1 s1 k2 s2,
    Downloader.download Sample.net "1.19" Sample.root (mkState Sample.empty_disk [])
      = (Ok (k1, []), s1)
    /\ Downloader.download Sample.net "1.19" Sample.root
         (mkState (st_disk (snd (Downloader.settle k1 [] s1))) []) = (Ok (k2, []), s2)
    /\ filter is_down (st_log s1) = filter is_down (st_log s2).
Proof.
  destruct (Downloader.download Sample.net "1.19" Sample.root (mkState Sample.empty_disk []))
    as [[[k1 [|e es]]|e] s1] eqn:E1; [| vm_compute in E1; discriminate ..].
  destruct (Downloader.download Sample.net "1.19" Sample.root
              (mkState (st_disk (snd (Downloader.settle k1 [] s1))) []))
    as [[[k2 [|e es]]|e] s2] eqn:E2;
    [| vm_compute in E1; injection E1 as <- <-; vm_compute in E2; discriminate ..].
  exists k1, s1, k2, s2. split; [reflexivity|]. split; [exact E2|].
  destruct (download_always_transfers Sample.net "1.19" Sample.root _ _ _ _ _ _ E1 E2)
    as [Hf _]. exact Hf.
Defined.

(** C2, the claim as written fails: once the work a first run left
    pending has run, the client jar and the version metadata are on disk,
    and rerunning the pipeline over that directory transfers again, the
    same requests in the same order. *)
Lemma download_rerun_counterexample :
  match Downloader.download Sample.net "1.19" Sample.root (mkState Sample.empty_disk []) with
  | (Ok (k1, []), s1) =>
      let d := st_disk (snd (Downloader.settle k1 [] s1)) in
      lookup d (Sample.root ++ [d_versions; "1.19"; "1.19.jar"]) <> None
      /\ lookup d (version_json Sample.root "1.19") <> None
      /\ match Downloader.download Sample.net "1.19" Sample.root (mkState d []) with
         | (Ok (_, []), s2) =>
             filter is_down (st_log s2) = filter is_down (st_log s1)
             /\ filter is_down (st_log s2) <> []
         | _ => False
         end
  | _ => False
  end.
Proof. vm_compute. split; [discriminate|]. split; [discriminate|]. split; [reflexivity | discriminate]. Qed.

(* ------------------------------------------------------------------ *)
(** ** What the library and natives steps leave on disk *)

Lemma lookup_dir_nil q c : lookup (Dir []) q <> Some (File c).
Proof. destruct q; cbn; discriminate. Qed.

Lemma mkdir_p_files n p n' :
  mkdir_p n p = Some n' ->
  forall q c, lookup n' q = Some (File c) <-> lookup n q = Some (File c).
Proof.
  revert n n'. induction p as [|x r IH]; intros n n' H q c; cbn [mkdir_p] in H.
  - destruct n as [c0|kids]; [discriminate|]. injection H as <-. reflexivity.
  - destruct n as [c0|kids]; [discriminate|].
    destruct (mkdir_p (match assoc x kids with Some k => k | None => Dir [] end) r)
      as [k'|] eqn:Ek; [|discriminate].
    injection H as <-.
    destruct q as [|y q']; cbn [lookup]; [split; discriminate|].
    destruct (String.eqb_spec x y) as [<-|Hne].
    + rewrite lookup_assoc_set_same, (IH _ _ Ek q' c).
      destruct (assoc x kids) as [k|]; [reflexivity|].
      split; [intros H; exfalso; exact (lookup_dir_nil _ _ H) | discriminate].
    + rewrite lookup_assoc_set_other by exact Hne. reflexivity.
Qed.

Lemma upd_new_dir_files n p n' :
  lookup n p = None -> upd n p (Dir []) = Some n' ->
  forall q c, lookup n' q = Some (File c) <-> lookup n q = Some (File c).
Proof.
  revert n n'. induction p as [|x r IH]; intros n n' Hl H q c; cbn [lookup upd] in Hl, H;
    [discriminate|].
  destruct n as [c0|kids]; [discriminate|].
  destruct (assoc x kids) as [k|] eqn:Ea.
  - destruct (upd k r (Dir [])) as [k'|] eqn:Eu; [|discriminate]. injection H as <-.
    destruct q as [|y q']; cbn [lookup]; [split; discriminate|].
    destruct (String.eqb_spec x y) as [<-|Hne].
    + rewrite lookup_assoc_set_same, Ea. exact (IH _ _ Hl Eu q' c).
    + rewrite lookup_assoc_set_other by exact Hne. reflexivity.
  - destruct r; [|discriminate]. injection H as <-.
    destruct q as [|y q']; cbn [lookup]; [split; discriminate|].
    destruct (String.eqb_spec x y) as [<-|Hne].
    + rewrite lookup_assoc_set_same, Ea.
      split; [intros H; exfalso; exact (lookup_dir_nil _ _ H) | discriminate].
    + rewrite lookup_assoc_set_other by exact Hne. reflexivity.
Qed.

Lemma kf_ret {A} (a : A) : keeps_files (ret a).
Proof. intros s p c. reflexivity. Qed.

Lemma kf_throw {A} er : keeps_files (@throw A er).
Proof. intros s p c. reflexivity. Qed.

Lemma kf_lift {A} (r : res A) : keeps_files (lift r).
Proof. intros s p c. reflexivity. Qed.

Lemma kf_get_disk : keeps_files get_disk.
Proof. intros s p c. reflexivity. Qed.

Lemma kf_emit e : keeps_files (emit e).
Proof. intros s p c. reflexivity. Qed.

Lemma kf_bind {A B} (m : M A) (f : A -> M B) :
  keeps_files m -> (forall a, keeps_files (f a)) -> keeps_files (bind m f).
Proof.
  intros Hm Hf s p c. unfold bind. specialize (Hm s p c).
  destruct (m s) as [[a|er] s1]; cbn in *; [exact (iff_trans (Hf a s1 p c) Hm) | exact Hm].
Qed.

Lemma kf_catch {A} (m : M A) (h : err -> M A) :
  keeps_files m -> (forall er, keeps_files (h er)) -> keeps_files (catch m h).
Proof.
  intros Hm Hh s p c. unfold catch. specialize (Hm s p c).
  destruct (m s) as [[a|er] s1]; cbn in *; [exact Hm | exact (iff_trans (Hh er s1 p c) Hm)].
Qed.

Lemma kf_fs_mkdir r p : keeps_files (fs_mkdir r p).
Proof.
  intros s q c. unfold fs_mkdir. cbv [bind emit get_disk]. cbn [st_disk].
  destruct r.
  - destruct (mkdir_p (st_disk s) p) as [d'|] eqn:E; cbn; [|reflexivity].
    exact (mkdir_p_files _ _ _ E q c).
  - destruct (lookup (st_disk s) p) eqn:El; [reflexivity|].
    destruct (upd (st_disk s) p (Dir [])) as [d'|] eqn:E; cbn; [|reflexivity].
    exact (upd_new_dir_files _ _ _ El E q c).
Qed.

Lemma kf_ensure_dir r p : keeps_files (Downloader.ensure_dir r p).
Proof.
  unfold Downloader.ensure_dir, fs_exists.
  apply kf_bind; [apply kf_bind; [apply kf_emit|intros _; apply kf_bind; [apply kf_get_disk|intros; apply kf_ret]]|].
  intros []; [apply kf_ret | apply kf_fs_mkdir].
Qed.

Create HintDb keep_files.
#[local] Hint Resolve kf_ret kf_throw kf_lift kf_get_disk kf_emit kf_ensure_dir : keep_files.

Ltac kf_solve :=
  repeat first
    [ progress (auto with keep_files)
    | apply kf_bind; [|intros ?]
    | apply kf_catch; [|intros ?]
    | match goal with |- keeps_files (match ?x with _ => _ end) => destruct x end
    | match goal with |- keeps_files (if ?x then _ else _) => destruct x end
    | progress cbv zeta ].

Lemma kf_for_each_async f l :
  (forall x, keeps_files (f x)) -> keeps_files (Downloader.for_each_async f l).
Proof.
  intros Hf. induction l as [|x r IH]; cbn [Downloader.for_each_async]; kf_solve.
Qed.

Lemma kf_library_start net root x : keeps_files (Downloader.library_start net root x).
Proof. unfold Downloader.library_start, Downloader.down_start. kf_solve. Qed.

Lemma kf_native_start net root v x : keeps_files (Downloader.native_start net root v x).
Proof. unfold Downloader.native_start, Downloader.down_start. kf_solve. Qed.

Lemma for_each_async_rejects f l1 x l2 e s r s' :
  (forall s0, fst (f x s0) = Err e) ->
  Downloader.for_each_async f (l1 ++ x :: l2) s = (Ok r, s') -> In e (snd r).
Proof.
  intros Hx. revert s r s'. induction l1 as [|y l1 IH]; intros s r s' H;
    cbn [app Downloader.for_each_async] in H;
    apply bind_ok in H as (o & t & F & H); apply bind_ok in H as ([ks es] & u & P & H).
  - unfold catch, bind in F. specialize (Hx s).
    destruct (f x s) as [[k|e'] w]; cbn in Hx; [discriminate|]. injection Hx as ->.
    unfold ret in F. injection F as <- <-. unfold ret in H. injection H as <- _.
    left; reflexivity.
  - specialize (IH _ _ _ P). destruct o; unfold ret in H; injection H as <- _; cbn;
      [exact IH | right; exact IH].
Qed.

Lemma prop_downloads_undef x :
  x <> JNull -> jget x "downloads" = Undef -> prop (Val x) "downloads" = Ok Undef.
Proof. intros Hn Hx. destruct x; cbn in *; congruence. Qed.

(** X10. [forEach] with an [async] callback only starts the callbacks:
    when [downloadLibraries] or [downloadNatives] returns, whatever the
    disk held and whether or not a callback threw, no file has been
    written, changed or removed; only directories were created and
    requests sent. The jars and archives are written, extracted and
    removed by the work left pending, which runs after [download] has
    resolved. *)
Theorem steps_write_no_file (net : string -> raw) (root : path) (v : string) (file : json)
    (s : state) (p : path) (c : raw) :
  (lookup (st_disk (snd (Downloader.downloadLibraries net root file s))) p = Some (File c)
   <-> lookup (st_disk s) p = Some (File c))
  /\ (lookup (st_disk (snd (Downloader.downloadNatives net root v file s))) p = Some (File c)
      <-> lookup (st_disk s) p = Some (File c)).
Proof.
  split.
  - revert s p c. unfold Downloader.downloadLibraries. kf_solve.
    apply kf_for_each_async. intros x. apply kf_library_start.
  - revert s p c. unfold Downloader.downloadNatives. kf_solve.
    apply kf_for_each_async. intros x. apply kf_native_start.
Qed.

(** X11. A library entry without [downloads] (as the entries of a
    loader's metadata, which carry only a [name]) makes its callback throw
    before its [await], in [downloadLibraries] and in [downloadNatives]
    alike: [forEach] goes on with the other entries, and the step returns
    with that [TypeError] among its unhandled rejections. The process then
    ends: [settle] runs none of the pending work and leaves the state as
    it is. *)
Theorem missing_downloads_rejects (net : string -> raw) (root : path) (v : string)
    (file : json) (l1 : list json) (x : json) (l2 : list json)
    (s : state) (r : list (M unit) * list err) (s' : state) :
  jget file "libraries" = Val (JArr (l1 ++ x :: l2)) ->
  x <> JNull -> jget x "downloads" = Undef ->
  (Downloader.downloadLibraries net root file s = (Ok r, s') ->
   In (TypeError "artifact") (snd r) /\ Downloader.settle (fst r) (snd r) s' = (Ok tt, s'))
  /\ (Downloader.downloadNatives net root v file s = (Ok r, s') ->
      In (TypeError "classifiers") (snd r) /\ Downloader.settle (fst r) (snd r) s' = (Ok tt, s')).
Proof.
  intros Hl Hn Hx. pose proof (prop_downloads_undef x Hn Hx) as Hd.
  assert (Hs : forall e, In e (snd r) -> Downloader.settle (fst r) (snd r) s' = (Ok tt, s')).
  { intros e He. unfold Downloader.settle. destruct (snd r); [destruct He | reflexivity]. }
  split; intros H.
  - unfold Downloader.downloadLibraries in H.
    apply bind_ok in H as ([] & s1 & _ & H). apply bind_ok in H as (ls & s2 & E2 & H).
    apply lift_ok in E2 as [E2 ->]. rewrite (prop_jget _ _ _ Hl) in E2. injection E2 as <-.
    assert (Hin : In (TypeError "artifact") (snd r)).
    { refine (for_each_async_rejects _ _ _ _ _ _ _ _ _ H).
      intros s0. unfold Downloader.library_start, bind, lift. rewrite Hd. reflexivity. }
    exact (conj Hin (Hs _ Hin)).
  - unfold Downloader.downloadNatives in H.
    apply bind_ok in H as ([] & s1 & _ & H). apply bind_ok in H as (ls & s2 & E2 & H).
    apply lift_ok in E2 as [E2 ->]. rewrite (prop_jget _ _ _ Hl) in E2. injection E2 as <-.
    assert (Hin : In (TypeError "classifiers") (snd r)).
    { refine (for_each_async_rejects _ _ _ _ _ _ _ _ _ H).
      intros s0. unfold Downloader.native_start, bind, lift. rewrite Hd. reflexivity. }
    exact (conj Hin (Hs _ Hin)).
Qed.

(** Witness: a metadata file listing a full library and then a loader's
    name-only entry; the library step still starts the first download,
    and returns the rejection of the second entry. *)
Lemma missing_downloads_rejects_witness :
  exists r s',
    Downloader.downloadLibraries Sample.net Sample.root Sample.mixed_json
      (mkState Sample.empty_disk []) = (Ok r, s')
    /\ length (fst r) = 1
    /\ In (TypeError "artifact") (snd r).
Proof.
  destruct (Downloader.downloadLibraries Sample.net Sample.root Sample.mixed_json
              (mkState Sample.empty_disk [])) as [[r|e] s'] eqn:E;
    [| vm_compute in E; discriminate].
  exists r, s'. split; [reflexivity|].
  split; [vm_compute in E; injection E as <- _; reflexivity|].
  destruct (missing_downloads_rejects Sample.net Sample.root "1.19" Sample.mixed_json
              [Sample.lwjgl_lib] (JObj [("name", JStr "net.fabricmc:fabric-loader:0.1")]) []
              (mkState Sample.empty_disk []) r s' eq_refl ltac:(discriminate) eq_refl)
    as [H _].
  exact (proj1 (H E)).
Defined.
